(** * A shallow embedding of the store (store.ts, utils.ts)

    The store keeps one state tree, registries of getters, actions and
    mutations, a write guard and a set of subscribers.  This development
    follows the version of store.ts that tracks dependencies by hand (a
    [deps] set per state property, [runningReaction] on the store, a cached
    value and a dirty flag per getter).  The earlier version of the same file
    has the same [commit], [dispatch], [subscribe], [_withCommit],
    [toObjectStyle], [isPayload], [registerAction] and [registerMutation],
    and the same write guard in the property setter.

    JavaScript objects live in a heap and are referred to by location, so
    that [!==] on objects is comparison of references.  The functions a user
    hands to the store (getters, mutations, actions, subscribers) are
    programs of type [cmd]: trees of the operations user code can perform on
    the store, with the pure computations in between written in Gallina.
    [run] executes such a program against a store; it takes fuel, since
    handlers call [commit] and [dispatch], which call handlers. *)

From Stdlib Require Import ZArith String List Bool Lia.
From stdpp Require Import base gmap strings list pretty.

Open Scope string_scope.
Open Scope list_scope.

(** ** Values *)

Abbreviation loc := nat (only parsing).

(** Numbers are restricted to the integers and NaN; functions and arrays are
    opaque and compared by identity ([VBuiltin] is a function of the engine,
    a member of [Object.prototype] or [Promise.prototype]); every other
    object is a heap location. *)
Inductive value :=
| VUndefined
| VNull
| VBool (b : bool)
| VNum (z : Z)
| VNaN
| VStr (s : string)
| VFun (f : nat)
| VBuiltin (name : string)
| VArr (a : nat)
| VObj (l : loc).

#[global] Instance value_eq_dec : EqDecision value.
Proof. solve_decision. Defined.

(** [typeof val] *)
Definition typeof (val : value) : string :=
  match val with
  | VUndefined => "undefined"
  | VNull => "object"
  | VBool _ => "boolean"
  | VNum _ | VNaN => "number"
  | VStr _ => "string"
  | VFun _ | VBuiltin _ => "function"
  | VArr _ | VObj _ => "object"
  end.

(** [a === b]: by value on primitives, NaN differs from itself, by reference
    on functions, arrays and objects. *)
Definition strict_eq (a b : value) : bool :=
  match a, b with
  | VUndefined, VUndefined => true
  | VNull, VNull => true
  | VBool x, VBool y => Bool.eqb x y
  | VNum x, VNum y => Z.eqb x y
  | VStr x, VStr y => String.eqb x y
  | VFun x, VFun y => Nat.eqb x y
  | VBuiltin x, VBuiltin y => String.eqb x y
  | VArr x, VArr y => Nat.eqb x y
  | VObj x, VObj y => Nat.eqb x y
  | _, _ => false
  end.

(** [a !== b] *)
Definition strict_neq (a b : value) : bool := negb (strict_eq a b).

(** Truthiness, as [if (val)] and [&&] see it. *)
Definition truthy (val : value) : bool :=
  match val with
  | VUndefined | VNull | VNaN => false
  | VBool b => b
  | VNum z => negb (Z.eqb z 0)
  | VStr s => negb (String.eqb s "")
  | VFun _ | VBuiltin _ | VArr _ | VObj _ => true
  end.

(** utils.ts: [typeof val === "object" && val !== null] *)
Definition isObject (val : value) : bool :=
  String.eqb (typeof val) "object" && strict_neq val VNull.

(** utils.ts: [typeof val === "function"] *)
Definition isFunction (val : value) : bool :=
  String.eqb (typeof val) "function".

(** utils.ts: [Array.isArray] *)
Definition isArray (val : value) : bool :=
  match val with VArr _ => true | _ => false end.

(** ** Sets of functions

    A JavaScript [Set] keeps its members in insertion order and holds each
    member once.  Its members here are functions, told apart by an identity
    ([key]). *)
Section JsSet.
Context {A : Type} (key : A -> nat).

Definition Set_has (s : list A) (x : A) : bool :=
  existsb (fun y => Nat.eqb (key y) (key x)) s.

(** [s.add(x)] *)
Definition Set_add (s : list A) (x : A) : list A :=
  if Set_has s x then s else s ++ [x].

(** [s.delete(x)], by identity *)
Definition Set_delete (s : list A) (f : nat) : list A :=
  filter (fun y => key y <> f) s.

(** utils.ts: [const set = new Set(); val.forEach(set.add, set); return set] *)
Definition setFromForeachable (val : list A) : list A :=
  fold_left Set_add val [].
End JsSet.

(** ** Heap objects *)

(** A property of a plain object: either the accessor pair [_initState]
    defines (its closure holds [currentValue] and [deps]), or an ordinary
    data property. *)
Inductive slot :=
| Cell (currentValue : value) (deps : list nat)
| Data (v : value).

Inductive promise_state :=
| Pending
| Resolved (v : value)          (* fulfilled with [v] *)
| Adopted (thenable : value).   (* pending: it follows [thenable], whose
                                   [then] the engine calls later *)

Inductive object :=
| OPlain (props : gmap string slot)
| OPromise (s : promise_state).

(** The names every object inherits from [Object.prototype]. *)
Definition Object_prototype : list string :=
  [ "constructor"; "hasOwnProperty"; "isPrototypeOf"; "propertyIsEnumerable";
    "toLocaleString"; "toString"; "valueOf"; "__proto__";
    "__defineGetter__"; "__defineSetter__"; "__lookupGetter__";
    "__lookupSetter__" ].

Definition inherited (k : string) : bool := bool_decide (k ∈ Object_prototype).

Definition Promise_prototype : list string := [ "then"; "catch"; "finally" ].

(** ** Programs of user code *)

(** What user code (a handler, a subscriber, or a script that uses the store
    from outside) can do.  [cont] is the rest of the program.  The programs
    are synchronous and catch nothing: there is no [try ... catch] among
    the operations, so an exception ends the program that raised it and
    every program that called it, and a program that returns is one in
    which nothing was thrown.  [async] functions and the callbacks of
    promises are outside the model. *)
Inductive cmd :=
| Ret (v : value)                                         (* return v *)
| ThrowC (v : value)                                      (* throw v *)
| GetProp (o : value) (k : string) (cont : value -> cmd)  (* o[k] *)
| SetProp (o : value) (k : string) (v : value) (cont : cmd) (* o[k] = v *)
| NewObject (fields : list (string * value)) (cont : value -> cmd) (* { ... } *)
| NewPromise (cont : value -> cmd)                        (* new Promise(...), pending *)
| ReadGetter (k : string) (cont : value -> cmd)           (* getters[k] *)
| Commit (_type _payload : value) (cont : cmd)            (* commit(_type, _payload) *)
| Dispatch (_type _payload : value) (cont : value -> cmd) (* dispatch(_type, _payload) *)
| Subscribe (f : nat) (fn : value -> value -> cmd) (cont : cmd) (* subscribe(fn) *)
| Unsubscribe (f : nat) (cont : cmd).                     (* the function subscribe(fn) returned *)

(** [(state, getters) => any]; [getters] is read with [ReadGetter]. *)
Abbreviation Getter := (value -> cmd) (only parsing).
(** [(ctx, payload) => any]; the argument is [ctx.state], and [ctx.commit],
    [ctx.dispatch], [ctx.getters] are the operations of [cmd]. *)
Abbreviation Action := (value -> value -> cmd) (only parsing).
(** [(state, payload) => any] *)
Abbreviation Mutation := (value -> value -> cmd) (only parsing).
(** [(mutation, state) => any], with the identity of the function. *)
Abbreviation Subscriber := (nat * (value -> value -> cmd))%type (only parsing).

(** The variables [registerGetter] closes over, one record per call. *)
Record getter_closure := GetterClosure {
  gc_handler : Getter;
  gc_isDirty : bool;
  gc_value : value
}.

(** What was called, in order; the model's only addition to the store. *)
Inductive event :=
| EvGetter (c : nat)                      (* handler(store.state, store.getters) of closure c *)
| EvReaction (c : nat)                    (* () => (isDirty = true) of closure c *)
| EvMutation (type : string) (payload : value) (isCommitting : bool)
| EvAction (type : string) (payload : value)
| EvSubscriber (f : nat) (mutationArguments state : value).

#[global] Instance event_eq_dec : EqDecision event.
Proof. solve_decision. Defined.

(** ** The store *)

Record Store := mkStore {
  heap : list object;
  _state : value;
  _getters : gmap string nat;            (* property name to closure *)
  closures : list getter_closure;
  _actions : gmap string Action;
  _mutations : gmap string Mutation;
  strict : bool;
  isCommitting : bool;
  runningReaction : option nat;
  subscribers : list Subscriber;
  log : list event
}.

Definition with_heap (h : list object) (st : Store) : Store :=
  mkStore h (_state st) (_getters st) (closures st) (_actions st)
    (_mutations st) (strict st) (isCommitting st) (runningReaction st)
    (subscribers st) (log st).
Definition with_state (v : value) (st : Store) : Store :=
  mkStore (heap st) v (_getters st) (closures st) (_actions st)
    (_mutations st) (strict st) (isCommitting st) (runningReaction st)
    (subscribers st) (log st).
Definition with_getters (g : gmap string nat) (st : Store) : Store :=
  mkStore (heap st) (_state st) g (closures st) (_actions st)
    (_mutations st) (strict st) (isCommitting st) (runningReaction st)
    (subscribers st) (log st).
Definition with_closures (cs : list getter_closure) (st : Store) : Store :=
  mkStore (heap st) (_state st) (_getters st) cs (_actions st)
    (_mutations st) (strict st) (isCommitting st) (runningReaction st)
    (subscribers st) (log st).
Definition with_actions (a : gmap string Action) (st : Store) : Store :=
  mkStore (heap st) (_state st) (_getters st) (closures st) a
    (_mutations st) (strict st) (isCommitting st) (runningReaction st)
    (subscribers st) (log st).
Definition with_mutations (m : gmap string Mutation) (st : Store) : Store :=
  mkStore (heap st) (_state st) (_getters st) (closures st) (_actions st)
    m (strict st) (isCommitting st) (runningReaction st)
    (subscribers st) (log st).
Definition with_isCommitting (b : bool) (st : Store) : Store :=
  mkStore (heap st) (_state st) (_getters st) (closures st) (_actions st)
    (_mutations st) (strict st) b (runningReaction st)
    (subscribers st) (log st).
Definition with_runningReaction (r : option nat) (st : Store) : Store :=
  mkStore (heap st) (_state st) (_getters st) (closures st) (_actions st)
    (_mutations st) (strict st) (isCommitting st) r
    (subscribers st) (log st).
Definition with_subscribers (s : list Subscriber) (st : Store) : Store :=
  mkStore (heap st) (_state st) (_getters st) (closures st) (_actions st)
    (_mutations st) (strict st) (isCommitting st) (runningReaction st)
    s (log st).
Definition emit (e : event) (st : Store) : Store :=
  mkStore (heap st) (_state st) (_getters st) (closures st) (_actions st)
    (_mutations st) (strict st) (isCommitting st) (runningReaction st)
    (subscribers st) (log st ++ [e]).

(** ** Outcomes *)

Inductive exn :=
| JsError (msg : string)        (* new Error(msg) *)
| JsTypeError (msg : string)    (* new TypeError(msg) *)
| NotCallable                   (* the engine's TypeError: the callee is not a function *)
| NullishProperty               (* the engine's TypeError: property of undefined or null *)
| CannotRedefine                (* the engine's TypeError: defineProperty on a fixed property *)
| Thrown (v : value).           (* thrown by user code *)

(** A call returns, throws (the store stays as it was when the exception
    left it: nothing is rolled back), leaves the part of JavaScript that is
    modelled, or runs out of fuel. *)
Inductive outcome (A : Type) :=
| Ok (a : A) (st : Store)
| Throw (e : exn) (st : Store)
| Unmodelled
| OutOfFuel.
Arguments Ok {A} a st.
Arguments Throw {A} e st.
Arguments Unmodelled {A}.
Arguments OutOfFuel {A}.

Definition bind {A B} (x : outcome A) (f : A -> Store -> outcome B) : outcome B :=
  match x with
  | Ok a st => f a st
  | Throw e st => Throw e st
  | Unmodelled => Unmodelled
  | OutOfFuel => OutOfFuel
  end.

Notation "'call' x 'as' a 'on' st 'in' y" :=
  (bind x (fun a st => y))
  (at level 10, x at level 100, a name, st name, y at level 200).

Definition alloc (o : object) (st : Store) : value * Store :=
  (VObj (length (heap st)), with_heap (heap st ++ [o]) st).

(** What a lookup [registry[key]] on one of the store's registries finds:
    the registries are plain objects ([{}]), so a name that was not
    registered may still be inherited from [Object.prototype]. *)
Inductive lookup_result (A : Type) :=
| Found (a : A)
| Inherits
| Absent.
Arguments Found {A} a.
Arguments Inherits {A}.
Arguments Absent {A}.

Definition registry_get {A} (registry : gmap string A) (key : string)
  : lookup_result A :=
  match registry !! key with
  | Some a => Found a
  | None => if inherited key then Inherits else Absent
  end.

(** The property key a value used as [registry[type]] stands for; [None]
    where the conversion depends on what the model leaves opaque. *)
Definition to_property_key (type : value) : option string :=
  match type with
  | VStr s => Some s
  | VUndefined => Some "undefined"
  | VNull => Some "null"
  | VBool b => Some (if b then "true" else "false")
  | VNaN => Some "NaN"
  | VNum z => if (Z.abs z <? 10 ^ 21)%Z then Some (pretty z) else None
  | VFun _ | VBuiltin _ | VArr _ | VObj _ => None
  end.

(** ** The operations of store.ts *)

Section Semantics.

(** env: [process.env.NODE_ENV === "development" || process.env.NODE_ENV === "test"] *)
Variable NOT_PRODUCTION : bool.

(** The reaction [() => (isDirty = true)] of closure [c]. *)
Definition reaction (c : nat) (st : Store) : Store :=
  emit (EvReaction c)
    (with_closures
       (alter (fun cl => GetterClosure (gc_handler cl) true (gc_value cl)) c
          (closures st)) st).

(** [deps.forEach(fn => fn())] *)
Definition forEach_deps (deps : list nat) (st : Store) : Store :=
  fold_left (fun st c => reaction c st) deps st.

(** The heap where the object at [l] has the property [k] (re)defined. *)
Definition define (l : loc) (k : string) (s : slot) (h : list object)
  : list object :=
  alter (fun o => match o with
                  | OPlain props => OPlain (<[k := s]> props)
                  | OPromise p => OPromise p
                  end) l h.

(** [o[k]].  On a property defined by [_initState] this is its [get()]:
    [if (store.runningReaction) deps.add(store.runningReaction);
     return currentValue]. *)
Definition get_prop (st : Store) (o : value) (k : string) : outcome value :=
  match o with
  | VUndefined | VNull => Throw NullishProperty st
  | VObj l =>
    match heap st !! l with
    | Some (OPlain props) =>
      match props !! k with
      | Some (Cell currentValue deps) =>
        match runningReaction st with
        | Some r =>
          Ok currentValue
            (with_heap
               (define l k (Cell currentValue (Set_add id deps r)) (heap st))
               st)
        | None => Ok currentValue st
        end
      | Some (Data v) => Ok v st
      | None =>
        if inherited k then
          if String.eqb k "__proto__" then Unmodelled
          else Ok (VBuiltin ("Object.prototype." +:+ k)) st
        else Ok VUndefined st
      end
    | Some (OPromise _) =>
      if bool_decide (k ∈ Promise_prototype)
      then Ok (VBuiltin ("Promise.prototype." +:+ k)) st
      else if inherited k then Unmodelled else Ok VUndefined st
    | None => Unmodelled
    end
  | VArr _ =>
    (* arrays are opaque; they have no property of these three names *)
    if bool_decide (k ∈ ["type"; "then"; "catch"]) then Ok VUndefined st
    else Unmodelled
  | VBool _ | VNum _ | VNaN | VStr _ | VFun _ | VBuiltin _ => Unmodelled
  end.

(** [o[k] = newVal].  On a property defined by [_initState] this is its
    [set(newVal)]; on a name the object does not have, the assignment adds
    an ordinary property. *)
Definition set_prop (st : Store) (o : value) (k : string) (newVal : value)
  : outcome unit :=
  match o with
  | VUndefined | VNull => Throw NullishProperty st
  | VObj l =>
    match heap st !! l with
    | Some (OPlain props) =>
      match props !! k with
      | Some (Cell currentValue deps) =>
        if strict st && negb (isCommitting st) && NOT_PRODUCTION then
          Throw (JsError "do not mutate store state outside mutation handlers") st
        else
          let st1 :=
            if strict_neq newVal currentValue then forEach_deps deps st
            else st in
          Ok tt (with_heap (define l k (Cell newVal deps) (heap st1)) st1)
      | Some (Data _) =>
        Ok tt (with_heap (define l k (Data newVal) (heap st)) st)
      | None =>
        if String.eqb k "__proto__" then Unmodelled
        else Ok tt (with_heap (define l k (Data newVal) (heap st)) st)
      end
    | Some (OPromise _) => Unmodelled
    | None => Unmodelled
    end
  | VArr _ | VBool _ | VNum _ | VNaN | VStr _ | VFun _ | VBuiltin _ =>
    Unmodelled
  end.

(** utils.ts: [isObject(val) && isFunction(val.then) && isFunction(val.catch)] *)
Definition isPromise (st : Store) (val : value) : outcome bool :=
  if isObject val then
    call get_prop st val "then" as then_ on st in
    if isFunction then_ then
      call get_prop st val "catch" as catch_ on st in
      Ok (isFunction catch_) st
    else Ok false st
  else Ok false st.

(** [isObject(val) && val.type], the value of the conjunction *)
Definition isPayload (st : Store) (val : value) : outcome value :=
  if isObject val then get_prop st val "type" else Ok (VBool false) st.

(** [toObjectStyle(_type, _payload)], which returns [{ type, payload }] *)
Definition toObjectStyle (st : Store) (_type _payload : value)
  : outcome (value * value) :=
  call isPayload st _type as is_payload on st in
  call (if truthy is_payload then
          call get_prop st _type "type" as type on st in
          Ok (type, _type) st
        else Ok (_type, _payload) st) as tp on st in
  let '(type, payload) := tp in
  if NOT_PRODUCTION then
    let typeOfType := typeof type in
    if negb (String.eqb typeOfType "string") then
      Throw (JsTypeError
               ("expects string as the type, but found " +:+ typeOfType +:+ "."))
        st
    else Ok (type, payload) st
  else Ok (type, payload) st.

(** [const isCommitting = this.isCommitting; this.isCommitting = true;
     cb(); this.isCommitting = isCommitting] *)
Definition _withCommit {A} (cb : Store -> outcome A) (st : Store)
  : outcome unit :=
  let isCommitting0 := isCommitting st in
  call cb (with_isCommitting true st) as _r on st in
  Ok tt (with_isCommitting isCommitting0 st).

(** [subscribers.add(fn)]; the function [subscribe] returns is
    [unsubscribe] at [fn]'s identity. *)
Definition subscribe (st : Store) (fn : Subscriber) : Store :=
  with_subscribers (Set_add fst (subscribers st) fn) st.

(** [() => { subscribers.delete(fn); }] *)
Definition unsubscribe (st : Store) (f : nat) : Store :=
  with_subscribers (Set_delete fst (subscribers st) f) st.

Section Calls.
(** How user code is run: [run] with the fuel that is left. *)
Variable exec : cmd -> Store -> outcome value.

(** [const getter = () => handler(store.state, store.getters)] *)
Definition getter_call (c : nat) (st : Store) : outcome value :=
  match closures st !! c with
  | Some cl => exec (gc_handler cl (_state st)) (emit (EvGetter c) st)
  | None => Unmodelled
  end.

(** The [get()] that [registerGetter] defines on [store._getters]:
    [if (isDirty) { value = getter(); isDirty = false; } return value] *)
Definition getter_get (c : nat) (st : Store) : outcome value :=
  match closures st !! c with
  | Some cl =>
    if gc_isDirty cl then
      call getter_call c st as value on st in
      Ok value
        (with_closures
           (alter (fun cl => GetterClosure (gc_handler cl) false value) c
              (closures st)) st)
    else Ok (gc_value cl) st
  | None => Unmodelled
  end.

(** [store.getters[k]] *)
Definition getters_get (st : Store) (k : string) : outcome value :=
  match _getters st !! k with
  | Some c => getter_get c st
  | None =>
    if inherited k then
      if String.eqb k "__proto__" then Unmodelled
      else Ok (VBuiltin ("Object.prototype." +:+ k)) st
    else Ok VUndefined st
  end.

(** The function [registerMutation] stores:
    [(payload) => { handler.call(store, store.state, payload); }] *)
Definition mutation_wrapper (type : string) (handler : Mutation)
  (payload : value) (st : Store) : outcome value :=
  call exec (handler (_state st) payload)
         (emit (EvMutation type payload (isCommitting st)) st)
    as _r on st in
  Ok VUndefined st.

(** [val] is a promise of the engine. *)
Definition is_engine_promise (st : Store) (val : value) : bool :=
  match val with
  | VObj l =>
    match heap st !! l with
    | Some (OPromise _) => true
    | _ => false
    end
  | _ => false
  end.

(** [Promise.resolve(res)].  A promise of the engine is returned as it is.
    Of anything else the engine makes a new promise: it reads [res.then]
    where [res] is an object or a function; if that is callable ([res] is a
    thenable) the new promise adopts [res] and stays pending until the
    [then] of [res], called later, settles it; otherwise, and where [res]
    is a primitive, the new promise is fulfilled with [res]. *)
Definition Promise_resolve (res : value) (st : Store) : outcome value :=
  if is_engine_promise st res then Ok res st
  else if isObject res || isFunction res then
    call get_prop st res "then" as then_ on st in
    let '(p, st) :=
      alloc (OPromise (if isFunction then_ then Adopted res else Resolved res))
        st in
    Ok p st
  else
    let '(p, st) := alloc (OPromise (Resolved res)) st in Ok p st.

(** The function [registerAction] stores. *)
Definition action_wrapper (type : string) (handler : Action)
  (payload : value) (st : Store) : outcome value :=
  call exec (handler (_state st) payload) (emit (EvAction type payload) st)
    as res on st in
  call isPromise st res as is_promise on st in
  if negb is_promise then Promise_resolve res st else Ok res st.

(** [subscribersCopy.forEach(sub => sub(mutationArguments, state))] *)
Fixpoint forEach_subscribers (subscribersCopy : list Subscriber)
  (mutationArguments state : value) (st : Store) : outcome unit :=
  match subscribersCopy with
  | [] => Ok tt st
  | sub :: rest =>
    call exec (snd sub mutationArguments state)
           (emit (EvSubscriber (fst sub) mutationArguments state) st)
      as _r on st in
    forEach_subscribers rest mutationArguments state st
  end.

(** The method [commit] *)
Definition commit_with (st : Store) (_type _payload : value)
  : outcome value :=
  call toObjectStyle st _type _payload as tp on st in
  let '(type, payload) := tp in
  match to_property_key type with
  | None => Unmodelled
  | Some key =>
    let mutation := registry_get (_mutations st) key in
    call _withCommit
           (fun st =>
              match mutation with
              | Found handler => mutation_wrapper key handler payload st
              | Inherits => Unmodelled
              | Absent => Throw NotCallable st
              end) st
      as _r on st in
    let state := _state st in
    let subscribers := subscribers st in
    let '(mutationArguments, st) :=
      alloc (OPlain (<["payload" := Data payload]>
                       (<["type" := Data type]> ∅))) st in
    let subscribersCopy := setFromForeachable fst subscribers in
    call forEach_subscribers subscribersCopy mutationArguments state st
      as _r on st in
    Ok VUndefined st
  end.

(** The method [dispatch] *)
Definition dispatch_with (st : Store) (_type _payload : value)
  : outcome value :=
  call toObjectStyle st _type _payload as tp on st in
  let '(type, payload) := tp in
  match to_property_key type with
  | None => Unmodelled
  | Some key =>
    let action := registry_get (_actions st) key in
    match action with
    | Found handler => action_wrapper key handler payload st
    | Inherits => Unmodelled
    | Absent => Throw NotCallable st
    end
  end.

(** [registerGetter(store, type, handler)]: a new closure, the first call of
    the getter's function under [runningReaction], and the property. *)
Definition registerGetter (type : string) (handler : Getter) (st : Store)
  : outcome unit :=
  call getters_get st type as existing on st in
  if truthy existing then
    if NOT_PRODUCTION then Throw (JsError ("duplicate getter " +:+ type)) st
    else Ok tt st
  else
    let c := length (closures st) in
    let st :=
      with_closures (closures st ++ [GetterClosure handler false VUndefined])
        st in
    let st := with_runningReaction (Some c) st in
    call getter_call c st as value on st in
    let st :=
      with_closures
        (alter (fun cl => GetterClosure (gc_handler cl) (gc_isDirty cl) value)
           c (closures st)) st in
    let st := with_runningReaction None st in
    match _getters st !! type with
    | Some _ => Throw CannotRedefine st
    | None => Ok tt (with_getters (<[type := c]> (_getters st)) st)
    end.
End Calls.

(** [registerAction(store, type, handler)] *)
Definition registerAction (type : string) (handler : Action) (st : Store)
  : outcome unit :=
  match registry_get (_actions st) type with
  | Found _ | Inherits =>
    if NOT_PRODUCTION then Throw (JsError ("duplicate action " +:+ type)) st
    else Ok tt st
  | Absent => Ok tt (with_actions (<[type := handler]> (_actions st)) st)
  end.

(** [registerMutation(store, type, handler)] *)
Definition registerMutation (type : string) (handler : Mutation) (st : Store)
  : outcome unit :=
  match registry_get (_mutations st) type with
  | Found _ | Inherits =>
    if NOT_PRODUCTION then Throw (JsError ("duplicate mutation " +:+ type)) st
    else Ok tt st
  | Absent => Ok tt (with_mutations (<[type := handler]> (_mutations st)) st)
  end.

(** [Object.entries(obj).forEach(handler)]; [obj] is given by its entries,
    the list [Object.entries(obj)]. *)
Fixpoint forEachEntry {A} (obj : list (string * A))
  (handler : string -> A -> Store -> outcome unit) (st : Store)
  : outcome unit :=
  match obj with
  | [] => Ok tt st
  | (key, value) :: rest =>
    call handler key value st as _r on st in forEachEntry rest handler st
  end.

(** Running user code. *)
Fixpoint run (fuel : nat) (c : cmd) (st : Store) {struct fuel}
  : outcome value :=
  match fuel with
  | O => OutOfFuel
  | S fuel =>
    match c with
    | Ret v => Ok v st
    | ThrowC v => Throw (Thrown v) st
    | GetProp o k cont =>
      call get_prop st o k as v on st in run fuel (cont v) st
    | SetProp o k v cont =>
      call set_prop st o k v as _r on st in run fuel cont st
    | NewObject fields cont =>
      let '(o, st) := alloc (OPlain (Data <$> list_to_map fields)) st in
      run fuel (cont o) st
    | NewPromise cont =>
      let '(p, st) := alloc (OPromise Pending) st in run fuel (cont p) st
    | ReadGetter k cont =>
      call getters_get (run fuel) st k as v on st in run fuel (cont v) st
    | Commit _type _payload cont =>
      call commit_with (run fuel) st _type _payload as _r on st in
      run fuel cont st
    | Dispatch _type _payload cont =>
      call dispatch_with (run fuel) st _type _payload as v on st in
      run fuel (cont v) st
    | Subscribe f fn cont => run fuel cont (subscribe st (f, fn))
    | Unsubscribe f cont => run fuel cont (unsubscribe st f)
    end
  end.

(** [store.commit(_type, _payload)] *)
Definition commit (fuel : nat) (st : Store) (_type _payload : value)
  : outcome value :=
  commit_with (run fuel) st _type _payload.

(** [store.dispatch(_type, _payload)] *)
Definition dispatch (fuel : nat) (st : Store) (_type _payload : value)
  : outcome value :=
  dispatch_with (run fuel) st _type _payload.

(** [store.getters[k]] *)
Definition getters (fuel : nat) (st : Store) (k : string) : outcome value :=
  getters_get (run fuel) st k.

End Semantics.

(** ** Construction *)

(** What [_initState] stores as it is:
    [isObject(value) && !isArray(value)] is false. *)
Definition is_leaf (val : value) : bool :=
  negb (isObject val && negb (isArray val)).

(** The initial state handed to the constructor: an object literal whose
    values are nested object literals ([PObj]) or leaves ([PLeaf], with
    [is_leaf]: primitives, functions and arrays). *)
#[warnings="-register-all"]
Inductive plain :=
| PLeaf (v : value)
| PObj (entries : list (string * plain)).

(** [_initState]: [init_value value] stands for
    [isObject(value) && !isArray(value) ? this._initState(value) : value];
    the fold is [Object.entries(obj).reduce(..., {})], which defines one
    accessor property, with a fresh [deps], per entry. *)
Fixpoint init_value (val : plain) (h : list object) : value * list object :=
  match val with
  | PLeaf v => (v, h)
  | PObj entries =>
    let state := length h in
    let reduce :=
      fix reduce (entries : list (string * plain)) (h : list object) :=
        match entries with
        | [] => h
        | (key, val) :: rest =>
          let '(currentValue, h) := init_value val h in
          reduce rest (define state key (Cell currentValue []) h)
        end in
    (VObj state, reduce entries (h ++ [OPlain ∅]))
  end.

(** [this._state = this._initState(state)] *)
Definition _initState (obj : list (string * plain)) (st : Store) : Store :=
  let '(state, h) := init_value (PObj obj) (heap st) in
  with_state state (with_heap h st).

(** The options of the constructor.  Each object of handlers is given by
    its entries, the list [Object.entries] yields for it: one entry per
    name, the names that are array indices first, in ascending order, then
    the others in the order in which they were written. *)
Record Options := mkOptions {
  o_state : list (string * plain);
  o_actions : list (string * Action);
  o_mutations : list (string * Mutation);
  o_getters : list (string * Getter);
  o_strict : bool
}.

(** The defaults: [state = {}], [actions = {}], [mutations = {}],
    [getters = {}], [strict = true]. *)
Definition default_options : Options := mkOptions [] [] [] [] true.

(** [new Store(options)] *)
Definition new_Store (NOT_PRODUCTION : bool) (fuel : nat) (options : Options)
  : outcome unit :=
  let store :=
    mkStore [] VUndefined ∅ [] ∅ ∅ (o_strict options) false None [] [] in
  let store := _initState (o_state options) store in
  call forEachEntry (o_getters options)
         (registerGetter NOT_PRODUCTION (run NOT_PRODUCTION fuel)) store
    as _r on store in
  call forEachEntry (o_actions options) (registerAction NOT_PRODUCTION) store
    as _r on store in
  forEachEntry (o_mutations options) (registerMutation NOT_PRODUCTION) store.

(** ** Scenarios: the tests of store.spec.ts, and stores for the examples *)

Module Scenarios.

Definition TEST := "TEST".

(** [a + b] on the numbers of the model *)
Definition plus (a b : value) : value :=
  match a, b with
  | VNum x, VNum y => VNum (x + y)
  | _, _ => VNaN
  end.

(** [state.a += n] *)
Definition add_to_a : Mutation :=
  fun state n =>
    GetProp state "a" (fun a => SetProp state "a" (plus a n) (Ret VUndefined)).

(** [state.a = n] *)
Definition assign_a : Mutation :=
  fun state n => SetProp state "a" n (Ret VUndefined).

(** [state => (state.a > 0 ? "hasAny" : "none")] *)
Definition stateGetter : Getter :=
  fun state =>
    GetProp state "a" (fun a =>
      Ret (match a with
           | VNum z => if (0 <? z)%Z then VStr "hasAny" else VStr "none"
           | _ => VStr "none"
           end)).

(** Runs a script against the store the constructor returns. *)
Definition script (fuel : nat) (options : Options) (c : value -> cmd)
  : outcome value :=
  call new_Store true fuel options as _r on store in
  run true fuel (c (_state store)) store.

Definition result {A} (x : outcome A) : option A :=
  match x with Ok a _ => Some a | _ => None end.

Definition count_getter (c : nat) (l : list event) : nat :=
  length (filter (fun e => e = EvGetter c) l).

(** The store a call leaves. *)
Definition built {A} (x : outcome A) : Store :=
  match x with
  | Ok _ store | Throw _ store => store
  | _ => mkStore [] VUndefined ∅ [] ∅ ∅ true false None [] []
  end.

(** [new Store({ state: { a: 1 }, mutations: { [TEST](state, n) { state.a += n } }, strict })] *)
Definition store_a (strict : bool) : Store :=
  built (new_Store true 5
           (mkOptions [("a", PLeaf (VNum 1))] [] [(TEST, add_to_a)] [] strict)).

(** [new Store({ state: { a: 0 }, getters: { state: stateGetter },
    mutations: { [TEST](state, n) { state.a = n } } })] *)
Definition store_getter : Store :=
  built (new_Store true 5
           (mkOptions [("a", PLeaf (VNum 0))] [] [(TEST, assign_a)]
              [("state", stateGetter)] true)).

(** A store whose only mutation is registered under the empty name, and
    the object [{ type: "" }]:
    [new Store({ state: { a: 1 }, mutations: { ""(state, n) { state.a += n } } })] *)
Definition store_unnamed : Store :=
  snd (alloc (OPlain (<["type" := Data (VStr "")]> ∅))
         (built (new_Store true 5
                   (mkOptions [("a", PLeaf (VNum 1))] [] [("", add_to_a)] [] true)))).

(** [state.a += payload.amount] *)
Definition add_amount_to_a : Mutation :=
  fun state payload =>
    GetProp payload "amount" (fun amount =>
      GetProp state "a" (fun a =>
        SetProp state "a" (plus a amount) (Ret VUndefined))).

(** The test "committing mutations": [store.commit(TEST, n); store.state.a] *)
Definition committing_mutations (n : Z) : outcome value :=
  script 10 (mkOptions [("a", PLeaf (VNum 1))] [] [(TEST, add_to_a)] [] true)
    (fun state => Commit (VStr TEST) (VNum n) (GetProp state "a" Ret)).

(** The test "committing with object style":
    [store.commit({ type: TEST, amount: n }); store.state.a] *)
Definition committing_with_object_style (n : Z) : outcome value :=
  script 10 (mkOptions [("a", PLeaf (VNum 1))] [] [(TEST, add_amount_to_a)] [] true)
    (fun state =>
       NewObject [("type", VStr TEST); ("amount", VNum n)] (fun o =>
         Commit o VUndefined (GetProp state "a" Ret))).

(** A store with two subscribers; the first, when called, unsubscribes
    itself and subscribes a third:
    [const off = store.subscribe(() => { off(); store.subscribe(third); });
     store.subscribe(second)] *)
Definition store_subscribed : Store :=
  match
    run true 5
      (Subscribe 1 (fun _ _ =>
                      Unsubscribe 1
                        (Subscribe 3 (fun _ _ => Ret VUndefined) (Ret VUndefined)))
         (Subscribe 2 (fun _ _ => Ret VUndefined) (Ret VUndefined)))
      (store_a true)
  with
  | Ok _ store => store
  | _ => store_a true
  end.

(** A store whose mutation throws:
    [new Store({ state: { a: 1 }, mutations: { boom() { throw "boom" } } })] *)
Definition store_throwing : Store :=
  built (new_Store true 5
           (mkOptions [("a", PLeaf (VNum 1))] []
              [("boom", fun _ _ => ThrowC (VStr "boom"))] [] true)).

(** [store.commit(TEST, 2)] on [store_subscribed]: the store when the
    handler has returned, and the store when [commit] has returned. *)
Definition subscribed_after_handler : Store :=
  built (run true 10 (add_to_a (VObj 0) (VNum 2))
           (emit (EvMutation TEST (VNum 2) true)
              (with_isCommitting true store_subscribed))).

Definition subscribed_after_commit : Store :=
  built (commit true 10 store_subscribed (VStr TEST) (VNum 2)).



(** A getter whose reads depend on the state:
    [new Store({ state: { a: 0, b: 5 },
                 getters: { g: state => (state.a > 0 ? state.b : 0) },
                 mutations: { setA(state, n) { state.a = n },
                              setB(state, n) { state.b = n } } })] *)
Definition b_if_a : Getter :=
  fun state =>
    GetProp state "a" (fun a =>
      match a with
      | VNum z => if (0 <? z)%Z then GetProp state "b" Ret else Ret (VNum 0)
      | _ => Ret (VNum 0)
      end).

Definition store_b_if_a : Store :=
  built (new_Store true 5
           (mkOptions [("a", PLeaf (VNum 0)); ("b", PLeaf (VNum 5))] []
              [("setA", fun state n => SetProp state "a" n (Ret VUndefined));
               ("setB", fun state n => SetProp state "b" n (Ret VUndefined))]
              [("g", b_if_a)] true)).

(** [store.commit("setA", 1); store.getters.g] *)
Definition b_if_a_first : outcome value :=
  run true 10
    (Commit (VStr "setA") (VNum 1) (ReadGetter "g" Ret)) store_b_if_a.

(** then [store.commit("setB", 7); store.getters.g] *)
Definition b_if_a_second : outcome value :=
  run true 10
    (Commit (VStr "setB") (VNum 7) (ReadGetter "g" Ret)) (built b_if_a_first).

(** The test "invokes getters only when its dependencies changed":
    the values read and the number of calls of [stateGetter] after each
    read. *)
Definition invokes_getters_only_when_changed : list (option value * nat) :=
  let read x := (result x, count_getter 0 (log (built x))) in
  let r1 := run true 10 (ReadGetter "state" Ret) store_getter in
  let r2 := run true 10 (Commit (VStr TEST) (VNum 0) (ReadGetter "state" Ret)) (built r1) in
  let r3 := run true 10 (Commit (VStr TEST) (VNum 1) (ReadGetter "state" Ret)) (built r2) in
  let r4 := run true 10 (Commit (VStr TEST) (VNum 1) (ReadGetter "state" Ret)) (built r3) in
  [read r1; read r2; read r3; read r4].

End Scenarios.

(** ** Further stores for the examples *)

Module Examples.

(** Three subscribers on the store of the tests, the second of which
    throws:
    [store.subscribe(first); store.subscribe(() => { throw "stop" });
     store.subscribe(third)] *)
Definition store_stopping : Store :=
  Scenarios.built
    (run true 5
       (Subscribe 1 (fun _ _ => Ret VUndefined)
          (Subscribe 2 (fun _ _ => ThrowC (VStr "stop"))
             (Subscribe 3 (fun _ _ => Ret VUndefined) (Ret VUndefined))))
       (Scenarios.store_a true)).

(** [store.commit(TEST, 2)] on [store_stopping]: the store when the handler
    has returned, when the first subscriber has returned, and when [commit]
    has thrown. *)
Definition stopping_after_handler : Store :=
  Scenarios.built
    (run true 10 (Scenarios.add_to_a (VObj 0) (VNum 2))
       (emit (EvMutation Scenarios.TEST (VNum 2) true)
          (with_isCommitting true store_stopping))).

Definition stopping_after_first : Store :=
  Scenarios.built
    (forEach_subscribers (run true 10) [(1, fun _ _ => Ret VUndefined)]
       (VObj 1) (VObj 0)
       (snd (alloc (OPlain (<["payload" := Data (VNum 2)]>
                              (<["type" := Data (VStr Scenarios.TEST)]> ∅)))
               (with_isCommitting false stopping_after_handler)))).

Definition stopping_after_commit : Store :=
  Scenarios.built (commit true 10 store_stopping (VStr Scenarios.TEST) (VNum 2)).

(** An action that assigns to the state itself:
    [new Store({ state: { a: 1 }, actions: { set({ state }, n) { state.a = n } } })] *)
Definition options_assigning : Options :=
  mkOptions [("a", PLeaf (VNum 1))]
    [("set", fun state n => SetProp state "a" n (Ret VUndefined))] [] [] true.

Definition store_assigning : Store :=
  Scenarios.built (new_Store true 5 options_assigning).



(** Two getters, one under a name that is an array index:
    [new Store({ state: { a: 0 },
                 getters: { b: state => state.a, 1: stateGetter } })],
    whose entries begin with the getter [1]. *)
Definition options_two_getters : Options :=
  mkOptions [("a", PLeaf (VNum 0))] [] []
    [("1", Scenarios.stateGetter); ("b", fun state => GetProp state "a" Ret)]
    true.

Definition store_two_getters : Store :=
  Scenarios.built (new_Store true 5 options_two_getters).

(** The options of the store of the tests. *)
Definition options_a : Options :=
  mkOptions [("a", PLeaf (VNum 1))] [] [(Scenarios.TEST, Scenarios.add_to_a)] [] true.

End Examples.

(** ** The names of the specification for the failures

    Section 7 of the specification names the failures; each name stands for
    one [throw] of store.ts.  The TypeErrors the engine raises by itself
    (calling what is not a function, reading a property of [undefined]) and
    what user code throws carry none of these names. *)
Inductive error_class :=
| InvalidTypeError
| UnknownMutationError
| UnknownActionError
| DuplicateGetterError
| DuplicateActionError
| DuplicateMutationError
| StateMutationOutsideCommitError.

Definition error_class_of (e : exn) : option error_class :=
  match e with
  | JsTypeError msg =>
    if String.prefix "expects string as the type, but found " msg
    then Some InvalidTypeError else None
  | JsError msg =>
    if String.eqb msg "do not mutate store state outside mutation handlers"
    then Some StateMutationOutsideCommitError
    else if String.prefix "duplicate getter " msg then Some DuplicateGetterError
    else if String.prefix "duplicate action " msg then Some DuplicateActionError
    else if String.prefix "duplicate mutation " msg then Some DuplicateMutationError
    else None
  | NotCallable | NullishProperty | CannotRedefine | Thrown _ => None
  end.

(** ** What the statements speak of *)

(** How many times the reaction of closure [c] was called in [events]. *)
Definition fired (c : nat) (events : list event) : nat :=
  length (filter (fun e => e = EvReaction c) events).

(** [e] is an invocation of some subscriber with the [mutationArguments]
    object at [r]. *)
Definition is_delivery (r : nat) (e : event) : bool :=
  match e with
  | EvSubscriber _ (VObj r') _ => Nat.eqb r' r
  | _ => false
  end.

(** [e] is an invocation of the subscriber [f] with the [mutationArguments]
    object at [r]. *)
Definition delivered_to (r f : nat) (e : event) : bool :=
  match e with
  | EvSubscriber f' (VObj r') _ => Nat.eqb f' f && Nat.eqb r' r
  | _ => false
  end.



(** The message of the error the write guard throws. *)
Definition guard_message := "do not mutate store state outside mutation handlers".

(** A call that returns leaves [isCommitting] and [strict] as it found
    them. *)
Definition guard_kept (a b : Store) : Prop :=
  isCommitting b = isCommitting a /\ strict b = strict a /\
  length (heap a) <= length (heap b).

(** A call that throws while [isCommitting] is true leaves it true, and what
    it throws is not the guard's error. *)
Definition guard_held (e : exn) (a b : Store) : Prop :=
  strict b = strict a /\
  (isCommitting a = true -> isCommitting b = true /\ e <> JsError guard_message).

(** An invocation of a subscriber that is logged between two stores was made
    with a [mutationArguments] object allocated between them. *)
Definition delivery_in (lo hi : nat) (e : event) : Prop :=
  match e with
  | EvSubscriber _ m _ => exists r, m = VObj r /\ lo <= r < hi
  | _ => True
  end.

(** The heap and the log of [b] continue those of [a]. *)
Definition extends (a b : Store) : Prop :=
  length (heap a) <= length (heap b) /\
  exists l,
    log b = log a ++ l /\
    Forall (delivery_in (length (heap a)) (length (heap b))) l.

(** [e] is a call of the function of closure [c], or of its reaction. *)
Definition of_closure (c : nat) (e : event) : bool :=
  match e with
  | EvGetter c' | EvReaction c' => Nat.eqb c' c
  | _ => false
  end.

(** Between two stores the getters are the same, and the variables of
    closure [c] are untouched unless its function or its reaction was
    called. *)
Definition closure_kept (c : nat) (a b : Store) : Prop :=
  length (heap a) <= length (heap b) /\
  _getters b = _getters a /\
  length (closures b) = length (closures a) /\
  exists l,
    log b = log a ++ l /\
    (Forall (fun e => of_closure c e = false) l ->
     closures b !! c = closures a !! c).

(** An object none of whose properties was defined by [_initState]. *)
Definition no_cells (o : object) : Prop :=
  match o with
  | OPlain props => forall k cur deps, props !! k <> Some (Cell cur deps)
  | OPromise _ => True
  end.

(** Every [deps] in the heap is a set: it holds each reaction once. *)
Definition deps_are_sets (h : list object) : Prop :=
  forall l props k cur deps,
    h !! l = Some (OPlain props) -> props !! k = Some (Cell cur deps) ->
    NoDup deps.

(** Between two stores the heap grows, and if every [deps] was a set, every
    [deps] is a set. *)
Definition sets_kept (a b : Store) : Prop :=
  length (heap a) <= length (heap b) /\
  (deps_are_sets (heap a) -> deps_are_sets (heap b)).

(** [y] is what [x] is with more fuel: the same, unless [x] ran out. *)
Definition with_more_fuel {A} (x y : outcome A) : Prop :=
  x = OutOfFuel \/ x = y.

(** A relation between the store before and the store after a call: [Rok]
    where the call returns, [Rth] where it throws. *)
Definition holds {A} (Rok : Store -> Store -> Prop)
  (Rth : exn -> Store -> Store -> Prop) (st : Store) (x : outcome A) : Prop :=
  match x with
  | Ok _ st' => Rok st st'
  | Throw e st' => Rth e st st'
  | Unmodelled | OutOfFuel => True
  end.

(** Each single step of store.ts respects the two relations. *)
Record respected (NOT_PRODUCTION : bool) (Rok : Store -> Store -> Prop)
  (Rth : exn -> Store -> Store -> Prop) : Prop := Respected {
  by_refl : forall st, Rok st st;
  by_trans : forall a b c, Rok a b -> Rok b c -> Rok a c;
  by_trans_throw : forall e a b c, Rok a b -> Rth e b c -> Rth e a c;
  by_heap : forall a b, Rok a b -> length (heap a) <= length (heap b);
  by_get_prop : forall st o k v st', get_prop st o k = Ok v st' -> Rok st st';
  by_set_prop :
    forall st o k v st',
      set_prop NOT_PRODUCTION st o k v = Ok tt st' -> Rok st st';
  by_set_prop_throw :
    forall st o k v e st',
      set_prop NOT_PRODUCTION st o k v = Throw e st' -> Rth e st st';
  by_raise : forall st e, (forall msg, e <> JsError msg) -> Rth e st st;
  by_alloc : forall st o, no_cells o -> Rok st (snd (alloc o st));
  by_emit :
    forall st e, (forall f a s, e <> EvSubscriber f a s) -> Rok st (emit e st);
  by_emit_subscriber :
    forall st0 st f r s,
      Rok st0 st -> length (heap st0) <= r < length (heap st) ->
      Rok st0 (emit (EvSubscriber f (VObj r) s) st);
  by_getter :
    forall st c st1 value,
      Rok (emit (EvGetter c) st) st1 ->
      Rok st
        (with_closures
           (alter (fun cl => GetterClosure (gc_handler cl) false value) c
              (closures st1)) st1);
  by_subscribers : forall st s, Rok st (with_subscribers s st);
  by_withCommit :
    forall st st1,
      Rok (with_isCommitting true st) st1 ->
      Rok st (with_isCommitting (isCommitting st) st1);
  by_withCommit_throw :
    forall e st st1, Rth e (with_isCommitting true st) st1 -> Rth e st st1
}.

(** ** Paths in the state, dependents, and what the constructor wires up *)


(** The value an object literal has at [k]: of two entries with one key, the
    later. *)
Fixpoint entry_of {A} (k : string) (entries : list (string * A)) : option A :=
  match entries with
  | [] => None
  | (k', v) :: rest =>
    match entry_of k rest with
    | Some x => Some x
    | None => if String.eqb k' k then Some v else None
    end
  end.

(** What an object literal has at a path. *)
Fixpoint plain_at (val : plain) (path : list string) : option plain :=
  match path with
  | [] => Some val
  | k :: rest =>
    match val with
    | PLeaf _ => None
    | PObj entries =>
      match entry_of k entries with
      | Some p => plain_at p rest
      | None => None
      end
    end
  end.

(** The fold of [_initState] over the entries of one object, which is at
    [state] in the heap. *)
Definition reduce (state : loc) : list (string * plain) -> list object -> list object :=
  fix reduce (entries : list (string * plain)) (h : list object) :=
    match entries with
    | [] => h
    | (key, val) :: rest =>
      let '(currentValue, h) := init_value val h in
      reduce rest (define state key (Cell currentValue []) h)
    end.

(** The [deps] of the property [k] of the object at [l], where
    [_initState] defined that property. *)
Definition deps_of (h : list object) (l : loc) (k : string) : option (list nat) :=
  match h !! l with
  | Some (OPlain props) =>
    match props !! k with
    | Some (Cell _ deps) => Some deps
    | _ => None
    end
  | _ => None
  end.

(** What the constructor wires up stays as it is: the state object, the
    registries, the function of every getter, [strict] and
    [runningReaction]; and while no getter is being registered, which
    properties [_initState] defined and the [deps] of each. *)
Definition wiring_kept (a b : Store) : Prop :=
  length (heap a) <= length (heap b) /\
  _state b = _state a /\
  _getters b = _getters a /\
  _actions b = _actions a /\
  _mutations b = _mutations a /\
  strict b = strict a /\
  runningReaction b = runningReaction a /\
  map gc_handler (closures b) = map gc_handler (closures a) /\
  (runningReaction a = None ->
   forall l k, deps_of (heap b) l k = deps_of (heap a) l k).

(** Every dependent of a property in [a] is a dependent of it in [b]. *)
Definition deps_grow (a b : Store) : Prop :=
  length (heap a) <= length (heap b) /\
  forall l k deps,
    deps_of (heap a) l k = Some deps ->
    exists deps', deps_of (heap b) l k = Some deps' /\ deps ⊆ deps'.

(** The entries of an object literal whose names are not those of a member
    of [Object.prototype]. *)
Definition own_names {A} (obj : list (string * A)) : list (string * A) :=
  filter (fun kv => inherited (fst kv) = false) obj.

(** The store when the constructor has set its fields and before it
    registers anything: [this.isCommitting = false; this.strict = strict;
    this._getters = {}; this._actions = {}; this._mutations = {};
    this._state = this._initState(state)]. *)
Definition initial (options : Options) : Store :=
  _initState (o_state options)
    (mkStore [] VUndefined ∅ [] ∅ ∅ (o_strict options) false None [] []).

(** * Properties *)

(** ** Heap and set lemmas *)

Lemma length_define l k s h : length (define l k s h) = length h.
Proof. unfold define. apply length_alter. Qed.

Lemma lookup_define_plain l k s h props :
  h !! l = Some (OPlain props) ->
  define l k s h !! l = Some (OPlain (<[k := s]> props)).
Proof.
  intros H. unfold define. rewrite list_lookup_alter_eq, H. reflexivity.
Qed.

Lemma lookup_define_ne l l' k s h : l <> l' -> define l k s h !! l' = h !! l'.
Proof. intros H. unfold define. apply list_lookup_alter_ne, H. Qed.

Lemma Set_has_elem (s : list nat) (x : nat) : Set_has id s x = true <-> x ∈ s.
Proof.
  unfold Set_has. rewrite existsb_exists. split.
  - intros (y & Hy & E). apply Nat.eqb_eq in E. simpl in E. subst.
    apply list_elem_of_In, Hy.
  - intros H. exists x. split; [apply list_elem_of_In, H | apply Nat.eqb_refl].
Qed.

Lemma Set_add_NoDup (s : list nat) (x : nat) : NoDup s -> NoDup (Set_add id s x).
Proof.
  intros H. unfold Set_add. destruct (Set_has id s x) eqn:E; [exact H |].
  apply NoDup_app. split; [exact H |]. split; [| apply NoDup_singleton].
  intros y Hy Hy'. apply list_elem_of_singleton in Hy'. subst y.
  apply Set_has_elem in Hy. congruence.
Qed.

Lemma Set_add_elem (s : list nat) (x y : nat) :
  y ∈ Set_add id s x <-> y ∈ s \/ y = x.
Proof.
  unfold Set_add. destruct (Set_has id s x) eqn:E.
  - apply Set_has_elem in E. split; [auto |]. intros [H | ->]; assumption.
  - rewrite elem_of_app, list_elem_of_singleton. reflexivity.
Qed.

Lemma Set_add_idem (s : list nat) (x : nat) :
  Set_add id (Set_add id s x) x = Set_add id s x.
Proof.
  unfold Set_add at 1.
  assert (H : Set_has id (Set_add id s x) x = true).
  { apply Set_has_elem, Set_add_elem. right. reflexivity. }
  rewrite H. reflexivity.
Qed.

(** ** What [deps.forEach(fn => fn())] touches *)

Lemma forEach_deps_fields deps st :
  heap (forEach_deps deps st) = heap st /\
  _state (forEach_deps deps st) = _state st /\
  _getters (forEach_deps deps st) = _getters st /\
  _actions (forEach_deps deps st) = _actions st /\
  _mutations (forEach_deps deps st) = _mutations st /\
  strict (forEach_deps deps st) = strict st /\
  isCommitting (forEach_deps deps st) = isCommitting st /\
  runningReaction (forEach_deps deps st) = runningReaction st /\
  subscribers (forEach_deps deps st) = subscribers st /\
  log (forEach_deps deps st) = log st ++ map EvReaction deps /\
  length (closures (forEach_deps deps st)) = length (closures st).
Proof.
  revert st. induction deps as [| c deps IH]; intros st; simpl.
  - rewrite app_nil_r. repeat split; reflexivity.
  - specialize (IH (reaction c st)).
    destruct IH as (H1 & H2 & H3 & H4 & H5 & H6 & H7 & H8 & H9 & H10 & H11).
    unfold forEach_deps in *. simpl.
    rewrite H1, H2, H3, H4, H5, H6, H7, H8, H9, H10, H11. simpl.
    rewrite <- app_assoc, length_alter. repeat split; reflexivity.
Qed.

Lemma forEach_deps_dirty deps st c cl :
  closures st !! c = Some cl ->
  closures (forEach_deps deps st) !! c =
    Some (GetterClosure (gc_handler cl)
            (if bool_decide (c ∈ deps) then true else gc_isDirty cl)
            (gc_value cl)).
Proof.
  revert st cl. induction deps as [| d deps IH]; intros st cl H; simpl.
  - rewrite H. destruct cl; reflexivity.
  - destruct (decide (d = c)) as [-> | Hne].
    + erewrite IH.
      2:{ simpl. rewrite list_lookup_alter_eq, H. reflexivity. }
      simpl. rewrite (bool_decide_eq_true_2 (c ∈ c :: deps)) by left.
      destruct (bool_decide (c ∈ deps)); reflexivity.
    + erewrite IH.
      2:{ simpl. rewrite list_lookup_alter_ne by exact Hne. exact H. }
      assert (E : bool_decide (c ∈ d :: deps) = bool_decide (c ∈ deps)).
      { apply bool_decide_ext. rewrite elem_of_cons. split; [| auto].
        intros [-> | HH]; [contradiction | exact HH]. }
      rewrite E. reflexivity.
Qed.

(** ** What a property read and a property write do to the store *)

Lemma get_prop_inv st o k v st' :
  get_prop st o k = Ok v st' ->
  st' = st \/
  exists l props deps r,
    o = VObj l /\ heap st !! l = Some (OPlain props) /\
    props !! k = Some (Cell v deps) /\ runningReaction st = Some r /\
    st' = with_heap (define l k (Cell v (Set_add id deps r)) (heap st)) st.
Proof.
  unfold get_prop. intros H.
  destruct o; try discriminate.
  - destruct (bool_decide _); [| discriminate]. injection H as _ <-. left. reflexivity.
  - destruct (heap st !! l) as [[props | p] |] eqn:Hl; try discriminate.
    + destruct (props !! k) as [[cur deps | w] |] eqn:Hk.
      * destruct (runningReaction st) as [r |] eqn:Hr.
        -- injection H as <- <-. right. exists l, props, deps, r. repeat split; assumption.
        -- injection H as _ <-. left. reflexivity.
      * injection H as _ <-. left. reflexivity.
      * destruct (inherited k); [destruct (String.eqb k "__proto__"); [discriminate |] |];
          injection H as _ <-; left; reflexivity.
    + destruct (bool_decide _); [injection H as _ <-; left; reflexivity |].
      destruct (inherited k); [discriminate |]. injection H as _ <-. left. reflexivity.
Qed.

Lemma get_prop_throw st o k e st' :
  get_prop st o k = Throw e st' ->
  e = NullishProperty /\ st' = st /\ isObject o = false.
Proof.
  unfold get_prop. intros H.
  destruct o; try discriminate;
    try (injection H as <- <-; repeat split; reflexivity).
  - destruct (bool_decide _); discriminate.
  - destruct (heap st !! l) as [[props | p] |]; try discriminate.
    + destruct (props !! k) as [[cur deps | w] |]; try discriminate.
      * destruct (runningReaction st); discriminate.
      * destruct (inherited k); [destruct (String.eqb k "__proto__") |]; discriminate.
    + destruct (bool_decide _); [discriminate |]. destruct (inherited k); discriminate.
Qed.

(** A read changes nothing but [deps], and only while a getter is being
    registered. *)
Lemma get_prop_store st o k v st' :
  get_prop st o k = Ok v st' ->
  log st' = log st /\ (runningReaction st = None -> st' = st).
Proof.
  intros H. apply get_prop_inv in H as [-> | (l & props & deps & r & _ & _ & _ & Hr & ->)].
  - split; [reflexivity | intros _; reflexivity].
  - split; [reflexivity | intros Hn; congruence].
Qed.

Lemma get_prop_runningReaction st o k v st' :
  get_prop st o k = Ok v st' -> runningReaction st' = runningReaction st.
Proof.
  intros H. apply get_prop_inv in H as [-> | (l & props & deps & r & _ & _ & _ & Hr & ->)];
    reflexivity.
Qed.

Lemma set_prop_inv np st o k v st' :
  set_prop np st o k v = Ok tt st' ->
  exists l s deps,
    o = VObj l /\
    st' = with_heap (define l k s (heap st)) (forEach_deps deps st).
Proof.
  unfold set_prop. intros H.
  destruct o; try discriminate.
  destruct (heap st !! l) as [[props | p] |] eqn:Hl; try discriminate.
  destruct (props !! k) as [[cur deps | w] |] eqn:Hk.
  - destruct (strict st && negb (isCommitting st) && np); [discriminate |].
    injection H as <-.
    destruct (strict_neq v cur).
    + exists l, (Cell v deps), deps. split; [reflexivity |].
      destruct (forEach_deps_fields deps st) as (-> & _). reflexivity.
    + exists l, (Cell v deps), []. split; reflexivity.
  - injection H as <-. exists l, (Data v), []. split; reflexivity.
  - destruct (String.eqb k "__proto__"); [discriminate |].
    injection H as <-. exists l, (Data v), []. split; reflexivity.
Qed.

Lemma set_prop_throw np st o k v e st' :
  set_prop np st o k v = Throw e st' ->
  st' = st /\
  (e = NullishProperty \/
   (e = JsError "do not mutate store state outside mutation handlers" /\
    strict st = true /\ isCommitting st = false /\ np = true)).
Proof.
  unfold set_prop. intros H.
  destruct o; try discriminate; try (injection H as <- <-; split; [reflexivity | left; reflexivity]).
  destruct (heap st !! l) as [[props | p] |]; try discriminate.
  destruct (props !! k) as [[cur deps | w] |]; try discriminate.
  - destruct (strict st) eqn:E1, (isCommitting st) eqn:E2, np eqn:E3; simpl in H; try discriminate.
    injection H as <- <-. split; [reflexivity |]. right. repeat split; reflexivity.
  - destruct (String.eqb k "__proto__"); discriminate.
Qed.

(** The fields a property read or write leaves alone. *)
Lemma get_prop_fields st o k v st' :
  get_prop st o k = Ok v st' ->
  length (heap st') = length (heap st) /\
  isCommitting st' = isCommitting st /\
  subscribers st' = subscribers st /\
  closures st' = closures st /\
  log st' = log st.
Proof.
  intros H.
  apply get_prop_inv in H as [-> | (l & props & deps & r & _ & _ & _ & _ & ->)].
  - repeat split; reflexivity.
  - cbn [heap with_heap isCommitting subscribers closures log].
    rewrite length_define. repeat split; reflexivity.
Qed.

Lemma set_prop_fields np st o k v st' :
  set_prop np st o k v = Ok tt st' ->
  length (heap st') = length (heap st) /\
  isCommitting st' = isCommitting st /\
  subscribers st' = subscribers st /\
  exists deps, log st' = log st ++ map EvReaction deps.
Proof.
  intros H. apply set_prop_inv in H as (l & s & deps & _ & ->).
  cbn [heap with_heap isCommitting subscribers log].
  rewrite length_define.
  destruct (forEach_deps_fields deps st)
    as (_ & _ & _ & _ & _ & _ & -> & _ & -> & -> & _).
  repeat split; try reflexivity. exists deps. reflexivity.
Qed.

(** ** The write guard of a state property (C3) *)

(** C3.  In a development or test profile, on a store with [strict] true, a
    write to a property defined by [_initState] while [isCommitting] is false
    throws "do not mutate store state outside mutation handlers" and leaves
    the store, hence the value of the property, as it was; with [strict]
    false the check is not made, in any profile and whatever [isCommitting]
    is, and the write stores the new value. *)
Theorem C3_write_guard st l props k currentValue deps newVal :
  heap st !! l = Some (OPlain props) ->
  props !! k = Some (Cell currentValue deps) ->
  (strict st = true -> isCommitting st = false ->
   set_prop true st (VObj l) k newVal =
     Throw (JsError "do not mutate store state outside mutation handlers") st
   /\ (forall fuel cont,
         run true (S fuel) (SetProp (VObj l) k newVal cont) st =
           Throw (JsError "do not mutate store state outside mutation handlers") st)
   /\ get_prop st (VObj l) k =
        Ok currentValue
          (match runningReaction st with
           | Some r =>
             with_heap (define l k (Cell currentValue (Set_add id deps r)) (heap st)) st
           | None => st
           end))
  /\ (strict st = false ->
      forall NOT_PRODUCTION,
      exists st',
        set_prop NOT_PRODUCTION st (VObj l) k newVal = Ok tt st' /\
        heap st' !! l = Some (OPlain (<[k := Cell newVal deps]> props))).
Proof.
  intros Hl Hk. split.
  - intros Hs Hc.
    assert (E : set_prop true st (VObj l) k newVal =
                Throw (JsError "do not mutate store state outside mutation handlers") st).
    { unfold set_prop. rewrite Hl, Hk, Hs, Hc. reflexivity. }
    split; [exact E |]. split.
    + intros fuel cont. cbn [run]. rewrite E. reflexivity.
    + unfold get_prop. rewrite Hl, Hk. destruct (runningReaction st); reflexivity.
  - intros Hs np. unfold set_prop. rewrite Hl, Hk, Hs. simpl.
    eexists. split; [reflexivity |]. simpl.
    apply lookup_define_plain.
    destruct (strict_neq newVal currentValue); [| exact Hl].
    destruct (forEach_deps_fields deps st) as (-> & _). exact Hl.
Qed.

(** [store.state.a = 5] outside any mutation, on the store of the tests with
    [strict] true and with [strict] false. *)
Lemma C3_write_guard_witness :
  set_prop true (Scenarios.store_a true) (VObj 0) "a" (VNum 5) =
    Throw (JsError "do not mutate store state outside mutation handlers")
      (Scenarios.store_a true)
  /\ exists st',
       set_prop true (Scenarios.store_a false) (VObj 0) "a" (VNum 5) = Ok tt st' /\
       heap st' !! 0 = Some (OPlain (<["a" := Cell (VNum 5) []]> (<["a" := Cell (VNum 1) []]> ∅))).
Proof.
  split.
  - apply (C3_write_guard (Scenarios.store_a true) 0 (<["a" := Cell (VNum 1) []]> ∅)
             "a" (VNum 1) [] (VNum 5)); vm_compute; reflexivity.
  - apply (C3_write_guard (Scenarios.store_a false) 0 (<["a" := Cell (VNum 1) []]> ∅)
             "a" (VNum 1) [] (VNum 5)); vm_compute; reflexivity.
Defined.

(** ** Writing a state property (C9) *)

Lemma fired_map_NoDup c deps :
  NoDup deps -> fired c (map EvReaction deps) = if bool_decide (c ∈ deps) then 1 else 0.
Proof.
  unfold fired. induction deps as [| d deps IH]; intros Hnd.
  - reflexivity.
  - apply NoDup_cons in Hnd as [Hd Hnd]. simpl.
    destruct (decide (d = c)) as [-> | Hne].
    + rewrite filter_cons_True by reflexivity. simpl. rewrite (IH Hnd).
      rewrite (bool_decide_eq_true_2 (c ∈ c :: deps)) by left.
      rewrite bool_decide_eq_false_2 by exact Hd. reflexivity.
    + rewrite filter_cons_False by congruence. rewrite (IH Hnd).
      apply (f_equal (fun b : bool => if b then 1 else 0)).
      apply bool_decide_ext. rewrite elem_of_cons. split; [auto |].
      intros [-> | H]; [contradiction | exact H].
Qed.

(** C9.  A write of [newVal] that passes the guard, to a property defined by
    [_initState] that holds [currentValue] and whose [deps] is a set: when
    [newVal !== currentValue] the callbacks in [deps] are called, each
    exactly once and nothing else, and they mark their getters dirty; when
    [newVal === currentValue] none is called; in both cases the property then
    holds [newVal].  NaN differs from NaN, and adding a callback that is
    already in [deps] leaves [deps] as it is. *)
Theorem C9_cell_write np st l props k currentValue deps newVal st' :
  heap st !! l = Some (OPlain props) ->
  props !! k = Some (Cell currentValue deps) ->
  NoDup deps ->
  set_prop np st (VObj l) k newVal = Ok tt st' ->
  log st' =
    log st ++ (if strict_neq newVal currentValue then map EvReaction deps else [])
  /\ (forall c,
        fired c (drop (length (log st)) (log st')) =
          if strict_neq newVal currentValue && bool_decide (c ∈ deps) then 1 else 0)
  /\ (forall c cl,
        strict_neq newVal currentValue = true -> c ∈ deps ->
        closures st !! c = Some cl ->
        gc_isDirty <$> closures st' !! c = Some true)
  /\ heap st' !! l = Some (OPlain (<[k := Cell newVal deps]> props))
  /\ strict_neq VNaN VNaN = true
  /\ (forall r, NoDup (Set_add id deps r) /\
                Set_add id (Set_add id deps r) r = Set_add id deps r).
Proof.
  intros Hl Hk Hnd H. unfold set_prop in H. rewrite Hl, Hk in H.
  destruct (strict st && negb (isCommitting st) && np); [discriminate |].
  injection H as <-.
  assert (Hlog : log (with_heap
                   (define l k (Cell newVal deps)
                      (heap (if strict_neq newVal currentValue
                             then forEach_deps deps st else st)))
                   (if strict_neq newVal currentValue
                    then forEach_deps deps st else st)) =
                 log st ++ (if strict_neq newVal currentValue
                            then map EvReaction deps else [])).
  { destruct (strict_neq newVal currentValue); simpl.
    - apply (forEach_deps_fields deps st).
    - rewrite app_nil_r. reflexivity. }
  split; [exact Hlog |]. split; [| split; [| split; [| split]]].
  - intros c. rewrite Hlog, drop_app_length.
    destruct (strict_neq newVal currentValue); simpl; [| reflexivity].
    apply fired_map_NoDup, Hnd.
  - intros c cl Hneq Hc Hcl. rewrite Hneq. simpl.
    rewrite (forEach_deps_dirty deps st c cl Hcl). simpl.
    rewrite bool_decide_eq_true_2 by exact Hc. reflexivity.
  - simpl. apply lookup_define_plain.
    destruct (strict_neq newVal currentValue); [| exact Hl].
    destruct (forEach_deps_fields deps st) as (-> & _). exact Hl.
  - reflexivity.
  - intros r. split; [apply Set_add_NoDup, Hnd | apply Set_add_idem].
Qed.

(** [state.a = NaN] inside a mutation, on the store of the getter tests:
    the one reaction in [deps] is called. *)
Lemma C9_cell_write_witness :
  exists st',
    set_prop true (with_isCommitting true Scenarios.store_getter) (VObj 0) "a" VNaN
      = Ok tt st' /\
    log st' = log (with_isCommitting true Scenarios.store_getter) ++ [EvReaction 0].
Proof.
  eexists. split; [vm_compute; reflexivity |].
  eapply (C9_cell_write true (with_isCommitting true Scenarios.store_getter) 0
            (<["a" := Cell (VNum 0) [0]]> ∅) "a" (VNum 0) [0] VNaN).
  - vm_compute; reflexivity.
  - vm_compute; reflexivity.
  - apply NoDup_singleton.
  - vm_compute; reflexivity.
Defined.

(** ** Keys that were not in the initial state (C10) *)

(** C10.  An assignment to a key that the state object does not have (no
    property of that name was defined by [_initState]) succeeds in every
    profile, whatever [strict] and [isCommitting] are, in particular with
    [strict] true in development outside any mutation: no error is raised
    and nothing is logged.  The key becomes an ordinary property: a later
    read returns its value and leaves the store as it is even while a getter
    is being evaluated ([runningReaction] set), and a later write replaces
    the value without the guard and without calling any callback. *)
Theorem C10_new_key np st l props k v :
  heap st !! l = Some (OPlain props) ->
  props !! k = None ->
  k <> "__proto__" ->
  let st' := with_heap (define l k (Data v) (heap st)) st in
  set_prop np st (VObj l) k v = Ok tt st'
  /\ heap st' !! l = Some (OPlain (<[k := Data v]> props))
  /\ (forall st2 props2 w,
        heap st2 !! l = Some (OPlain props2) ->
        props2 !! k = Some (Data w) ->
        get_prop st2 (VObj l) k = Ok w st2
        /\ forall np2 u,
             set_prop np2 st2 (VObj l) k u =
               Ok tt (with_heap (define l k (Data u) (heap st2)) st2)).
Proof.
  intros Hl Hk Hne. simpl. split; [| split].
  - unfold set_prop. rewrite Hl, Hk.
    destruct (String.eqb_spec k "__proto__"); [contradiction | reflexivity].
  - simpl. apply lookup_define_plain, Hl.
  - intros st2 props2 w Hl2 Hk2. split.
    + unfold get_prop. rewrite Hl2, Hk2. reflexivity.
    + intros np2 u. unfold set_prop. rewrite Hl2, Hk2. reflexivity.
Qed.

(** [store.state.b = 7] outside any mutation, on the store of the tests,
    whose state has the key [a] only. *)
Lemma C10_new_key_witness :
  strict (Scenarios.store_a true) = true /\
  isCommitting (Scenarios.store_a true) = false /\
  set_prop true (Scenarios.store_a true) (VObj 0) "b" (VNum 7) =
    Ok tt (with_heap (define 0 "b" (Data (VNum 7)) (heap (Scenarios.store_a true)))
             (Scenarios.store_a true)).
Proof.
  split; [reflexivity |]. split; [reflexivity |].
  apply (C10_new_key true (Scenarios.store_a true) 0 (<["a" := Cell (VNum 1) []]> ∅)
           "b" (VNum 7)).
  - vm_compute; reflexivity.
  - vm_compute; reflexivity.
  - discriminate.
Defined.

(** ** Normalising the arguments of [commit] and [dispatch] (C5, C6) *)

(** In production [toObjectStyle] only resolves the type and the payload; in
    development it then checks the type it resolved. *)
Lemma toObjectStyle_check st _type _payload :
  toObjectStyle true st _type _payload =
    call toObjectStyle false st _type _payload as tp on st1 in
    if negb (String.eqb (typeof (fst tp)) "string") then
      Throw (JsTypeError
               ("expects string as the type, but found " +:+ typeof (fst tp) +:+ "."))
        st1
    else Ok tp st1.
Proof.
  unfold toObjectStyle.
  destruct (isPayload st _type) as [b st0 | | |]; simpl; try reflexivity.
  destruct (truthy b); simpl.
  - destruct (get_prop st0 _type "type") as [t st1 | | |]; simpl; reflexivity.
  - reflexivity.
Qed.

Lemma toObjectStyle_production_inv st _type _payload tp st1 :
  toObjectStyle false st _type _payload = Ok tp st1 ->
  log st1 = log st /\ (runningReaction st = None -> st1 = st).
Proof.
  unfold toObjectStyle, isPayload. intros H.
  destruct (isObject _type).
  - destruct (get_prop st _type "type") as [b st0 | | |] eqn:E0; simpl in H; try discriminate.
    pose proof (get_prop_store _ _ _ _ _ E0) as [L0 S0].
    pose proof (get_prop_runningReaction _ _ _ _ _ E0) as R0.
    destruct (truthy b); simpl in H.
    + destruct (get_prop st0 _type "type") as [t st2 | | |] eqn:E1; simpl in H; try discriminate.
      injection H as <- <-.
      pose proof (get_prop_store _ _ _ _ _ E1) as [L1 S1].
      split; [congruence |]. intros Hn. rewrite S1, S0; congruence.
    + injection H as <- <-. split; assumption.
  - simpl in H. injection H as <- <-. split; [reflexivity | intros _; reflexivity].
Qed.

Lemma toObjectStyle_production_total st _type _payload e st' :
  toObjectStyle false st _type _payload <> Throw e st'.
Proof.
  unfold toObjectStyle, isPayload. intros H.
  destruct (isObject _type) eqn:Ho.
  - destruct (get_prop st _type "type") as [b st0 | e0 st0 | |] eqn:E0; simpl in H; try discriminate.
    + destruct (truthy b); simpl in H; [| discriminate].
      destruct (get_prop st0 _type "type") as [t st2 | e1 st2 | |] eqn:E1; simpl in H; try discriminate.
      apply get_prop_throw in E1 as (_ & _ & E1). congruence.
    + apply get_prop_throw in E0 as (_ & _ & E0). congruence.
  - simpl in H. discriminate.
Qed.

(** C6.  In a development or test profile, when the type that normalisation
    resolves (what [toObjectStyle] returns where the check is off) is not a
    string, [commit] and [dispatch] throw the TypeError whose message is
    "expects string as the type, but found " followed by [typeof type] and a
    full stop.  It is thrown before any lookup: nothing is logged, so no
    handler and no subscriber ran, and outside a getter registration the
    store is exactly as it was.  In production the check is skipped:
    [toObjectStyle] never throws there. *)
Theorem C6_invalid_type fuel st _type _payload type payload st1 :
  toObjectStyle false st _type _payload = Ok (type, payload) st1 ->
  typeof type <> "string" ->
  let error :=
    JsTypeError ("expects string as the type, but found " +:+ typeof type +:+ ".") in
  commit true fuel st _type _payload = Throw error st1
  /\ dispatch true fuel st _type _payload = Throw error st1
  /\ error_class_of error = Some InvalidTypeError
  /\ (exists rest,
        error =
          JsTypeError
            (("expects string as the type, but found " +:+ typeof type) +:+ rest))
  /\ log st1 = log st
  /\ (runningReaction st = None -> st1 = st)
  /\ (forall st0 _type0 _payload0 e st',
        toObjectStyle false st0 _type0 _payload0 <> Throw e st').
Proof.
  intros H Hty. simpl.
  assert (E : toObjectStyle true st _type _payload =
              Throw (JsTypeError
                       ("expects string as the type, but found " +:+ typeof type +:+ "."))
                st1).
  { rewrite toObjectStyle_check, H. simpl.
    destruct (String.eqb_spec (typeof type) "string"); [contradiction | reflexivity]. }
  split; [| split; [| split; [| split; [| split; [| split]]]]].
  - unfold commit, commit_with. rewrite E. reflexivity.
  - unfold dispatch, dispatch_with. rewrite E. reflexivity.
  - destruct type; reflexivity.
  - exists ".". destruct type; reflexivity.
  - apply (toObjectStyle_production_inv _ _ _ _ _ H).
  - apply (toObjectStyle_production_inv _ _ _ _ _ H).
  - intros. apply toObjectStyle_production_total.
Qed.

(** [store.commit(undefined, 2)] of the test "asserts committed type". *)
Lemma C6_invalid_type_witness :
  commit true 5 (Scenarios.store_a true) VUndefined (VNum 2) =
    Throw (JsTypeError "expects string as the type, but found undefined.")
      (Scenarios.store_a true).
Proof.
  apply (C6_invalid_type 5 (Scenarios.store_a true) VUndefined (VNum 2)
           VUndefined (VNum 2) (Scenarios.store_a true)).
  - reflexivity.
  - discriminate.
Defined.

(** C5, as stated, fails on an object whose [type] field is falsy:
    [isPayload] tests [val.type] for truth, not for presence.  With
    [o = { type: "" }] and a mutation registered under the empty name, the
    type resolved from [commit(o)] is [o] itself and the payload is the
    second argument, so that [commit(o)] throws, although [commit("", o)]
    runs the handler. *)
Lemma C5_counterexample :
  get_prop Scenarios.store_unnamed (VObj 1) "type" =
    Ok (VStr "") Scenarios.store_unnamed
  /\ toObjectStyle false Scenarios.store_unnamed (VObj 1) VUndefined =
       Ok (VObj 1, VUndefined) Scenarios.store_unnamed
  /\ toObjectStyle false Scenarios.store_unnamed (VObj 1) VUndefined <>
       Ok (VStr "", VObj 1) Scenarios.store_unnamed
  /\ commit true 5 Scenarios.store_unnamed (VObj 1) VUndefined =
       Throw (JsTypeError "expects string as the type, but found object.")
         Scenarios.store_unnamed
  /\ Scenarios.result (commit true 5 Scenarios.store_unnamed (VStr "") (VObj 1)) =
       Some VUndefined.
Proof.
  split; [vm_compute; reflexivity |].
  split; [vm_compute; reflexivity |].
  split; [vm_compute; discriminate |].
  split; vm_compute; reflexivity.
Qed.

(** C5, amended.  For every object [o] whose [type] field is truthy,
    normalisation resolves the type from [o.type] and passes [o] itself as
    the payload, so that [commit(o)] is [commit(o.type, o)] and [dispatch(o)]
    is [dispatch(o.type, o)]; for a string first argument, the first argument
    is the type and the second the payload.  In particular the tests
    "committing mutations" ([commit(TEST, 2)], handler [state.a += n]) and
    "committing with object style" ([commit({ type: TEST, amount: 2 })],
    handler [state.a += payload.amount]) leave the same [state.a]. *)
Theorem C5_object_style np st l props t _payload :
  heap st !! l = Some (OPlain props) ->
  props !! "type" = Some (Data t) ->
  truthy t = true ->
  toObjectStyle false st (VObj l) _payload = Ok (t, VObj l) st
  /\ (forall fuel s,
        t = VStr s ->
        commit np fuel st (VObj l) _payload = commit np fuel st (VStr s) (VObj l) /\
        dispatch np fuel st (VObj l) _payload = dispatch np fuel st (VStr s) (VObj l))
  /\ (forall s payload, toObjectStyle np st (VStr s) payload = Ok (VStr s, payload) st)
  /\ Scenarios.result (Scenarios.committing_mutations 2) = Some (VNum 3)
  /\ Scenarios.result (Scenarios.committing_with_object_style 2) = Some (VNum 3).
Proof.
  intros Hl Hk Ht.
  assert (G : get_prop st (VObj l) "type" = Ok t st).
  { unfold get_prop. rewrite Hl, Hk. reflexivity. }
  assert (O : forall b, toObjectStyle b st (VObj l) _payload =
                        if b && negb (String.eqb (typeof t) "string")
                        then Throw (JsTypeError
                                      ("expects string as the type, but found "
                                       +:+ typeof t +:+ ".")) st
                        else Ok (t, VObj l) st).
  { intros b. unfold toObjectStyle, isPayload.
    change (isObject (VObj l)) with true. cbv iota.
    rewrite G. cbn [bind]. rewrite Ht, G. cbn [bind].
    destruct b; [| reflexivity].
    cbn [andb]. destruct (negb _); reflexivity. }
  assert (S : forall b s payload,
                toObjectStyle b st (VStr s) payload = Ok (VStr s, payload) st).
  { intros b s payload. unfold toObjectStyle, isPayload. simpl.
    destruct b; reflexivity. }
  split; [apply (O false) |]. split; [| split; [exact (S np) |]].
  - intros fuel s ->. unfold commit, commit_with, dispatch, dispatch_with.
    rewrite O, S. simpl. rewrite andb_false_r. split; reflexivity.
  - split; vm_compute; reflexivity.
Qed.

(** [store.commit({ type: TEST, amount: 2 })] on the store of the tests. *)
Lemma C5_object_style_witness :
  toObjectStyle false
    (snd (alloc (OPlain (<["amount" := Data (VNum 2)]>
                           (<["type" := Data (VStr "TEST")]> ∅)))
            (Scenarios.store_a true)))
    (VObj 1) VUndefined =
  Ok (VStr "TEST", VObj 1)
    (snd (alloc (OPlain (<["amount" := Data (VNum 2)]>
                           (<["type" := Data (VStr "TEST")]> ∅)))
            (Scenarios.store_a true))).
Proof.
  eapply (C5_object_style true _ 1 _ (VStr "TEST") VUndefined).
  - vm_compute; reflexivity.
  - vm_compute; reflexivity.
  - reflexivity.
Defined.

(** ** Names that were never registered (C2) *)

(** C2, as stated, fails: store.ts has no check of the name.  [commit] and
    [dispatch] look the name up and call what they find; for a name that was
    not registered that is [undefined], and the call raises the engine's own
    TypeError, which is none of the errors the specification names.
    [commit] raises it inside [_withCommit]. *)
Lemma C2_counterexample :
  _mutations (Scenarios.store_a true) !! "nope" = None
  /\ _actions (Scenarios.store_a true) !! "nope" = None
  /\ commit true 5 (Scenarios.store_a true) (VStr "nope") (VNum 2) =
       Throw NotCallable (with_isCommitting true (Scenarios.store_a true))
  /\ dispatch true 5 (Scenarios.store_a true) (VStr "nope") (VNum 2) =
       Throw NotCallable (Scenarios.store_a true)
  /\ error_class_of NotCallable <> Some UnknownMutationError
  /\ error_class_of NotCallable <> Some UnknownActionError.
Proof.
  split; [vm_compute; reflexivity |].
  split; [vm_compute; reflexivity |].
  split; [vm_compute; reflexivity |].
  split; [vm_compute; reflexivity |].
  split; discriminate.
Qed.

(** C2, amended.  For every name that is not inherited by all objects
    ([toString], [constructor], ...): if no mutation is registered under it,
    [commit(name, payload)] fails, and if no action is registered under it,
    [dispatch(name, payload)] fails, in every profile; the failure is the
    engine's TypeError for calling [undefined].  No handler runs, no
    subscriber is notified (nothing is logged) and the heap is untouched. *)
Theorem C2_unregistered_name np fuel st name payload :
  inherited name = false ->
  (_mutations st !! name = None ->
   exists st',
     commit np fuel st (VStr name) payload = Throw NotCallable st' /\
     log st' = log st /\ heap st' = heap st)
  /\ (_actions st !! name = None ->
      dispatch np fuel st (VStr name) payload = Throw NotCallable st).
Proof.
  intros Hi.
  assert (S : toObjectStyle np st (VStr name) payload = Ok (VStr name, payload) st).
  { unfold toObjectStyle, isPayload. simpl. destruct np; reflexivity. }
  split; intros Hn.
  - exists (with_isCommitting true st).
    unfold commit, commit_with. rewrite S. simpl.
    unfold registry_get. rewrite Hn, Hi. simpl. repeat split; reflexivity.
  - unfold dispatch, dispatch_with. rewrite S. simpl.
    unfold registry_get. rewrite Hn, Hi. reflexivity.
Qed.

(** [store.dispatch("nope", 2)] on the store of the tests. *)
Lemma C2_unregistered_name_witness :
  dispatch true 5 (Scenarios.store_a true) (VStr "nope") (VNum 2) =
    Throw NotCallable (Scenarios.store_a true).
Proof.
  apply (C2_unregistered_name true 5 (Scenarios.store_a true) "nope" (VNum 2)).
  - vm_compute; reflexivity.
  - vm_compute; reflexivity.
Defined.

(** ** A proof rule for everything user code can set off

    [run] calls [commit_with], [dispatch_with] and [getters_get] with itself
    as [exec]; whatever is to be shown of all runs is shown once here, for a
    relation [Rok] between the store before and the store after a call that
    returns, and a relation [Rth] for a call that throws.  The hypotheses ask
    that each single step of store.ts respects the relations. *)
Section Rules.
Variable NOT_PRODUCTION : bool.
Variable Rok : Store -> Store -> Prop.
Variable Rth : exn -> Store -> Store -> Prop.
Hypothesis R : respected NOT_PRODUCTION Rok Rth.

#[local] Abbreviation holds := (holds Rok Rth).
#[local] Abbreviation Rok_refl := (by_refl _ _ _ R).
#[local] Abbreviation Rok_trans := (by_trans _ _ _ R).
#[local] Abbreviation Rth_trans := (by_trans_throw _ _ _ R).
#[local] Abbreviation Rok_heap := (by_heap _ _ _ R).
#[local] Abbreviation Rok_get_prop := (by_get_prop _ _ _ R).
#[local] Abbreviation Rok_set_prop := (by_set_prop _ _ _ R).
#[local] Abbreviation Rth_set_prop := (by_set_prop_throw _ _ _ R).
#[local] Abbreviation Rth_raise := (by_raise _ _ _ R).
#[local] Abbreviation Rok_alloc := (by_alloc _ _ _ R).
#[local] Abbreviation Rok_emit := (by_emit _ _ _ R).
#[local] Abbreviation Rok_emit_subscriber := (by_emit_subscriber _ _ _ R).
#[local] Abbreviation Rok_getter := (by_getter _ _ _ R).
#[local] Abbreviation Rok_subscribers := (by_subscribers _ _ _ R).
#[local] Abbreviation Rok_withCommit := (by_withCommit _ _ _ R).
#[local] Abbreviation Rth_withCommit := (by_withCommit_throw _ _ _ R).

Lemma holds_trans {A} a b (x : outcome A) : Rok a b -> holds b x -> holds a x.
Proof.
  intros H. destruct x; simpl; intros Hx; try exact I.
  - eapply Rok_trans; eassumption.
  - eapply Rth_trans; eassumption.
Qed.

Lemma holds_bind {A B} st (x : outcome A) (f : A -> Store -> outcome B) :
  holds st x ->
  (forall a st1, x = Ok a st1 -> holds st1 (f a st1)) ->
  holds st (bind x f).
Proof.
  intros Hx Hf. destruct x as [a st1 | e st1 | |]; simpl in *; try exact I.
  - eapply holds_trans; [exact Hx | apply Hf; reflexivity].
  - exact Hx.
Qed.

Lemma holds_get_prop st o k : holds st (get_prop st o k).
Proof.
  destruct (get_prop st o k) as [v st' | e st' | |] eqn:E; simpl; try exact I.
  - eapply Rok_get_prop, E.
  - apply get_prop_throw in E as (-> & -> & _). apply Rth_raise. discriminate.
Qed.

Lemma holds_set_prop st o k v : holds st (set_prop NOT_PRODUCTION st o k v).
Proof.
  destruct (set_prop NOT_PRODUCTION st o k v) as [[] st' | e st' | |] eqn:E;
    simpl; try exact I.
  - eapply Rok_set_prop, E.
  - eapply Rth_set_prop, E.
Qed.

Lemma holds_isPromise st val : holds st (isPromise st val).
Proof.
  unfold isPromise. destruct (isObject val); [| apply Rok_refl].
  apply holds_bind; [apply holds_get_prop |]. intros t st1 _.
  destruct (isFunction t); [| apply Rok_refl].
  apply holds_bind; [apply holds_get_prop |]. intros c st2 _. apply Rok_refl.
Qed.

Lemma holds_toObjectStyle st _type _payload :
  holds st (toObjectStyle NOT_PRODUCTION st _type _payload).
Proof.
  unfold toObjectStyle. apply holds_bind.
  { unfold isPayload. destruct (isObject _type); [apply holds_get_prop | apply Rok_refl]. }
  intros b st1 _. apply holds_bind.
  { destruct (truthy b); [| apply Rok_refl].
    apply holds_bind; [apply holds_get_prop |]. intros t st2 _. apply Rok_refl. }
  intros [type payload] st2 _.
  destruct NOT_PRODUCTION; [| apply Rok_refl].
  destruct (negb _); [| apply Rok_refl]. apply Rth_raise. discriminate.
Qed.

Lemma holds_withCommit {A} (cb : Store -> outcome A) st :
  holds (with_isCommitting true st) (cb (with_isCommitting true st)) ->
  holds st (_withCommit cb st).
Proof.
  unfold _withCommit. intros H.
  destruct (cb (with_isCommitting true st)) as [a st1 | e st1 | |]; simpl in *;
    try exact I.
  - apply Rok_withCommit, H.
  - apply Rth_withCommit, H.
Qed.

Section Exec.
Variable exec : cmd -> Store -> outcome value.
Hypothesis exec_holds : forall c st, holds st (exec c st).

Lemma holds_exec_after st e c :
  (forall f a s, e <> EvSubscriber f a s) -> holds st (exec c (emit e st)).
Proof.
  intros He. eapply holds_trans; [apply Rok_emit, He | apply exec_holds].
Qed.

Lemma holds_getters_get st k : holds st (getters_get exec st k).
Proof.
  unfold getters_get. destruct (_getters st !! k) as [c |].
  - unfold getter_get, getter_call.
    destruct (closures st !! c) as [cl |]; [| exact I].
    destruct (gc_isDirty cl); [| apply Rok_refl].
    pose proof (exec_holds (gc_handler cl (_state st)) (emit (EvGetter c) st)) as H.
    destruct (exec _ _) as [v st1 | e st1 | |]; simpl in *; try exact I.
    + apply Rok_getter, H.
    + eapply Rth_trans; [apply (Rok_emit st (EvGetter c)); discriminate | exact H].
  - destruct (inherited k); [| apply Rok_refl].
    destruct (String.eqb k "__proto__"); [exact I | apply Rok_refl].
Qed.

Lemma holds_mutation_wrapper type handler payload st :
  holds st (mutation_wrapper exec type handler payload st).
Proof.
  unfold mutation_wrapper. apply holds_bind.
  - apply holds_exec_after. discriminate.
  - intros v st1 _. apply Rok_refl.
Qed.

Lemma holds_action_wrapper type handler payload st :
  holds st (action_wrapper exec type handler payload st).
Proof.
  unfold action_wrapper. apply holds_bind.
  - apply holds_exec_after. discriminate.
  - intros res st1 _. apply holds_bind; [apply holds_isPromise |].
    intros b st2 _. destruct (negb b); [| apply Rok_refl].
    unfold Promise_resolve.
    destruct (is_engine_promise st2 res); [apply Rok_refl |].
    destruct (isObject res || isFunction res).
    + apply holds_bind; [apply holds_get_prop |].
      intros then_ st3 _.
      apply (Rok_alloc st3 (OPromise (if isFunction then_ then Adopted res
                                      else Resolved res))).
      exact I.
    + apply (Rok_alloc st2 (OPromise (Resolved res))). exact I.
Qed.

Lemma holds_forEach_subscribers subscribersCopy r state st0 st :
  Rok st0 st ->
  length (heap st0) <= r < length (heap st) ->
  holds st0 (forEach_subscribers exec subscribersCopy (VObj r) state st).
Proof.
  revert st. induction subscribersCopy as [| sub rest IH]; intros st H Hr; simpl.
  - exact H.
  - pose proof (Rok_emit_subscriber st0 st (fst sub) r state H Hr) as H1.
    pose proof (exec_holds (snd sub (VObj r) state)
                  (emit (EvSubscriber (fst sub) (VObj r) state) st)) as H2.
    destruct (exec _ _) as [v st1 | e st1 | |]; simpl in *; try exact I.
    + apply IH.
      * eapply Rok_trans; eassumption.
      * apply Rok_heap in H2. simpl in H2. lia.
    + eapply Rth_trans; eassumption.
Qed.

Lemma holds_commit_with st _type _payload :
  holds st (commit_with NOT_PRODUCTION exec st _type _payload).
Proof.
  unfold commit_with. apply holds_bind; [apply holds_toObjectStyle |].
  intros [type payload] st1 _.
  destruct (to_property_key type) as [key |]; [| exact I].
  apply holds_bind.
  - apply holds_withCommit.
    destruct (registry_get (_mutations st1) key) as [handler | |].
    + apply holds_mutation_wrapper.
    + exact I.
    + apply Rth_raise. discriminate.
  - intros _u st2 _. unfold alloc.
    apply holds_bind; [| intros; apply Rok_refl].
    apply holds_forEach_subscribers.
    + apply (Rok_alloc st2). intros k cur deps.
      destruct (decide (k = "payload")) as [-> | Hp];
        [rewrite lookup_insert_eq; discriminate |].
      rewrite lookup_insert_ne by congruence.
      destruct (decide (k = "type")) as [-> | Ht];
        [rewrite lookup_insert_eq; discriminate |].
      rewrite lookup_insert_ne by congruence. rewrite lookup_empty. discriminate.
    + simpl. rewrite length_app. simpl. lia.
Qed.

Lemma holds_dispatch_with st _type _payload :
  holds st (dispatch_with NOT_PRODUCTION exec st _type _payload).
Proof.
  unfold dispatch_with. apply holds_bind; [apply holds_toObjectStyle |].
  intros [type payload] st1 _.
  destruct (to_property_key type) as [key |]; [| exact I].
  destruct (registry_get (_actions st1) key) as [handler | |].
  - apply holds_action_wrapper.
  - exact I.
  - apply Rth_raise. discriminate.
Qed.
End Exec.

Lemma holds_run fuel : forall c st, holds st (run NOT_PRODUCTION fuel c st).
Proof.
  induction fuel as [| fuel IH]; intros c st; [exact I |].
  destruct c; cbn [run].
  - apply Rok_refl.
  - apply Rth_raise. discriminate.
  - apply holds_bind; [apply holds_get_prop | intros; apply IH].
  - apply holds_bind; [apply holds_set_prop | intros; apply IH].
  - unfold alloc. eapply holds_trans; [| apply IH].
    apply (Rok_alloc st (OPlain (Data <$> list_to_map fields))).
    intros k cur deps. rewrite lookup_fmap.
    destruct (list_to_map fields !! k); discriminate.
  - unfold alloc. eapply holds_trans; [| apply IH].
    apply (Rok_alloc st (OPromise Pending)). exact I.
  - apply holds_bind; [apply holds_getters_get, IH | intros; apply IH].
  - apply holds_bind; [apply holds_commit_with, IH | intros; apply IH].
  - apply holds_bind; [apply holds_dispatch_with, IH | intros; apply IH].
  - eapply holds_trans; [| apply IH]. apply Rok_subscribers.
  - eapply holds_trans; [| apply IH]. apply Rok_subscribers.
Qed.

End Rules.

(** ** The write guard across calls *)

Lemma guard_respected np : respected np guard_kept guard_held.
Proof.
  split; unfold guard_kept, guard_held.
  - intros a. split; [reflexivity |]. split; [reflexivity | lia].
  - intros a b c0 (H1 & H2 & H3) (H4 & H5 & H6).
    split; [congruence |]. split; [congruence | lia].
  - intros e a b c0 (H1 & H2 & H3) [H4 H5]. split; [congruence |].
    intros Ha. apply H5. congruence.
  - intros a b (_ & _ & H). exact H.
  - intros a o k v b H.
    destruct (get_prop_inv _ _ _ _ _ H)
      as [-> | (l & props & deps & r & _ & _ & _ & _ & ->)].
    + split; [reflexivity |]. split; [reflexivity | lia].
    + cbn [isCommitting strict heap with_heap]. rewrite length_define.
      split; [reflexivity |]. split; [reflexivity | lia].
  - intros a o k v b H. apply set_prop_inv in H as (l & s & deps & _ & ->).
    cbn [isCommitting strict heap with_heap]. rewrite length_define.
    destruct (forEach_deps_fields deps a)
      as (_ & _ & _ & _ & _ & -> & -> & _).
    split; [reflexivity |]. split; [reflexivity | lia].
  - intros a o k v e b H.
    apply set_prop_throw in H as (-> & [-> | (-> & _ & Hc & _)]).
    + split; [reflexivity |]. intros Ha. split; [exact Ha | discriminate].
    + split; [reflexivity |]. congruence.
  - intros a e He. split; [reflexivity |]. intros Ha. split; [exact Ha | apply He].
  - intros a o _. simpl. rewrite length_app.
    split; [reflexivity |]. split; [reflexivity | lia].
  - intros a e _. simpl. split; [reflexivity |]. split; [reflexivity | lia].
  - intros a b f r s H _. exact H.
  - intros a c b v H. exact H.
  - intros a s. simpl. split; [reflexivity |]. split; [reflexivity | lia].
  - intros a b (_ & H1 & H2). simpl in *.
    split; [reflexivity |]. split; [exact H1 | exact H2].
  - intros e a b [H1 H2]. simpl in *. split; [exact H1 |].
    intros Ha. apply H2. reflexivity.
Qed.

Lemma run_guard np fuel c st :
  holds guard_kept guard_held st (run np fuel c st).
Proof. apply holds_run, guard_respected. Qed.

Lemma commit_guard np fuel st _type _payload :
  holds guard_kept guard_held st (commit np fuel st _type _payload).
Proof.
  unfold commit. apply holds_commit_with; [apply guard_respected |].
  intros. apply run_guard.
Qed.

(** ** The log and the heap only grow *)

Lemma delivery_in_weaken lo hi lo' hi' e :
  lo' <= lo -> hi <= hi' -> delivery_in lo hi e -> delivery_in lo' hi' e.
Proof.
  intros H1 H2. destruct e; simpl; try (intros; exact I).
  intros (r & -> & Hr). exists r. split; [reflexivity | lia].
Qed.

Lemma extends_refl a : extends a a.
Proof.
  split; [lia |]. exists []. rewrite app_nil_r. split; [reflexivity | constructor].
Qed.

Lemma extends_trans a b c : extends a b -> extends b c -> extends a c.
Proof.
  intros (H1 & l1 & E1 & F1) (H2 & l2 & E2 & F2). split; [lia |].
  exists (l1 ++ l2). split.
  - rewrite E2, E1, app_assoc. reflexivity.
  - apply Forall_app. split.
    + eapply Forall_impl; [exact F1 |]. intros e. apply delivery_in_weaken; lia.
    + eapply Forall_impl; [exact F2 |]. intros e. apply delivery_in_weaken; lia.
Qed.

Lemma extends_same a b :
  length (heap b) = length (heap a) -> log b = log a -> extends a b.
Proof.
  intros H1 H2. split; [lia |]. exists []. rewrite app_nil_r.
  split; [exact H2 | constructor].
Qed.

Lemma extends_respected np : respected np extends (fun _ => extends).
Proof.
  split.
  - apply extends_refl.
  - apply extends_trans.
  - intros _. apply extends_trans.
  - intros a b [H _]. exact H.
  - intros a o k v b H. apply get_prop_fields in H as (H1 & _ & _ & _ & H2).
    apply extends_same; assumption.
  - intros a o k v b H. apply set_prop_fields in H as (H1 & _ & _ & deps & H2).
    split; [lia |]. exists (map EvReaction deps). split; [exact H2 |].
    apply Forall_forall. intros e He. apply list_elem_of_In, in_map_iff in He.
    destruct He as (c & <- & _). exact I.
  - intros a o k v e b H. apply set_prop_throw in H as (-> & _). apply extends_refl.
  - intros a e _. apply extends_refl.
  - intros a o _. split; simpl; [rewrite length_app; lia |].
    exists []. rewrite app_nil_r. split; [reflexivity | constructor].
  - intros a e He. split; simpl; [lia |]. exists [e]. split; [reflexivity |].
    constructor; [| constructor].
    destruct e; simpl; try exact I. exfalso. eapply He. reflexivity.
  - intros a b f r s (H & l & E & F) Hr. split; simpl; [exact H |].
    exists (l ++ [EvSubscriber f (VObj r) s]). split.
    + rewrite E, app_assoc. reflexivity.
    + apply Forall_app. split; [exact F |]. constructor; [| constructor].
      exists r. split; [reflexivity | exact Hr].
  - intros a c b v (H & l & E & F). split; simpl in *; [exact H |].
    exists (EvGetter c :: l). split.
    + rewrite E, <- app_assoc. reflexivity.
    + constructor; [exact I | exact F].
  - intros a s. apply extends_same; reflexivity.
  - intros a b (H & l & E & F). split; simpl in *; [exact H |].
    exists l. split; assumption.
  - intros _ a b (H & l & E & F). split; simpl in *; [exact H |].
    exists l. split; assumption.
Qed.

Lemma run_extends np fuel c st :
  holds extends (fun _ => extends) st (run np fuel c st).
Proof. apply holds_run, extends_respected. Qed.

(** ** Members of a set built by [add] *)

Section JsSetFacts.
Context {A : Type} (key : A -> nat).

Lemma Set_has_key (s : list A) (x : A) :
  Set_has key s x = true <-> key x ∈ map key s.
Proof.
  unfold Set_has. rewrite existsb_exists, list_elem_of_In, in_map_iff.
  split; intros (y & H1 & H2).
  - apply Nat.eqb_eq in H2. exists y. split; assumption.
  - exists y. split; [exact H2 | apply Nat.eqb_eq, H1].
Qed.

Lemma Set_add_keys (s : list A) (x : A) :
  NoDup (map key s) ->
  NoDup (map key (Set_add key s x)) /\
  forall k, k ∈ map key (Set_add key s x) <-> k ∈ map key s \/ k = key x.
Proof.
  intros Hnd. unfold Set_add. destruct (Set_has key s x) eqn:E.
  - apply Set_has_key in E. split; [exact Hnd |].
    intros k. split; [auto |]. intros [H | ->]; assumption.
  - assert (Hn : key x ∉ map key s).
    { intros H. apply Set_has_key in H. congruence. }
    rewrite map_app. simpl. split.
    + apply NoDup_app. split; [exact Hnd |]. split; [| apply NoDup_singleton].
      intros k Hk Hk'. apply list_elem_of_singleton in Hk'. subst k. contradiction.
    + intros k. rewrite elem_of_app, list_elem_of_singleton. reflexivity.
Qed.

Lemma fold_Set_add_keys (l acc : list A) :
  NoDup (map key acc) ->
  NoDup (map key (fold_left (Set_add key) l acc)) /\
  forall k,
    k ∈ map key (fold_left (Set_add key) l acc) <->
    k ∈ map key acc \/ k ∈ map key l.
Proof.
  revert acc. induction l as [| x l IH]; intros acc Hnd; simpl.
  - split; [exact Hnd |]. intros k. split; [auto |].
    intros [H | H]; [exact H |]. apply elem_of_nil in H. contradiction.
  - destruct (Set_add_keys acc x Hnd) as [Hnd' Hin].
    destruct (IH _ Hnd') as [G1 G2]. split; [exact G1 |].
    intros k. rewrite G2, Hin, elem_of_cons. tauto.
Qed.

(** The copy [setFromForeachable] makes holds each function once, and holds
    exactly the functions of the collection it copies. *)
Lemma setFromForeachable_keys (l : list A) :
  NoDup (map key (setFromForeachable key l)) /\
  forall k, k ∈ map key (setFromForeachable key l) <-> k ∈ map key l.
Proof.
  unfold setFromForeachable.
  destruct (fold_Set_add_keys l []) as [G1 G2]; [simpl; apply NoDup_nil_2 |].
  split; [exact G1 |]. intros k. rewrite G2. simpl. split; [| auto].
  intros [H | H]; [apply elem_of_nil in H; contradiction | exact H].
Qed.
End JsSetFacts.

(** ** Fuel

    What a run returns or throws does not depend on the fuel it is given,
    once that is enough. *)

Lemma with_more_fuel_refl {A} (x : outcome A) : with_more_fuel x x.
Proof. right. reflexivity. Qed.

Lemma with_more_fuel_bind {A B} (x x' : outcome A) (f f' : A -> Store -> outcome B) :
  with_more_fuel x x' ->
  (forall a st, with_more_fuel (f a st) (f' a st)) ->
  with_more_fuel (bind x f) (bind x' f').
Proof.
  intros [-> | <-] Hf; [left; reflexivity |].
  destruct x; simpl; [apply Hf | | |]; apply with_more_fuel_refl.
Qed.

Section MoreFuel.
Variable NOT_PRODUCTION : bool.
Variables exec exec' : cmd -> Store -> outcome value.
Hypothesis exec_more : forall c st, with_more_fuel (exec c st) (exec' c st).

Lemma getters_get_more st k :
  with_more_fuel (getters_get exec st k) (getters_get exec' st k).
Proof.
  unfold getters_get. destruct (_getters st !! k) as [c |];
    [| apply with_more_fuel_refl].
  unfold getter_get, getter_call.
  destruct (closures st !! c) as [cl |]; [| apply with_more_fuel_refl].
  destruct (gc_isDirty cl); [| apply with_more_fuel_refl].
  apply with_more_fuel_bind; [apply exec_more |].
  intros. apply with_more_fuel_refl.
Qed.

Lemma forEach_subscribers_more subscribersCopy mutationArguments state st :
  with_more_fuel
    (forEach_subscribers exec subscribersCopy mutationArguments state st)
    (forEach_subscribers exec' subscribersCopy mutationArguments state st).
Proof.
  revert st. induction subscribersCopy as [| sub rest IH]; intros st; simpl.
  - apply with_more_fuel_refl.
  - apply with_more_fuel_bind; [apply exec_more |]. intros _ st1. apply IH.
Qed.

Lemma commit_with_more st _type _payload :
  with_more_fuel (commit_with NOT_PRODUCTION exec st _type _payload)
    (commit_with NOT_PRODUCTION exec' st _type _payload).
Proof.
  unfold commit_with. apply with_more_fuel_bind; [apply with_more_fuel_refl |].
  intros [type payload] st0.
  destruct (to_property_key type) as [key |]; [| apply with_more_fuel_refl].
  apply with_more_fuel_bind.
  - unfold _withCommit. apply with_more_fuel_bind; [| intros; apply with_more_fuel_refl].
    destruct (registry_get (_mutations st0) key); try apply with_more_fuel_refl.
    unfold mutation_wrapper.
    apply with_more_fuel_bind; [apply exec_more | intros; apply with_more_fuel_refl].
  - intros _ st1. unfold alloc.
    apply with_more_fuel_bind; [apply forEach_subscribers_more |].
    intros. apply with_more_fuel_refl.
Qed.

Lemma dispatch_with_more st _type _payload :
  with_more_fuel (dispatch_with NOT_PRODUCTION exec st _type _payload)
    (dispatch_with NOT_PRODUCTION exec' st _type _payload).
Proof.
  unfold dispatch_with. apply with_more_fuel_bind; [apply with_more_fuel_refl |].
  intros [type payload] st0.
  destruct (to_property_key type) as [key |]; [| apply with_more_fuel_refl].
  destruct (registry_get (_actions st0) key); try apply with_more_fuel_refl.
  unfold action_wrapper.
  apply with_more_fuel_bind; [apply exec_more | intros; apply with_more_fuel_refl].
Qed.
End MoreFuel.

Lemma run_more_fuel np fuel :
  forall c st, with_more_fuel (run np fuel c st) (run np (S fuel) c st).
Proof.
  induction fuel as [| fuel IH]; intros c st; [left; reflexivity |].
  remember (S fuel) as n eqn:En.
  destruct c; cbn [run]; rewrite En at 1; cbn [run]; subst n.
  - apply with_more_fuel_refl.
  - apply with_more_fuel_refl.
  - apply with_more_fuel_bind; [apply with_more_fuel_refl | intros; apply IH].
  - apply with_more_fuel_bind; [apply with_more_fuel_refl | intros; apply IH].
  - unfold alloc. apply IH.
  - unfold alloc. apply IH.
  - apply with_more_fuel_bind; [apply getters_get_more, IH | intros; apply IH].
  - apply with_more_fuel_bind; [apply commit_with_more, IH | intros; apply IH].
  - apply with_more_fuel_bind; [apply dispatch_with_more, IH | intros; apply IH].
  - apply IH.
  - apply IH.
Qed.

(** Enough fuel gives the result, and so does any more. *)
Lemma run_enough_fuel np fuel fuel' c st :
  fuel <= fuel' -> with_more_fuel (run np fuel c st) (run np fuel' c st).
Proof.
  induction 1 as [| m _ IH]; [apply with_more_fuel_refl |].
  destruct IH as [E | E]; [left; exact E |].
  rewrite E. apply run_more_fuel.
Qed.

Lemma commit_enough_fuel np fuel fuel' st _type _payload :
  fuel <= fuel' ->
  with_more_fuel (commit np fuel st _type _payload)
    (commit np fuel' st _type _payload).
Proof.
  intros H. apply commit_with_more. intros. apply run_enough_fuel, H.
Qed.

Lemma dispatch_enough_fuel np fuel fuel' st _type _payload :
  fuel <= fuel' ->
  with_more_fuel (dispatch np fuel st _type _payload)
    (dispatch np fuel' st _type _payload).
Proof.
  intros H. apply dispatch_with_more. intros. apply run_enough_fuel, H.
Qed.

Lemma getters_enough_fuel np fuel fuel' st k :
  fuel <= fuel' ->
  with_more_fuel (getters np fuel st k) (getters np fuel' st k).
Proof.
  intros H. apply getters_get_more. intros. apply run_enough_fuel, H.
Qed.

(** ** Every [deps] is a set *)

Lemma deps_are_sets_define h l k s :
  deps_are_sets h ->
  (forall cur deps, s = Cell cur deps -> NoDup deps) ->
  deps_are_sets (define l k s h).
Proof.
  intros H Hs l' props' k' cur deps Hl Hk.
  destruct (decide (l = l')) as [<- | Hne].
  - unfold define in Hl. rewrite list_lookup_alter_eq in Hl.
    destruct (h !! l) as [[props | p] |] eqn:E; simpl in Hl; try discriminate.
    injection Hl as <-.
    destruct (decide (k = k')) as [<- | Hk'].
    + rewrite lookup_insert_eq in Hk. injection Hk as ->. eapply Hs. reflexivity.
    + rewrite lookup_insert_ne in Hk by exact Hk'. eapply H; eassumption.
  - rewrite lookup_define_ne in Hl by exact Hne. eapply H; eassumption.
Qed.

Lemma deps_are_sets_alloc h o :
  deps_are_sets h -> no_cells o -> deps_are_sets (h ++ [o]).
Proof.
  intros H Ho l props k cur deps Hl Hk.
  apply lookup_app_Some in Hl as [Hl | [_ Hl]].
  - eapply H; eassumption.
  - apply list_lookup_singleton_Some in Hl as [_ Hl]. subst o.
    exfalso. eapply Ho, Hk.
Qed.

Lemma set_prop_heap np st o k v st' :
  set_prop np st o k v = Ok tt st' ->
  exists l props,
    o = VObj l /\ heap st !! l = Some (OPlain props) /\
    ((exists cur deps,
        props !! k = Some (Cell cur deps) /\
        heap st' = define l k (Cell v deps) (heap st)) \/
     heap st' = define l k (Data v) (heap st)).
Proof.
  unfold set_prop. intros H.
  destruct o; try discriminate.
  destruct (heap st !! l) as [[props | p] |] eqn:Hl; try discriminate.
  exists l, props. split; [reflexivity |]. split; [exact Hl |].
  destruct (props !! k) as [[cur deps | w] |] eqn:Hk.
  - destruct (strict st && negb (isCommitting st) && np); [discriminate |].
    injection H as <-. left. exists cur, deps. split; [reflexivity |].
    cbn [heap with_heap]. destruct (strict_neq v cur); [| reflexivity].
    destruct (forEach_deps_fields deps st) as (-> & _). reflexivity.
  - injection H as <-. right. reflexivity.
  - destruct (String.eqb k "__proto__"); [discriminate |].
    injection H as <-. right. reflexivity.
Qed.

Lemma sets_kept_same a b : heap b = heap a -> sets_kept a b.
Proof. intros E. unfold sets_kept. rewrite E. split; [lia | tauto]. Qed.

Lemma sets_kept_respected np : respected np sets_kept (fun _ => sets_kept).
Proof.
  assert (T : forall a b c, sets_kept a b -> sets_kept b c -> sets_kept a c).
  { intros a b c [H1 K1] [H2 K2]. split; [lia | tauto]. }
  split.
  - intros a. apply sets_kept_same. reflexivity.
  - exact T.
  - intros _. exact T.
  - intros a b [H _]. exact H.
  - intros a o k v b H.
    destruct (get_prop_inv _ _ _ _ _ H)
      as [-> | (l & props & deps & r & _ & Hl & Hk & _ & ->)].
    + apply sets_kept_same. reflexivity.
    + split; cbn [heap with_heap]; [rewrite length_define; lia |].
      intros Hs. apply deps_are_sets_define; [exact Hs |].
      intros cur d E. injection E as _ <-. apply Set_add_NoDup.
      eapply Hs; eassumption.
  - intros a o k v b H.
    destruct (set_prop_heap _ _ _ _ _ _ H)
      as (l & props & _ & Hl & [(cur & deps & Hk & E) | E]);
      unfold sets_kept; rewrite E.
    + split; [rewrite length_define; lia |].
      intros Hs. apply deps_are_sets_define; [exact Hs |].
      intros cur' d E'. injection E' as _ <-. eapply Hs; eassumption.
    + split; [rewrite length_define; lia |].
      intros Hs. apply deps_are_sets_define; [exact Hs | discriminate].
  - intros a o k v e b H. apply set_prop_throw in H as (-> & _).
    apply sets_kept_same. reflexivity.
  - intros a e _. apply sets_kept_same. reflexivity.
  - intros a o Ho. split; simpl; [rewrite length_app; lia |].
    intros Hs. apply deps_are_sets_alloc; assumption.
  - intros a e _. apply sets_kept_same. reflexivity.
  - intros a b f r s H _. exact H.
  - intros a c b v H. exact H.
  - intros a s. apply sets_kept_same. reflexivity.
  - intros a b H. exact H.
  - intros _ a b H. exact H.
Qed.

(** User code keeps every [deps] a set. *)
Lemma run_deps_are_sets np fuel c st :
  holds sets_kept (fun _ => sets_kept) st (run np fuel c st).
Proof. apply holds_run, sets_kept_respected. Qed.

Lemma init_value_deps_are_sets :
  forall val h, deps_are_sets h -> deps_are_sets (snd (init_value val h)).
Proof.
  fix IH 1. intros [v | entries] h H; simpl; [exact H |].
  assert (H0 : deps_are_sets (h ++ [OPlain ∅])).
  { apply deps_are_sets_alloc; [exact H |]. intros k cur deps.
    rewrite lookup_empty. discriminate. }
  revert H0. generalize (h ++ [OPlain ∅]). generalize (length h).
  induction entries as [| [key val] rest IHl]; intros state h0 H0; [exact H0 |].
  specialize (IH val h0 H0). destruct (init_value val h0) as [currentValue h1].
  apply IHl. apply deps_are_sets_define; [exact IH |].
  intros cur deps E. injection E as _ <-. apply NoDup_nil_2.
Qed.

Lemma forEachEntry_preserves {A} (P : Store -> Prop)
  (handler : string -> A -> Store -> outcome unit) :
  (forall key val st st', handler key val st = Ok tt st' -> P st -> P st') ->
  forall obj st st', forEachEntry obj handler st = Ok tt st' -> P st -> P st'.
Proof.
  intros Hh. induction obj as [| [key val] rest IH]; intros st st' H Hp; simpl in H.
  - injection H as <-. exact Hp.
  - destruct (handler key val st) as [[] st1 | | |] eqn:E; simpl in H; try discriminate.
    eapply IH; [exact H |]. eapply Hh; eassumption.
Qed.

Lemma registerGetter_deps_are_sets np fuel type handler st st' :
  registerGetter np (run np fuel) type handler st = Ok tt st' ->
  deps_are_sets (heap st) -> deps_are_sets (heap st').
Proof.
  unfold registerGetter. intros H Hs.
  pose proof (holds_getters_get np _ _ (sets_kept_respected np) (run np fuel)
                (run_deps_are_sets np fuel) st type) as G.
  destruct (getters_get (run np fuel) st type) as [existing st1 | | |];
    simpl in H; try discriminate.
  destruct G as [_ G]. specialize (G Hs).
  destruct (truthy existing).
  - destruct np; [discriminate |]. injection H as <-. exact G.
  - unfold getter_call in H. cbn [closures with_closures with_runningReaction] in H.
    rewrite lookup_app_r in H by lia. rewrite Nat.sub_diag in H. simpl in H.
    match type of H with
    | context [run np fuel ?c ?s] =>
      pose proof (run_deps_are_sets np fuel c s) as R;
      destruct (run np fuel c s) as [value st2 | | |]; simpl in H; try discriminate
    end.
    destruct R as [_ R]. specialize (R G).
    destruct (_getters st2 !! type); [discriminate |]. injection H as <-. exact R.
Qed.

(** In the store the constructor returns every [deps] is a set. *)
Lemma new_Store_deps_are_sets np fuel options st :
  new_Store np fuel options = Ok tt st -> deps_are_sets (heap st).
Proof.
  unfold new_Store. intros H.
  match type of H with
  | context [forEachEntry (o_getters options) ?h ?s] =>
    destruct (forEachEntry (o_getters options) h s) as [[] st1 | | |] eqn:E1;
      simpl in H; try discriminate
  end.
  match type of H with
  | context [forEachEntry (o_actions options) ?h ?s] =>
    destruct (forEachEntry (o_actions options) h s) as [[] st2 | | |] eqn:E2;
      simpl in H; try discriminate
  end.
  assert (S1 : deps_are_sets (heap st1)).
  { eapply (forEachEntry_preserves (fun s => deps_are_sets (heap s))); [| exact E1 |].
    - intros key val s s'. apply registerGetter_deps_are_sets.
    - unfold _initState.
      pose proof (init_value_deps_are_sets (PObj (o_state options)) []) as I0.
      destruct (init_value (PObj (o_state options)) _) as [state h]. simpl.
      apply I0. intros l props k cur deps Hl. rewrite lookup_nil in Hl. discriminate. }
  assert (S2 : deps_are_sets (heap st2)).
  { eapply (forEachEntry_preserves (fun s => deps_are_sets (heap s))); [| exact E2 | exact S1].
    intros key val s s' Hr Hs. unfold registerAction in Hr.
    destruct (registry_get (_actions s) key); try (destruct np; [discriminate |]);
      injection Hr as <-; exact Hs. }
  eapply (forEachEntry_preserves (fun s => deps_are_sets (heap s))); [| exact H | exact S2].
  intros key val s s' Hr Hs. unfold registerMutation in Hr.
  destruct (registry_get (_mutations s) key); try (destruct np; [discriminate |]);
    injection Hr as <-; exact Hs.
Qed.

(** ** The store the constructor returns *)

Lemma registerGetter_guard np fuel type handler st st' :
  registerGetter np (run np fuel) type handler st = Ok tt st' ->
  strict st' = strict st /\ isCommitting st' = isCommitting st.
Proof.
  unfold registerGetter. intros H.
  pose proof (holds_getters_get np _ _ (guard_respected np) (run np fuel)
                (run_guard np fuel) st type) as G.
  destruct (getters_get (run np fuel) st type) as [existing st1 | | |];
    simpl in H; try discriminate.
  destruct G as (G1 & G2 & _).
  destruct (truthy existing).
  - destruct np; [discriminate |]. injection H as <-. split; assumption.
  - unfold getter_call in H. cbn [closures with_closures with_runningReaction] in H.
    rewrite lookup_app_r in H by lia. rewrite Nat.sub_diag in H. simpl in H.
    match type of H with
    | context [run np fuel ?c ?s] =>
      pose proof (run_guard np fuel c s) as R;
      destruct (run np fuel c s) as [value st2 | | |]; simpl in H; try discriminate
    end.
    destruct R as (R1 & R2 & _). simpl in R1, R2.
    destruct (_getters st2 !! type); [discriminate |]. injection H as <-.
    simpl. split; congruence.
Qed.

(** The constructor returns a store with the [strict] of its options and
    with the guard false. *)
Lemma new_Store_guard np fuel options st :
  new_Store np fuel options = Ok tt st ->
  strict st = o_strict options /\ isCommitting st = false.
Proof.
  unfold new_Store. intros H.
  match type of H with
  | context [forEachEntry (o_getters options) ?h ?s] =>
    destruct (forEachEntry (o_getters options) h s) as [[] st1 | | |] eqn:E1;
      simpl in H; try discriminate
  end.
  match type of H with
  | context [forEachEntry (o_actions options) ?h ?s] =>
    destruct (forEachEntry (o_actions options) h s) as [[] st2 | | |] eqn:E2;
      simpl in H; try discriminate
  end.
  set (P := fun s => strict s = o_strict options /\ isCommitting s = false).
  assert (S1 : P st1).
  { eapply (forEachEntry_preserves P); [| exact E1 |].
    - intros key val s s' Hr [Hs Hc].
      apply registerGetter_guard in Hr as [E E']. unfold P. rewrite E, E'.
      split; assumption.
    - unfold _initState.
      destruct (init_value (PObj (o_state options)) _) as [state h].
      split; reflexivity. }
  assert (S2 : P st2).
  { eapply (forEachEntry_preserves P); [| exact E2 | exact S1].
    intros key val s s' Hr Hs. unfold registerAction in Hr.
    destruct (registry_get (_actions s) key); try (destruct np; [discriminate |]);
      injection Hr as <-; exact Hs. }
  eapply (forEachEntry_preserves P); [| exact H | exact S2].
  intros key val s s' Hr Hs. unfold registerMutation in Hr.
  destruct (registry_get (_mutations s) key); try (destruct np; [discriminate |]);
    injection Hr as <-; exact Hs.
Qed.

(** ** Notifying the subscribers (C7) *)

Lemma no_delivery_outside r lo hi l :
  r < lo \/ hi <= r ->
  Forall (delivery_in lo hi) l -> List.filter (is_delivery r) l = [].
Proof.
  intros Hr. induction 1 as [| e l He _ IH]; [reflexivity |]. simpl.
  rewrite IH. destruct e; simpl; try reflexivity.
  destruct He as (r' & -> & Hr').
  destruct (Nat.eqb_spec r' r); [lia | reflexivity].
Qed.

Lemma forEach_deliveries np fuel subscribersCopy r state :
  forall st st',
    r < length (heap st) ->
    forEach_subscribers (run np fuel) subscribersCopy (VObj r) state st = Ok tt st' ->
    exists l,
      log st' = log st ++ l /\
      List.filter (is_delivery r) l =
        map (fun sub => EvSubscriber (fst sub) (VObj r) state) subscribersCopy.
Proof.
  induction subscribersCopy as [| sub rest IH]; intros st st' Hr H; simpl in H.
  - injection H as <-. exists []. rewrite app_nil_r. split; reflexivity.
  - pose proof (run_extends np fuel (snd sub (VObj r) state)
                  (emit (EvSubscriber (fst sub) (VObj r) state) st)) as E.
    destruct (run np fuel _ _) as [v st1 | | |]; simpl in H; try discriminate.
    destruct E as (Hh & l1 & E1 & F1). simpl in Hh, E1, F1.
    destruct (IH st1 st' ltac:(lia) H) as (l2 & E2 & F2).
    exists ([EvSubscriber (fst sub) (VObj r) state] ++ l1 ++ l2). split.
    + rewrite E2, E1, <- !app_assoc. reflexivity.
    + rewrite !List.filter_app, F2.
      rewrite (no_delivery_outside r _ _ l1 (or_introl Hr) F1).
      simpl. rewrite Nat.eqb_refl. reflexivity.
Qed.

Lemma toObjectStyle_inv np st _type _payload tp st1 :
  toObjectStyle np st _type _payload = Ok tp st1 ->
  log st1 = log st /\ (runningReaction st = None -> st1 = st).
Proof.
  destruct np; [| apply toObjectStyle_production_inv].
  rewrite toObjectStyle_check.
  destruct (toObjectStyle false st _type _payload) as [tp0 st0 | | |] eqn:E;
    simpl; try discriminate.
  destruct (negb _); [discriminate |]. intros H. injection H as <- <-.
  eapply toObjectStyle_production_inv, E.
Qed.

Lemma filter_delivered_to r f l :
  List.filter (delivered_to r f) l =
    List.filter (delivered_to r f) (List.filter (is_delivery r) l).
Proof.
  induction l as [| e l IH]; [reflexivity |]. simpl.
  destruct (is_delivery r e) eqn:E; simpl.
  - destruct (delivered_to r f e); [f_equal |]; exact IH.
  - assert (D : delivered_to r f e = false).
    { destruct e; try reflexivity. simpl in *.
      destruct mutationArguments; try reflexivity.
      rewrite E. apply andb_false_r. }
    rewrite D. exact IH.
Qed.

Lemma count_delivered_to r f state (subs : list Subscriber) :
  NoDup (map fst subs) ->
  length (List.filter (delivered_to r f)
            (map (fun sub : Subscriber => EvSubscriber (fst sub) (VObj r) state) subs)) =
    if bool_decide (f ∈ map fst subs) then 1 else 0.
Proof.
  induction subs as [| sub subs IH]; intros Hnd; [reflexivity |].
  simpl in Hnd. apply NoDup_cons in Hnd as [Hn Hnd]. simpl.
  rewrite Nat.eqb_refl, andb_true_r.
  destruct (Nat.eqb_spec (fst sub) f) as [E | Hne]; simpl.
  - subst f. rewrite (IH Hnd).
    rewrite bool_decide_eq_false_2 by exact Hn.
    rewrite bool_decide_eq_true_2 by left. reflexivity.
  - rewrite (IH Hnd).
    apply (f_equal (fun b : bool => if b then 1 else 0)).
    apply bool_decide_ext. rewrite elem_of_cons. split; [auto |].
    intros [-> | H]; [contradiction | exact H].
Qed.

Lemma toObjectStyle_string np st s payload :
  toObjectStyle np st (VStr s) payload = Ok (VStr s, payload) st.
Proof. unfold toObjectStyle, isPayload. simpl. destruct np; reflexivity. Qed.

(** [commit] on a registered mutation: the handler under the guard, then
    the subscribers on a copy of the set. *)
Lemma commit_registered np fuel st _type _payload type payload st0 key handler :
  toObjectStyle np st _type _payload = Ok (type, payload) st0 ->
  to_property_key type = Some key ->
  _mutations st0 !! key = Some handler ->
  commit np fuel st _type _payload =
    call run np fuel (handler (_state st0) payload)
           (emit (EvMutation key payload true) (with_isCommitting true st0))
      as _r on st1 in
    let start := with_isCommitting (isCommitting st0) st1 in
    call forEach_subscribers (run np fuel)
           (setFromForeachable fst (subscribers start))
           (VObj (length (heap start))) (_state start)
           (snd (alloc (OPlain (<["payload" := Data payload]>
                                  (<["type" := Data type]> ∅))) start))
      as _r on st' in
    Ok VUndefined st'.
Proof.
  intros Ht Hk Hm. unfold commit, commit_with. rewrite Ht. cbn [bind].
  rewrite Hk. cbv beta iota. unfold registry_get. rewrite Hm.
  unfold _withCommit, mutation_wrapper. cbn [isCommitting with_isCommitting _state].
  destruct (run np fuel _ _); reflexivity.
Qed.

(** C7, as stated, fails where a subscriber throws.  On a store with the
    subscribers 1, 2 and 3, of which 2 throws "stop", the handler of
    [commit(TEST, 2)] returns and the three are in the set when notification
    starts; [commit] throws "stop", 1 and 2 have been invoked for this
    commit, and 3, a member of the set at the start of notification, has
    not. *)
Lemma C7_counterexample :
  run true 10 (Scenarios.add_to_a (VObj 0) (VNum 2))
    (emit (EvMutation "TEST" (VNum 2) true)
       (with_isCommitting true Examples.store_stopping)) =
    Ok VUndefined Examples.stopping_after_handler
  /\ map fst (subscribers Examples.stopping_after_handler) = [1; 2; 3]
  /\ commit true 10 Examples.store_stopping (VStr "TEST") (VNum 2) =
       Throw (Thrown (VStr "stop")) Examples.stopping_after_commit
  /\ List.filter (is_delivery 1)
       (drop (length (log Examples.store_stopping))
          (log Examples.stopping_after_commit)) =
     [EvSubscriber 1 (VObj 1) (VObj 0); EvSubscriber 2 (VObj 1) (VObj 0)]
  /\ List.filter (delivered_to 1 3)
       (drop (length (log Examples.store_stopping))
          (log Examples.stopping_after_commit)) = [].
Proof.
  split; [vm_compute; reflexivity |].
  split; [vm_compute; reflexivity |].
  split; [vm_compute; reflexivity |].
  split; [vm_compute; reflexivity |].
  vm_compute; reflexivity.
Qed.

(** C7, amended.  Take a commit whose mutation handler returns, and let [start] be
    the store at that moment, with the guard restored: that is where
    notification starts.  If every subscriber that is called returns, the
    commit returns, and the subscribers called with this commit's
    [mutationArguments] (a fresh object [{ type, payload }]) and the state
    are exactly the members of the subscriber set of [start], in the order
    of the set, each member exactly once; a function that is not in the set
    of [start] is not called for this commit, whatever the subscribers do to
    the set while they run. *)
Theorem C7_subscribers_snapshot np fuel st _type _payload type payload st0 key
  handler res st1 st' :
  toObjectStyle np st _type _payload = Ok (type, payload) st0 ->
  to_property_key type = Some key ->
  _mutations st0 !! key = Some handler ->
  run np fuel (handler (_state st0) payload)
    (emit (EvMutation key payload true) (with_isCommitting true st0)) = Ok res st1 ->
  let start := with_isCommitting (isCommitting st0) st1 in
  let r := length (heap start) in
  let mutationArguments :=
    OPlain (<["payload" := Data payload]> (<["type" := Data type]> ∅)) in
  forEach_subscribers (run np fuel) (setFromForeachable fst (subscribers start))
    (VObj r) (_state start) (snd (alloc mutationArguments start)) = Ok tt st' ->
  let called := drop (length (log st)) (log st') in
  commit np fuel st _type _payload = Ok VUndefined st'
  /\ heap (snd (alloc mutationArguments start)) !! r = Some mutationArguments
  /\ List.filter (is_delivery r) called =
       map (fun sub => EvSubscriber (fst sub) (VObj r) (_state start))
         (setFromForeachable fst (subscribers start))
  /\ (forall f,
        length (List.filter (delivered_to r f) called) =
          if bool_decide (f ∈ map fst (subscribers start)) then 1 else 0).
Proof.
  intros Ht Hk Hm Hr. cbn zeta. intros Hf.
  cbn [heap with_isCommitting _state subscribers] in *.
  assert (Hloop : exists l,
             log st' = log st1 ++ l /\
             List.filter (is_delivery (length (heap st1))) l =
               map (fun sub => EvSubscriber (fst sub) (VObj (length (heap st1))) (_state st1))
                 (setFromForeachable fst (subscribers st1))).
  { eapply (forEach_deliveries np fuel _ _ _ _ _ _ Hf). Unshelve.
    simpl. rewrite length_app. simpl. lia. }
  destruct Hloop as (l2 & E2 & F2).
  pose proof (run_extends np fuel (handler (_state st0) payload)
                (emit (EvMutation key payload true) (with_isCommitting true st0))) as E.
  rewrite Hr in E. destruct E as (_ & l1 & E1 & F1). simpl in E1, F1.
  destruct (toObjectStyle_inv _ _ _ _ _ _ Ht) as [L0 _].
  assert (Hcalled : drop (length (log st)) (log st') =
                    [EvMutation key payload true] ++ l1 ++ l2).
  { rewrite E2, E1, L0, <- !app_assoc. apply drop_app_length. }
  assert (Hfilter : List.filter (is_delivery (length (heap st1)))
                      (drop (length (log st)) (log st')) =
                    map (fun sub => EvSubscriber (fst sub) (VObj (length (heap st1))) (_state st1))
                      (setFromForeachable fst (subscribers st1))).
  { rewrite Hcalled, !List.filter_app, F2.
    rewrite (no_delivery_outside _ _ _ l1 (or_intror (Nat.le_refl _)) F1).
    reflexivity. }
  split; [| split; [| split; [exact Hfilter |]]].
  - rewrite (commit_registered _ _ _ _ _ _ _ _ _ _ Ht Hk Hm), Hr. cbn [bind].
    cbn zeta. cbn [heap with_isCommitting _state subscribers].
    rewrite Hf. reflexivity.
  - simpl. rewrite lookup_app_r by lia. rewrite Nat.sub_diag. reflexivity.
  - intros f. rewrite filter_delivered_to, Hfilter.
    destruct (setFromForeachable_keys fst (subscribers st1)) as [Hnd Hin].
    rewrite (count_delivered_to _ _ _ _ Hnd).
    apply (f_equal (fun b : bool => if b then 1 else 0)).
    apply bool_decide_ext, Hin.
Qed.

(** The test of the snapshot: [store.commit(TEST, 2)] on a store whose first
    subscriber unsubscribes itself and subscribes a third one.  The first
    and the second are called once each, the third is not called. *)
Lemma C7_subscribers_snapshot_witness :
  map fst (subscribers Scenarios.subscribed_after_handler) = [1; 2]
  /\ map fst (subscribers Scenarios.subscribed_after_commit) = [2; 3]
  /\ forall f,
       length
         (List.filter
            (delivered_to
               (length
                  (heap (with_isCommitting (isCommitting Scenarios.store_subscribed)
                           Scenarios.subscribed_after_handler))) f)
            (drop (length (log Scenarios.store_subscribed))
               (log Scenarios.subscribed_after_commit))) =
         if bool_decide
              (f ∈ map fst
                     (subscribers
                        (with_isCommitting (isCommitting Scenarios.store_subscribed)
                           Scenarios.subscribed_after_handler)))
         then 1 else 0.
Proof.
  split; [vm_compute; reflexivity |].
  split; [vm_compute; reflexivity |].
  refine (proj2 (proj2 (proj2
    (C7_subscribers_snapshot true 10 Scenarios.store_subscribed
       (VStr "TEST") (VNum 2) (VStr "TEST") (VNum 2)
       Scenarios.store_subscribed "TEST" Scenarios.add_to_a VUndefined
       Scenarios.subscribed_after_handler
       Scenarios.subscribed_after_commit _ _ _ _ _)))).
  - reflexivity.
  - reflexivity.
  - vm_compute; reflexivity.
  - vm_compute; reflexivity.
  - vm_compute; reflexivity.
Defined.

(** ** The guard around a mutation handler (C4) *)

(** C4, as stated, fails where the handler throws: [_withCommit] restores
    [isCommitting] after [cb()] returns and has no handler for exceptions,
    so the exception leaves [commit] with the guard still true, and a write
    to the state outside any mutation then passes the guard. *)
Lemma C4_counterexample :
  isCommitting Scenarios.store_throwing = false
  /\ exists st',
       commit true 5 Scenarios.store_throwing (VStr "boom") VUndefined =
         Throw (Thrown (VStr "boom")) st'
       /\ isCommitting st' = true
       /\ Scenarios.result (set_prop true st' (VObj 0) "a" (VNum 5)) = Some tt.
Proof.
  split; [reflexivity |]. eexists.
  split; [vm_compute; reflexivity |].
  split; vm_compute; reflexivity.
Qed.

(** C4, amended.  For a registered mutation [m] and every payload,
    [commit(m, payload)] calls [m]'s handler once, at once, with
    [isCommitting] set to true before the call.  While the handler runs,
    whatever it does and calls, the guard never refuses a write: the
    handler cannot end with the guard's error, and [isCommitting] is true
    when it ends.  When the handler returns, [isCommitting] is set back to
    the value it had before the commit, the subscribers are notified from
    that store, and the guard has its prior value when [commit] returns.
    When the handler throws, [commit] throws the same exception, from the
    store the handler left, where [isCommitting] is still true. *)
Theorem C4_commit_guard np fuel st m handler payload :
  _mutations st !! m = Some handler ->
  let entry := emit (EvMutation m payload true) (with_isCommitting true st) in
  isCommitting entry = true
  /\ log entry = log st ++ [EvMutation m payload true]
  /\ (forall res st1,
        run np fuel (handler (_state st) payload) entry = Ok res st1 ->
        isCommitting st1 = true
        /\ (exists l, log st1 = log st ++ EvMutation m payload true :: l)
        /\ commit np fuel st (VStr m) payload =
             (let start := with_isCommitting (isCommitting st) st1 in
              call forEach_subscribers (run np fuel)
                     (setFromForeachable fst (subscribers start))
                     (VObj (length (heap start))) (_state start)
                     (snd (alloc (OPlain (<["payload" := Data payload]>
                                            (<["type" := Data (VStr m)]> ∅)))
                             start))
                as _r on st' in
              Ok VUndefined st')
        /\ (forall v st',
              commit np fuel st (VStr m) payload = Ok v st' ->
              isCommitting st' = isCommitting st))
  /\ (forall e st1,
        run np fuel (handler (_state st) payload) entry = Throw e st1 ->
        e <> JsError guard_message
        /\ isCommitting st1 = true
        /\ commit np fuel st (VStr m) payload = Throw e st1).
Proof.
  intros Hm. cbn zeta.
  pose proof (commit_registered np fuel st (VStr m) payload (VStr m) payload st m
                handler (toObjectStyle_string np st m payload) eq_refl Hm) as C.
  split; [reflexivity |]. split; [reflexivity |]. split.
  - intros res st1 Hr.
    pose proof (run_guard np fuel (handler (_state st) payload)
                  (emit (EvMutation m payload true) (with_isCommitting true st))) as G.
    pose proof (run_extends np fuel (handler (_state st) payload)
                  (emit (EvMutation m payload true) (with_isCommitting true st))) as E.
    rewrite Hr in G, E. destruct G as (G & _ & _). destruct E as (_ & l & E & _).
    simpl in G, E. split; [exact G |]. split.
    + exists l. rewrite E, <- app_assoc. reflexivity.
    + split.
      * rewrite C, Hr. reflexivity.
      * intros v st' Hc. pose proof (commit_guard np fuel st (VStr m) payload) as G'.
        rewrite Hc in G'. apply G'.
  - intros e st1 Hr.
    pose proof (run_guard np fuel (handler (_state st) payload)
                  (emit (EvMutation m payload true) (with_isCommitting true st))) as G.
    rewrite Hr in G. destruct G as [_ G].
    split; [apply G; reflexivity |]. split; [apply G; reflexivity |].
    rewrite C, Hr. reflexivity.
Qed.

(** [store.commit(TEST, 2)] of the test "committing mutations": the guard
    is back to false when [commit] returns. *)
Lemma C4_commit_guard_witness :
  isCommitting (Scenarios.store_a true) = false
  /\ exists st',
       commit true 10 (Scenarios.store_a true) (VStr "TEST") (VNum 2) =
         Ok VUndefined st'
       /\ isCommitting st' = isCommitting (Scenarios.store_a true).
Proof.
  split; [reflexivity |]. eexists. split; [vm_compute; reflexivity |].
  eapply (C4_commit_guard true 10 (Scenarios.store_a true) "TEST"
            Scenarios.add_to_a (VNum 2)).
  - vm_compute; reflexivity.
  - vm_compute; reflexivity.
  - vm_compute; reflexivity.
Defined.

(** ** What [dispatch] returns (C8) *)














(** ** The cache of a getter (C1) *)

Lemma forEach_deps_other deps st c :
  c ∉ deps -> closures (forEach_deps deps st) !! c = closures st !! c.
Proof.
  intros Hc. destruct (closures st !! c) as [cl |] eqn:E.
  - rewrite (forEach_deps_dirty deps st c cl E).
    rewrite bool_decide_eq_false_2 by exact Hc. destruct cl; reflexivity.
  - apply lookup_ge_None. apply lookup_ge_None in E.
    destruct (forEach_deps_fields deps st)
      as (_ & _ & _ & _ & _ & _ & _ & _ & _ & _ & ->). exact E.
Qed.

Lemma closure_kept_same c a b :
  length (heap a) <= length (heap b) -> _getters b = _getters a ->
  log b = log a -> closures b = closures a -> closure_kept c a b.
Proof.
  intros H1 H2 H3 H4. split; [exact H1 |]. split; [exact H2 |].
  split; [rewrite H4; reflexivity |].
  exists []. rewrite app_nil_r. split; [exact H3 |]. intros _. rewrite H4. reflexivity.
Qed.

Lemma closure_kept_trans c x y z :
  closure_kept c x y -> closure_kept c y z -> closure_kept c x z.
Proof.
  intros (H1 & G1 & L1 & l1 & E1 & K1) (H2 & G2 & L2 & l2 & E2 & K2).
  split; [lia |]. split; [congruence |]. split; [congruence |].
  exists (l1 ++ l2). split.
  - rewrite E2, E1, app_assoc. reflexivity.
  - intros F. apply Forall_app in F as [F1 F2]. rewrite (K2 F2). apply K1, F1.
Qed.

Lemma closure_kept_respected np c :
  respected np (closure_kept c) (fun _ => closure_kept c).
Proof.
  split.
  - intros a. apply closure_kept_same; reflexivity || lia.
  - apply closure_kept_trans.
  - intros _. apply closure_kept_trans.
  - intros a b [H _]. exact H.
  - intros a o k v b H.
    destruct (get_prop_inv _ _ _ _ _ H)
      as [-> | (l & props & deps & r & _ & _ & _ & _ & ->)].
    + apply closure_kept_same; reflexivity || lia.
    + apply closure_kept_same; try reflexivity.
      cbn [heap with_heap]. rewrite length_define. lia.
  - intros a o k v b H. apply set_prop_inv in H as (l & s & deps & _ & ->).
    destruct (forEach_deps_fields deps a)
      as (Hh & _ & Hg & _ & _ & _ & _ & _ & _ & Hl & Hc).
    split; [| split; [| split]].
    + cbn [heap with_heap]. rewrite length_define. lia.
    + exact Hg.
    + exact Hc.
    + exists (map EvReaction deps). split; [exact Hl |].
      intros F. cbn [closures with_heap]. apply forEach_deps_other.
      intros Hc'. rewrite Forall_forall in F.
      specialize (F (EvReaction c)). simpl in F. rewrite Nat.eqb_refl in F.
      assert (true = false); [| discriminate]. apply F.
      apply list_elem_of_In, in_map, list_elem_of_In, Hc'.
  - intros a o k v e b H. apply set_prop_throw in H as (-> & _).
    apply closure_kept_same; reflexivity || lia.
  - intros a e _. apply closure_kept_same; reflexivity || lia.
  - intros a o _. apply closure_kept_same; try reflexivity.
    simpl. rewrite length_app. lia.
  - intros a e _. split; simpl; [lia |]. split; [reflexivity |].
    split; [reflexivity |].
    exists [e]. split; [reflexivity |]. intros _. reflexivity.
  - intros a b f r s (H & G & L & l & E & K) _. split; simpl; [exact H |].
    split; [exact G |]. split; [exact L |].
    exists (l ++ [EvSubscriber f (VObj r) s]). split.
    + rewrite E, app_assoc. reflexivity.
    + intros F. apply Forall_app in F as [F _]. apply K, F.
  - intros a c' b v (H & G & L & l & E & K). simpl in H, G, L, E, K.
    split; simpl; [exact H |]. split; [exact G |].
    split; [rewrite length_alter; exact L |].
    exists (EvGetter c' :: l). split.
    + rewrite E, <- app_assoc. reflexivity.
    + intros F. apply Forall_cons in F as [F0 F]. simpl in F0.
      rewrite list_lookup_alter_ne; [apply K, F |].
      intros ->. rewrite Nat.eqb_refl in F0. discriminate.
  - intros a s. apply closure_kept_same; reflexivity || lia.
  - intros a b (H & G & L & l & E & K). split; simpl in *; [exact H |].
    split; [exact G |]. split; [exact L |]. exists l. split; assumption.
  - intros _ a b (H & G & L & l & E & K). split; simpl in *; [exact H |].
    split; [exact G |]. split; [exact L |]. exists l. split; assumption.
Qed.

(** A getter that is not dirty returns its cached value; its function is
    not called and the store is left as it is. *)
Lemma getter_cached np fuel st k c cl :
  _getters st !! k = Some c -> closures st !! c = Some cl ->
  gc_isDirty cl = false ->
  getters np fuel st k = Ok (gc_value cl) st.
Proof.
  intros Hk Hc Hd. unfold getters, getters_get, getter_get.
  rewrite Hk, Hc, Hd. reflexivity.
Qed.

(** A getter that is dirty calls its function once and caches what it
    returns. *)
Lemma getter_recomputed np fuel st k c cl :
  _getters st !! k = Some c -> closures st !! c = Some cl ->
  gc_isDirty cl = true ->
  getters np fuel st k =
    call run np fuel (gc_handler cl (_state st)) (emit (EvGetter c) st)
      as value on st1 in
    Ok value
      (with_closures
         (alter (fun cl => GetterClosure (gc_handler cl) false value) c
            (closures st1)) st1).
Proof.
  intros Hk Hc Hd. unfold getters, getters_get, getter_get, getter_call.
  rewrite Hk, Hc, Hd. reflexivity.
Qed.

(** The cache survives whatever user code does (any number of commits and
    dispatches), as long as the reaction of the getter is not called, that
    is, by C9, as long as no property that holds the reaction in its [deps]
    is given a different value: the next read returns the cached value
    without calling the getter's function. *)
Lemma getter_cache_survives np fuel code st v st' k c cl :
  _getters st !! k = Some c -> closures st !! c = Some cl ->
  gc_isDirty cl = false ->
  run np fuel code st = Ok v st' ->
  Forall (fun e => of_closure c e = false) (drop (length (log st)) (log st')) ->
  forall fuel', getters np fuel' st' k = Ok (gc_value cl) st'.
Proof.
  intros Hk Hc Hd Hr F fuel'.
  pose proof (holds_run np _ _ (closure_kept_respected np c) fuel code st) as H.
  rewrite Hr in H. destruct H as (_ & G & _ & l & E & K).
  rewrite E, drop_app_length in F.
  apply (getter_cached np fuel' st' k c cl);
    [congruence | rewrite (K F); exact Hc | exact Hd].
Qed.

(** A dirty getter whose function returns: the read calls the function
    once, returns its value and caches it, so that the next read returns it
    without a call. *)
Lemma getter_recomputed_then_cached np fuel st k c cl value st1 :
  _getters st !! k = Some c -> closures st !! c = Some cl ->
  gc_isDirty cl = true ->
  run np fuel (gc_handler cl (_state st)) (emit (EvGetter c) st) = Ok value st1 ->
  exists st2,
    getters np fuel st k = Ok value st2 /\
    log st2 = log st1 /\
    forall fuel', getters np fuel' st2 k = Ok value st2.
Proof.
  intros Hk Hc Hd Hr.
  pose proof (holds_run np _ _ (closure_kept_respected np c) fuel
                (gc_handler cl (_state st)) (emit (EvGetter c) st)) as H.
  rewrite Hr in H. destruct H as (_ & G & L & _). simpl in G, L.
  destruct (closures st1 !! c) as [cl1 |] eqn:E1.
  2:{ apply lookup_ge_None in E1. apply lookup_lt_Some in Hc. lia. }
  eexists. split; [| split].
  - rewrite (getter_recomputed np fuel st k c cl Hk Hc Hd), Hr. reflexivity.
  - reflexivity.
  - intros fuel'.
    apply (getter_cached np fuel' _ k c (GetterClosure (gc_handler cl1) false value)).
    + simpl. congruence.
    + simpl. rewrite list_lookup_alter_eq, E1. reflexivity.
    + reflexivity.
Qed.

(** C1 fails on a getter that reads a property only in a later evaluation.
    [registerGetter] sets [runningReaction] around the first call of the
    getter's function only; the call it makes when the getter is dirty runs
    with [runningReaction] null, so the properties read then do not get the
    reaction in their [deps].  With [g: state => (state.a > 0 ? state.b : 0)]
    over [{ a: 0, b: 5 }]: at registration [g] reads [a] alone; after
    [commit("setA", 1)] the next read calls [g]'s function a second time,
    which reads [b] and returns 5; [commit("setB", 7)] then changes [b], a
    property [g] read, and the next read of [getters.g] still returns 5
    without calling [g]'s function, although the function now evaluates to
    7.  On the store of the test "invokes getters only when its dependencies
    changed", where the getter reads the same property every time, the
    values and call counts are the expected ones. *)
Theorem C1_stale_getter :
  heap Scenarios.store_b_if_a !! 0 =
    Some (OPlain (<["b" := Cell (VNum 5) []]> (<["a" := Cell (VNum 0) [0]]> ∅)))
  /\ Scenarios.result Scenarios.b_if_a_first = Some (VNum 5)
  /\ Scenarios.count_getter 0 (log (Scenarios.built Scenarios.b_if_a_first)) = 2
  /\ heap (Scenarios.built Scenarios.b_if_a_first) !! 0 =
       Some (OPlain (<["b" := Cell (VNum 5) []]> (<["a" := Cell (VNum 1) [0]]> ∅)))
  /\ Scenarios.result Scenarios.b_if_a_second = Some (VNum 5)
  /\ Scenarios.count_getter 0 (log (Scenarios.built Scenarios.b_if_a_second)) = 2
  /\ get_prop (Scenarios.built Scenarios.b_if_a_second) (VObj 0) "b" =
       Ok (VNum 7) (Scenarios.built Scenarios.b_if_a_second)
  /\ Scenarios.result
       (run true 10 (Scenarios.b_if_a (VObj 0))
          (Scenarios.built Scenarios.b_if_a_second)) = Some (VNum 7)
  /\ Scenarios.invokes_getters_only_when_changed =
       [ (Some (VStr "none"), 1); (Some (VStr "none"), 1);
         (Some (VStr "hasAny"), 2); (Some (VStr "hasAny"), 2) ].
Proof.
  split; [vm_compute; reflexivity |].
  split; [vm_compute; reflexivity |].
  split; [vm_compute; reflexivity |].
  split; [vm_compute; reflexivity |].
  split; [vm_compute; reflexivity |].
  split; [vm_compute; reflexivity |].
  split; [vm_compute; reflexivity |].
  split; [vm_compute; reflexivity |].
  vm_compute; reflexivity.
Qed.

(** * Further properties *)

(** ** What user code leaves as the constructor wired it *)

Lemma map_handler_alter (f : getter_closure -> getter_closure) c cls :
  (forall cl, gc_handler (f cl) = gc_handler cl) ->
  map gc_handler (alter f c cls) = map gc_handler cls.
Proof.
  intros Hf. revert c. induction cls as [| cl cls IH]; intros [| c]; simpl;
    try reflexivity.
  - rewrite Hf. reflexivity.
  - f_equal. apply IH.
Qed.

Lemma forEach_deps_handlers deps st :
  map gc_handler (closures (forEach_deps deps st)) = map gc_handler (closures st).
Proof.
  revert st. induction deps as [| c deps IH]; intros st; [reflexivity |].
  simpl. rewrite IH. unfold reaction. simpl.
  apply map_handler_alter. reflexivity.
Qed.

Lemma deps_of_define h l k s l' k' :
  (forall props, h !! l = Some (OPlain props) ->
     match props !! k, s with
     | Some (Cell _ deps), Cell _ deps' => deps' = deps
     | Some (Cell _ _), Data _ => False
     | _, Cell _ _ => False
     | _, Data _ => True
     end) ->
  deps_of (define l k s h) l' k' = deps_of h l' k'.
Proof.
  intros H. unfold deps_of.
  destruct (decide (l = l')) as [<- | Hne].
  - unfold define. rewrite list_lookup_alter_eq.
    destruct (h !! l) as [[props | p] |] eqn:E; simpl; try reflexivity.
    specialize (H props eq_refl).
    destruct (decide (k = k')) as [<- | Hk].
    + rewrite lookup_insert_eq.
      destruct (props !! k) as [[cur deps | w] |], s as [cur' deps' | w'];
        try contradiction; subst; reflexivity.
    + rewrite lookup_insert_ne by exact Hk. reflexivity.
  - rewrite lookup_define_ne by exact Hne. reflexivity.
Qed.

Lemma set_prop_deps_of np st o k v st' :
  set_prop np st o k v = Ok tt st' ->
  forall l' k', deps_of (heap st') l' k' = deps_of (heap st) l' k'.
Proof.
  unfold set_prop. intros H l' k'.
  destruct o; try discriminate.
  destruct (heap st !! l) as [[props | p] |] eqn:Hl; try discriminate.
  destruct (props !! k) as [[cur deps | w] |] eqn:Hk.
  - destruct (strict st && negb (isCommitting st) && np); [discriminate |].
    injection H as <-. cbn [heap with_heap].
    assert (E : heap (if strict_neq v cur then forEach_deps deps st else st) = heap st).
    { destruct (strict_neq v cur); [| reflexivity].
      destruct (forEach_deps_fields deps st) as (-> & _). reflexivity. }
    rewrite E. apply deps_of_define. intros props' Hp.
    rewrite Hl in Hp. injection Hp as <-. rewrite Hk. reflexivity.
  - injection H as <-. cbn [heap with_heap]. apply deps_of_define.
    intros props' Hp. rewrite Hl in Hp. injection Hp as <-. rewrite Hk. exact I.
  - destruct (String.eqb k "__proto__"); [discriminate |].
    injection H as <-. cbn [heap with_heap]. apply deps_of_define.
    intros props' Hp. rewrite Hl in Hp. injection Hp as <-. rewrite Hk. exact I.
Qed.

Lemma set_prop_wiring np st o k v st' :
  set_prop np st o k v = Ok tt st' ->
  _state st' = _state st /\ _getters st' = _getters st /\
  _actions st' = _actions st /\ _mutations st' = _mutations st /\
  strict st' = strict st /\ runningReaction st' = runningReaction st /\
  map gc_handler (closures st') = map gc_handler (closures st).
Proof.
  intros H. apply set_prop_inv in H as (l & s & deps & _ & ->).
  cbn [_state _getters _actions _mutations strict runningReaction closures with_heap].
  rewrite forEach_deps_handlers.
  destruct (forEach_deps_fields deps st)
    as (_ & -> & -> & -> & -> & -> & _ & -> & _).
  repeat split; reflexivity.
Qed.

Lemma wiring_kept_refl a : wiring_kept a a.
Proof. unfold wiring_kept. repeat split; try reflexivity. Qed.

Lemma wiring_kept_trans a b c :
  wiring_kept a b -> wiring_kept b c -> wiring_kept a c.
Proof.
  intros (A1 & A2 & A3 & A4 & A5 & A6 & A7 & A8 & A9)
         (B1 & B2 & B3 & B4 & B5 & B6 & B7 & B8 & B9).
  unfold wiring_kept. repeat split; try congruence; try lia.
  intros Hr l k. rewrite B9 by congruence. apply A9, Hr.
Qed.

Lemma wiring_kept_same a b :
  heap b = heap a -> _state b = _state a -> _getters b = _getters a ->
  _actions b = _actions a -> _mutations b = _mutations a ->
  strict b = strict a -> runningReaction b = runningReaction a ->
  map gc_handler (closures b) = map gc_handler (closures a) ->
  wiring_kept a b.
Proof.
  intros E. intros. unfold wiring_kept. rewrite E.
  repeat split; try assumption; try lia.
Qed.

Lemma deps_of_alloc h o l k :
  no_cells o -> deps_of (h ++ [o]) l k = deps_of h l k.
Proof.
  intros Ho. unfold deps_of.
  destruct (decide (l < length h)) as [Hlt | Hge].
  - rewrite lookup_app_l by exact Hlt. reflexivity.
  - rewrite (lookup_ge_None_2 h l) by lia.
    destruct ((h ++ [o]) !! l) as [o' |] eqn:E; [| reflexivity].
    apply lookup_app_Some in E as [E | [_ E]].
    + apply lookup_lt_Some in E. lia.
    + apply list_lookup_singleton_Some in E as [_ <-].
      destruct o as [props | p]; [| reflexivity].
      destruct (props !! k) as [[cur deps | w] |] eqn:Ek; try reflexivity.
      exfalso. eapply Ho, Ek.
Qed.

Lemma wiring_respected np : respected np wiring_kept (fun _ => wiring_kept).
Proof.
  split.
  - exact wiring_kept_refl.
  - exact wiring_kept_trans.
  - intros _. exact wiring_kept_trans.
  - intros a b (H & _). exact H.
  - intros a o k v b H.
    destruct (get_prop_inv _ _ _ _ _ H)
      as [-> | (l & props & deps & r & _ & Hl & Hk & Hr & ->)].
    + apply wiring_kept_refl.
    + unfold wiring_kept. cbn. rewrite length_define.
      repeat split; try reflexivity; try lia. rewrite Hr. discriminate.
  - intros a o k v b H.
    destruct (set_prop_wiring _ _ _ _ _ _ H) as (E1 & E2 & E3 & E4 & E5 & E6 & E7).
    pose proof (set_prop_deps_of _ _ _ _ _ _ H) as E8.
    destruct (set_prop_fields _ _ _ _ _ _ H) as (E9 & _).
    unfold wiring_kept. repeat split; try assumption; try lia.
    intros _. exact E8.
  - intros a o k v e b H. apply set_prop_throw in H as (-> & _).
    apply wiring_kept_refl.
  - intros a e _. apply wiring_kept_refl.
  - intros a o Ho. unfold wiring_kept. cbn. rewrite length_app.
    repeat split; try reflexivity; try lia.
    intros _ l k. apply deps_of_alloc, Ho.
  - intros a e _. apply wiring_kept_same; reflexivity.
  - intros a b f r s H _. eapply wiring_kept_trans; [exact H |].
    apply wiring_kept_same; reflexivity.
  - intros a c b v H.
    eapply wiring_kept_trans; [apply wiring_kept_same with (b := emit (EvGetter c) a); reflexivity |].
    eapply wiring_kept_trans; [exact H |].
    apply wiring_kept_same; try reflexivity.
    cbn. apply map_handler_alter. reflexivity.
  - intros a s. apply wiring_kept_same; reflexivity.
  - intros a b H.
    eapply wiring_kept_trans; [apply wiring_kept_same with (b := with_isCommitting true a); reflexivity |].
    eapply wiring_kept_trans; [exact H |].
    apply wiring_kept_same; reflexivity.
  - intros e a b H.
    eapply wiring_kept_trans; [apply wiring_kept_same with (b := with_isCommitting true a); reflexivity |].
    exact H.
Qed.

Lemma run_wiring np fuel c st :
  holds wiring_kept (fun _ => wiring_kept) st (run np fuel c st).
Proof. apply holds_run, wiring_respected. Qed.

(** ** Copies of a set, and the set of subscribers *)

Section JsSetCopies.
Context {A : Type} (key : A -> nat).

Lemma fold_Set_add_fresh (l acc : list A) :
  NoDup (map key (acc ++ l)) -> fold_left (Set_add key) l acc = acc ++ l.
Proof.
  revert acc. induction l as [| x l IH]; intros acc H; simpl.
  - rewrite app_nil_r. reflexivity.
  - assert (E : Set_add key acc x = acc ++ [x]).
    { unfold Set_add. destruct (Set_has key acc x) eqn:Hh; [| reflexivity].
      exfalso. apply Set_has_key in Hh.
      rewrite map_app in H. apply NoDup_app in H as (_ & H & _).
      apply (H (key x) Hh). simpl. left. }
    rewrite E. rewrite IH; rewrite <- app_assoc; [reflexivity | exact H].
Qed.

Lemma Set_delete_keys (s : list A) (f g : nat) :
  g ∈ map key (Set_delete key s f) <-> g ∈ map key s /\ g <> f.
Proof.
  unfold Set_delete. rewrite !list_elem_of_fmap. split.
  - intros (x & -> & Hx). apply list_elem_of_filter in Hx as [Hne Hx].
    split; [exists x; split; [reflexivity | exact Hx] | exact Hne].
  - intros [(x & -> & Hx) Hne]. exists x. split; [reflexivity |].
    apply list_elem_of_filter. split; assumption.
Qed.

Lemma Set_delete_fresh (s : list A) (f : nat) :
  f ∉ map key s -> Set_delete key s f = s.
Proof.
  intros H. unfold Set_delete. induction s as [| x s IH]; [reflexivity |].
  simpl in H. apply not_elem_of_cons in H as [Hx Hs].
  rewrite filter_cons_True by congruence. f_equal. apply IH, Hs.
Qed.

(** X1.  [setFromForeachable(val)] holds every member of [val], holds it
    once, and holds nothing else; where [val] holds each member once (as a
    [Set] does), the copy has the members of [val] in the order of [val];
    copying the copy changes nothing. *)
Theorem setFromForeachable_copy (val : list A) :
  NoDup (map key (setFromForeachable key val))
  /\ (forall k, k ∈ map key (setFromForeachable key val) <-> k ∈ map key val)
  /\ (NoDup (map key val) -> setFromForeachable key val = val)
  /\ setFromForeachable key (setFromForeachable key val) =
       setFromForeachable key val.
Proof.
  destruct (setFromForeachable_keys key val) as [H1 H2].
  assert (H3 : forall l, NoDup (map key l) -> setFromForeachable key l = l).
  { intros l Hl. unfold setFromForeachable. apply (fold_Set_add_fresh l []), Hl. }
  split; [exact H1 |]. split; [exact H2 |]. split; [apply H3 |].
  apply H3, H1.
Qed.
End JsSetCopies.

(** The copy of a set of three functions. *)
Lemma setFromForeachable_copy_witness :
  setFromForeachable id [3; 1; 2] = [3; 1; 2].
Proof.
  apply (proj1 (proj2 (proj2 (setFromForeachable_copy id [3; 1; 2])))).
  apply (bool_decide_unpack _). vm_compute. exact I.
Defined.

Lemma with_subscribers_same st : with_subscribers (subscribers st) st = st.
Proof. destruct st. reflexivity. Qed.

(** X2.  Subscribing a function that is not subscribed puts it last in the
    set, and calling the function that [subscribe] returned takes it out
    again: the store is as it was before. *)
Theorem subscribe_then_unsubscribe st (fn : Subscriber) :
  fst fn ∉ map fst (subscribers st) ->
  subscribers (subscribe st fn) = subscribers st ++ [fn]
  /\ unsubscribe (subscribe st fn) (fst fn) = st.
Proof.
  intros H.
  assert (E : Set_add fst (subscribers st) fn = subscribers st ++ [fn]).
  { unfold Set_add. destruct (Set_has fst (subscribers st) fn) eqn:Hh; [| reflexivity].
    apply Set_has_key in Hh. contradiction. }
  split; [exact E |].
  unfold unsubscribe, subscribe. cbn [subscribers with_subscribers]. rewrite E.
  unfold Set_delete. rewrite filter_app, filter_cons_False, filter_nil, app_nil_r
    by (intros Hn; apply Hn; reflexivity).
  fold (Set_delete fst (subscribers st) (fst fn)).
  rewrite Set_delete_fresh by exact H.
  destruct st. reflexivity.
Qed.

(** Subscribing a fourth function to the three of [store_stopping], and
    unsubscribing it. *)
Lemma subscribe_then_unsubscribe_witness :
  unsubscribe
    (subscribe Examples.store_stopping (4, fun _ _ => Ret VUndefined)) 4 =
  Examples.store_stopping.
Proof.
  refine (proj2 (subscribe_then_unsubscribe Examples.store_stopping
                   (4, fun _ _ => Ret VUndefined) _)).
  apply (bool_decide_unpack _). vm_compute. exact I.
Defined.

(** X3.  The subscribers are a set: subscribing a function that is
    subscribed changes nothing, so that one call of the function
    [subscribe] returned undoes any number of subscriptions.  That function
    removes its subscriber and no other, and calling it again changes
    nothing. *)
Theorem subscribe_twice st (fn : Subscriber) f :
  subscribe (subscribe st fn) fn = subscribe st fn
  /\ (fst fn ∉ map fst (subscribers
                          (unsubscribe (subscribe (subscribe st fn) fn) (fst fn))))
  /\ (forall g,
        g ∈ map fst (subscribers (unsubscribe st f)) <->
        g ∈ map fst (subscribers st) /\ g <> f)
  /\ unsubscribe (unsubscribe st f) f = unsubscribe st f.
Proof.
  assert (E : subscribe (subscribe st fn) fn = subscribe st fn).
  { assert (Hh : Set_has fst (Set_add fst (subscribers st) fn) fn = true).
    { apply Set_has_key. unfold Set_add.
      destruct (Set_has fst (subscribers st) fn) eqn:Hs.
      - apply Set_has_key, Hs.
      - rewrite map_app. apply elem_of_app. right. simpl. left. }
    unfold subscribe. cbn [subscribers with_subscribers].
    unfold Set_add at 1. rewrite Hh. reflexivity. }
  split; [exact E |]. split; [| split].
  - unfold unsubscribe. cbn [subscribers with_subscribers].
    intros H. apply Set_delete_keys in H as [_ H]. apply H. reflexivity.
  - intros g. unfold unsubscribe. cbn [subscribers with_subscribers].
    apply Set_delete_keys.
  - unfold unsubscribe. cbn [subscribers with_subscribers].
    rewrite (Set_delete_fresh fst (Set_delete fst (subscribers st) f) f);
      [reflexivity |].
    intros H. apply Set_delete_keys in H as [_ H]. apply H. reflexivity.
Qed.

(** ** A subscriber that throws *)

Lemma forEach_subscribers_app exec before after m s st :
  forEach_subscribers exec (before ++ after) m s st =
    call forEach_subscribers exec before m s st as _r on st2 in
    forEach_subscribers exec after m s st2.
Proof.
  revert st. induction before as [| sub before IH]; intros st; simpl.
  - reflexivity.
  - destruct (exec _ _) as [v st1 | | |]; simpl; try reflexivity. apply IH.
Qed.

Lemma forEach_subscribers_heap np fuel subscribersCopy m s :
  forall st st',
    forEach_subscribers (run np fuel) subscribersCopy m s st = Ok tt st' ->
    length (heap st) <= length (heap st').
Proof.
  induction subscribersCopy as [| sub rest IH]; intros st st' H; simpl in H.
  - injection H as <-. lia.
  - pose proof (run_extends np fuel (snd sub m s) (emit (EvSubscriber (fst sub) m s) st)) as G.
    destruct (run np fuel _ _) as [v st1 | | |]; simpl in H; try discriminate.
    destruct G as [G _]. simpl in G. specialize (IH _ _ H). lia.
Qed.

(** X4.  Take a commit whose handler has returned, and the copy of the
    subscriber set split at any of its members [sub].  If the subscribers
    before [sub] return and [sub] throws, [commit] throws the same
    exception from the store [sub] left, with the effects of the handler in
    place; the subscribers before [sub] and [sub] itself have been called
    for this commit, and those after [sub] have not. *)
Theorem subscriber_throws np fuel st _type _payload type payload st0 key
  handler res st1 before (sub : Subscriber) after st2 e st3 :
  toObjectStyle np st _type _payload = Ok (type, payload) st0 ->
  to_property_key type = Some key ->
  _mutations st0 !! key = Some handler ->
  run np fuel (handler (_state st0) payload)
    (emit (EvMutation key payload true) (with_isCommitting true st0)) = Ok res st1 ->
  let start := with_isCommitting (isCommitting st0) st1 in
  let r := length (heap start) in
  let mutationArguments :=
    OPlain (<["payload" := Data payload]> (<["type" := Data type]> ∅)) in
  setFromForeachable fst (subscribers start) = before ++ sub :: after ->
  forEach_subscribers (run np fuel) before (VObj r) (_state start)
    (snd (alloc mutationArguments start)) = Ok tt st2 ->
  run np fuel (snd sub (VObj r) (_state start))
    (emit (EvSubscriber (fst sub) (VObj r) (_state start)) st2) = Throw e st3 ->
  let called := drop (length (log st)) (log st3) in
  commit np fuel st _type _payload = Throw e st3
  /\ List.filter (is_delivery r) called =
       map (fun sub => EvSubscriber (fst sub) (VObj r) (_state start))
         (before ++ [sub])
  /\ forall f, f ∈ map fst after ->
               List.filter (delivered_to r f) called = [].
Proof.
  intros Ht Hk Hm Hr. cbn zeta. intros Hs Hb Hth.
  cbn [heap with_isCommitting _state subscribers] in *.
  set (m := OPlain (<["payload" := Data payload]> (<["type" := Data type]> ∅))) in *.
  set (start := with_isCommitting (isCommitting st0) st1) in *.
  assert (Hlen : length (heap st1) < length (heap (snd (alloc m start)))).
  { simpl. rewrite length_app. simpl. lia. }
  pose proof (forEach_subscribers_heap np fuel before _ _ _ _ Hb) as G2.
  assert (Hlt : length (heap st1) < length (heap st2)) by (simpl in G2, Hlen; lia).
  destruct (forEach_deliveries np fuel before _ _ _ _ Hlen Hb) as (l2 & E2 & F2).
  pose proof (run_extends np fuel (handler (_state st0) payload)
                (emit (EvMutation key payload true) (with_isCommitting true st0))) as E.
  rewrite Hr in E. destruct E as (_ & l1 & E1 & F1). simpl in E1, F1.
  pose proof (run_extends np fuel (snd sub (VObj (length (heap st1))) (_state st1))
                (emit (EvSubscriber (fst sub) (VObj (length (heap st1))) (_state st1)) st2))
    as E3.
  rewrite Hth in E3. destruct E3 as (_ & l3 & E3 & F3). simpl in E3, F3.
  destruct (toObjectStyle_inv _ _ _ _ _ _ Ht) as [L0 _].
  assert (Hcalled : drop (length (log st)) (log st3) =
                    [EvMutation key payload true] ++ l1 ++ l2 ++
                    [EvSubscriber (fst sub) (VObj (length (heap st1))) (_state st1)] ++ l3).
  { rewrite E3, E2. cbn [log alloc snd with_heap start with_isCommitting].
    rewrite E1, L0, <- !app_assoc. apply drop_app_length. }
  assert (Hfilter : List.filter (is_delivery (length (heap st1)))
                      (drop (length (log st)) (log st3)) =
                    map (fun sub => EvSubscriber (fst sub) (VObj (length (heap st1))) (_state st1))
                      (before ++ [sub])).
  { rewrite Hcalled, !List.filter_app, F2.
    rewrite (no_delivery_outside _ _ _ l1 (or_intror (Nat.le_refl _)) F1).
    rewrite (no_delivery_outside _ _ _ l3 (or_introl Hlt) F3).
    simpl. rewrite Nat.eqb_refl, map_app. reflexivity. }
  split; [| split; [exact Hfilter |]].
  - rewrite (commit_registered _ _ _ _ _ _ _ _ _ _ Ht Hk Hm), Hr. cbn [bind].
    cbn zeta. cbn [heap with_isCommitting _state subscribers].
    rewrite Hs, forEach_subscribers_app. fold m. fold start. rewrite Hb. cbn [bind].
    cbn [forEach_subscribers]. rewrite Hth. reflexivity.
  - intros f Hf. rewrite filter_delivered_to, Hfilter.
    destruct (setFromForeachable_keys fst (subscribers st1)) as [Hnd _].
    rewrite Hs in Hnd.
    assert (Hnd' : NoDup (map fst (before ++ [sub]))).
    { rewrite map_app in *. simpl in *.
      apply NoDup_app in Hnd as (N1 & N2 & N3).
      apply NoDup_app. split; [exact N1 |]. split.
      - intros x Hx Hx'. apply (N2 x Hx). apply list_elem_of_singleton in Hx'.
        subst x. left.
      - apply NoDup_singleton. }
    assert (Hnot : f ∉ map fst (before ++ [sub])).
    { rewrite map_app in *. simpl in *.
      apply NoDup_app in Hnd as (N1 & N2 & N3).
      intros Hin. apply elem_of_app in Hin as [Hin | Hin].
      - apply (N2 f Hin). right. exact Hf.
      - apply list_elem_of_singleton in Hin. subst f.
        apply NoDup_cons in N3 as [N3 _]. contradiction. }
    pose proof (count_delivered_to (length (heap st1)) f (_state st1) _ Hnd') as C.
    rewrite bool_decide_eq_false_2 in C by exact Hnot.
    apply length_zero_iff_nil. exact C.
Qed.

(** [store.commit(TEST, 2)] on [store_stopping]: the second subscriber
    throws "stop", and so does [commit]. *)
Lemma subscriber_throws_witness :
  commit true 10 Examples.store_stopping (VStr "TEST") (VNum 2) =
    Throw (Thrown (VStr "stop")) Examples.stopping_after_commit.
Proof.
  refine (proj1
    (subscriber_throws true 10 Examples.store_stopping
       (VStr "TEST") (VNum 2) (VStr "TEST") (VNum 2)
       Examples.store_stopping "TEST" Scenarios.add_to_a VUndefined
       Examples.stopping_after_handler
       [(1, fun _ _ => Ret VUndefined)] (2, fun _ _ => ThrowC (VStr "stop"))
       [(3, fun _ _ => Ret VUndefined)]
       Examples.stopping_after_first
       (Thrown (VStr "stop")) Examples.stopping_after_commit _ _ _ _ _ _ _)).
  - reflexivity.
  - reflexivity.
  - vm_compute; reflexivity.
  - vm_compute; reflexivity.
  - vm_compute; reflexivity.
  - vm_compute; reflexivity.
  - vm_compute; reflexivity.
Defined.

(** ** An action that throws *)

(** X5.  [dispatch] does not catch what the handler of the action throws:
    it throws the same exception itself, from the store the handler left,
    and returns no promise.  Nor does it set the write guard: where the
    guard applies (a development or test profile, [strict], no mutation
    running), an action that begins by assigning to a property of the state
    makes [dispatch] throw the guard's error, with nothing done but the
    call of the handler. *)
Theorem dispatch_handler_throws np fuel st a handler payload :
  _actions st !! a = Some handler ->
  (forall e st1,
     run np fuel (handler (_state st) payload) (emit (EvAction a payload) st) =
       Throw e st1 ->
     dispatch np fuel st (VStr a) payload = Throw e st1)
  /\ (forall l props k currentValue deps newVal cont fuel',
        handler (_state st) payload = SetProp (VObj l) k newVal cont ->
        heap st !! l = Some (OPlain props) ->
        props !! k = Some (Cell currentValue deps) ->
        strict st = true -> isCommitting st = false ->
        dispatch true (S fuel') st (VStr a) payload =
          Throw (JsError guard_message) (emit (EvAction a payload) st)).
Proof.
  intros Ha.
  assert (D : forall np fuel,
             dispatch np fuel st (VStr a) payload =
               call run np fuel (handler (_state st) payload)
                      (emit (EvAction a payload) st) as res on st1 in
               call isPromise st1 res as is_promise on st2 in
               if negb is_promise then Promise_resolve res st2 else Ok res st2).
  { intros np' fuel0. unfold dispatch, dispatch_with.
    rewrite toObjectStyle_string. cbn [bind to_property_key].
    unfold registry_get. rewrite Ha. reflexivity. }
  split.
  - intros e st1 H. rewrite D, H. reflexivity.
  - intros l props k cur deps newVal cont fuel' Hh Hl Hk Hs Hc.
    rewrite D, Hh. cbn [run]. unfold set_prop. cbn [heap emit strict isCommitting].
    rewrite Hl, Hk, Hs, Hc. reflexivity.
Qed.

(** [store.dispatch("set", 2)] where the action is
    [set({ state }, n) { state.a = n }]. *)
Lemma dispatch_handler_throws_witness :
  dispatch true 5 Examples.store_assigning (VStr "set") (VNum 2) =
    Throw (JsError guard_message)
      (emit (EvAction "set" (VNum 2)) Examples.store_assigning).
Proof.
  refine (proj2
    (dispatch_handler_throws true 5 Examples.store_assigning "set"
       (fun state n => SetProp state "a" n (Ret VUndefined)) (VNum 2) _)
    0 (<["a" := Cell (VNum 1) []]> ∅) "a" (VNum 1) [] (VNum 2) (Ret VUndefined) 4
    _ _ _ _ _).
  - vm_compute; reflexivity.
  - vm_compute; reflexivity.
  - vm_compute; reflexivity.
  - vm_compute; reflexivity.
  - vm_compute; reflexivity.
  - vm_compute; reflexivity.
Defined.

(** ** The write guard between calls *)

(** X6.  On the store the constructor returns the write guard is off, and
    whatever is then done with the store (commits, dispatches, reads of
    getters and of the state, subscriptions, in any number and nested in any
    way) leaves the guard off, and [strict] as the options gave it, provided
    nothing throws while it is done: a program of [cmd] that returns is one
    in which no handler, subscriber or getter threw and no commit or
    dispatch failed.  (Where something throws, the guard can stay on: that
    is C4.) *)
Theorem guard_off_after_script np fuel options st fuel' code v st' :
  new_Store np fuel options = Ok tt st ->
  run np fuel' code st = Ok v st' ->
  isCommitting st = false /\ isCommitting st' = false
  /\ strict st' = o_strict options.
Proof.
  intros Hn Hr. destruct (new_Store_guard _ _ _ _ Hn) as [Hs Hc].
  pose proof (run_guard np fuel' code st) as G. rewrite Hr in G.
  destruct G as (G1 & G2 & _).
  split; [exact Hc |]. split; congruence.
Qed.

(** The test "committing mutations": [store.commit(TEST, 2); store.state.a]. *)
Lemma guard_off_after_script_witness :
  isCommitting (Scenarios.store_a true) = false
  /\ isCommitting
       (Scenarios.built
          (run true 10 (Commit (VStr "TEST") (VNum 2) (GetProp (VObj 0) "a" Ret))
             (Scenarios.store_a true))) = false
  /\ strict
       (Scenarios.built
          (run true 10 (Commit (VStr "TEST") (VNum 2) (GetProp (VObj 0) "a" Ret))
             (Scenarios.store_a true))) = true.
Proof.
  refine (guard_off_after_script true 5 Examples.options_a (Scenarios.store_a true)
            10 (Commit (VStr "TEST") (VNum 2) (GetProp (VObj 0) "a" Ret))
            (VNum 3) _ _ _).
  - vm_compute; reflexivity.
  - vm_compute; reflexivity.
Defined.

(** ** Reading what was written *)

(** X7.  After an assignment [o[k] = v] that returns, [o[k]] reads [v]
    (and, outside the registration of a getter, the read changes nothing),
    and every other property, of [o] or of another object, reads as
    before. *)
Theorem get_after_set np st o k v st' :
  set_prop np st o k v = Ok tt st' ->
  (exists st'', get_prop st' o k = Ok v st'')
  /\ (runningReaction st = None -> get_prop st' o k = Ok v st')
  /\ (forall o' k' w st1,
        (o', k') <> (o, k) ->
        get_prop st o' k' = Ok w st1 ->
        exists st1', get_prop st' o' k' = Ok w st1').
Proof.
  intros H.
  destruct (set_prop_wiring _ _ _ _ _ _ H) as (_ & _ & _ & _ & _ & Hr & _).
  destruct (set_prop_heap _ _ _ _ _ _ H) as (l & props & -> & Hl & Hh).
  assert (Hs : exists s, heap st' = define l k s (heap st) /\
                         (s = Data v \/ exists deps, s = Cell v deps)).
  { destruct Hh as [(cur & deps & _ & E) | E]; eexists; (split; [exact E |]);
      [right; eexists; reflexivity | left; reflexivity]. }
  destruct Hs as (s & E & Hs).
  assert (L : heap st' !! l = Some (OPlain (<[k := s]> props))).
  { rewrite E. apply lookup_define_plain, Hl. }
  split; [| split].
  - unfold get_prop. rewrite L, lookup_insert_eq.
    destruct Hs as [-> | (deps & ->)]; [eexists; reflexivity |].
    destruct (runningReaction st'); eexists; reflexivity.
  - intros Hn. unfold get_prop. rewrite L, lookup_insert_eq, Hr, Hn.
    destruct Hs as [-> | (deps & ->)]; reflexivity.
  - intros o' k' w st1 Hne Hg. unfold get_prop in *.
    destruct o' as [| | | | | | | | a' | l']; try discriminate.
    + destruct (bool_decide _); [| discriminate].
      injection Hg as <- _. eexists. reflexivity.
    + destruct (decide (l' = l)) as [-> | Hl'].
      * rewrite Hl in Hg. rewrite L.
        rewrite lookup_insert_ne by congruence.
        destruct (props !! k') as [[cur deps | w'] |].
        -- rewrite Hr. destruct (runningReaction st);
             injection Hg as <- _; eexists; reflexivity.
        -- injection Hg as <- _. eexists. reflexivity.
        -- destruct (inherited k').
           ++ destruct (String.eqb k' "__proto__"); [discriminate |].
              injection Hg as <- _. eexists. reflexivity.
           ++ injection Hg as <- _. eexists. reflexivity.
      * rewrite E, lookup_define_ne by congruence.
        destruct (heap st !! l') as [[props' | p] |]; try discriminate.
        -- destruct (props' !! k') as [[cur deps | w'] |].
           ++ rewrite Hr. destruct (runningReaction st);
                injection Hg as <- _; eexists; reflexivity.
           ++ injection Hg as <- _. eexists. reflexivity.
           ++ destruct (inherited k').
              ** destruct (String.eqb k' "__proto__"); [discriminate |].
                 injection Hg as <- _. eexists. reflexivity.
              ** injection Hg as <- _. eexists. reflexivity.
        -- destruct (bool_decide _).
           ++ injection Hg as <- _. eexists. reflexivity.
           ++ destruct (inherited k'); [discriminate |].
              injection Hg as <- _. eexists. reflexivity.
Qed.

(** [state.a = 5] inside a mutation, on the store of the tests. *)
Lemma get_after_set_witness :
  exists st'',
    get_prop
      (Scenarios.built
         (set_prop true (with_isCommitting true (Scenarios.store_a true))
            (VObj 0) "a" (VNum 5)))
      (VObj 0) "a" = Ok (VNum 5) st''.
Proof.
  refine (proj1 (get_after_set true (with_isCommitting true (Scenarios.store_a true))
                   (VObj 0) "a" (VNum 5) _ _)).
  vm_compute; reflexivity.
Defined.

(** ** Reading a getter *)

(** X8.  A read of a registered getter that returns leaves the getter
    clean: reading it again at once returns the same value, calls nothing
    and changes nothing, whatever the getter's function did while it ran. *)
Theorem getter_read_twice np fuel st k c v st' :
  _getters st !! k = Some c ->
  getters np fuel st k = Ok v st' ->
  forall fuel', getters np fuel' st' k = Ok v st'.
Proof.
  intros Hk H fuel'.
  destruct (closures st !! c) as [cl |] eqn:Hc.
  2:{ unfold getters, getters_get, getter_get in H. rewrite Hk, Hc in H. discriminate. }
  destruct (gc_isDirty cl) eqn:Hd.
  - rewrite (getter_recomputed np fuel st k c cl Hk Hc Hd) in H.
    destruct (run np fuel (gc_handler cl (_state st)) (emit (EvGetter c) st))
      as [value st1 | | |] eqn:Hr; simpl in H; try discriminate.
    destruct (getter_recomputed_then_cached np fuel st k c cl value st1 Hk Hc Hd Hr)
      as (st2 & G & _ & N).
    rewrite (getter_recomputed np fuel st k c cl Hk Hc Hd), Hr in G. simpl in G.
    rewrite H in G. injection G as <- <-. apply N.
  - rewrite (getter_cached np fuel st k c cl Hk Hc Hd) in H.
    injection H as <- <-. apply (getter_cached np fuel' st k c cl Hk Hc Hd).
Qed.

(** [store.commit(TEST, 1); store.getters.state; store.getters.state] on
    the store of the getter tests. *)
Lemma getter_read_twice_witness :
  getters true 10
    (Scenarios.built
       (run true 10 (Commit (VStr "TEST") (VNum 1) (ReadGetter "state" Ret))
          Scenarios.store_getter)) "state" =
  Ok (VStr "hasAny")
    (Scenarios.built
       (run true 10 (Commit (VStr "TEST") (VNum 1) (ReadGetter "state" Ret))
          Scenarios.store_getter)).
Proof.
  refine (getter_read_twice true 10
            (Scenarios.built
               (run true 10 (Commit (VStr "TEST") (VNum 1) (Ret VUndefined))
                  Scenarios.store_getter))
            "state" 0 (VStr "hasAny") _ _ _ 10).
  - vm_compute; reflexivity.
  - vm_compute; reflexivity.
Defined.

(** X9.  A write to a state property, seen from a getter that is clean:
    the write calls the function of no getter; the next read of the getter
    calls its function, on the state as the write left it, exactly when the
    value written differs ([!==]) from the one held and the reaction of the
    getter is in the [deps] of the property; otherwise the read returns the
    cached value and calls nothing. *)
Theorem write_then_read_getter np fuel st l props k currentValue deps newVal st'
  g c cl :
  heap st !! l = Some (OPlain props) ->
  props !! k = Some (Cell currentValue deps) ->
  _getters st !! g = Some c ->
  closures st !! c = Some cl ->
  gc_isDirty cl = false ->
  set_prop np st (VObj l) k newVal = Ok tt st' ->
  (forall c', EvGetter c' ∉ drop (length (log st)) (log st'))
  /\ getters np fuel st' g =
       if strict_neq newVal currentValue && bool_decide (c ∈ deps) then
         call run np fuel (gc_handler cl (_state st')) (emit (EvGetter c) st')
           as value on st1 in
         Ok value
           (with_closures
              (alter (fun cl => GetterClosure (gc_handler cl) false value) c
                 (closures st1)) st1)
       else Ok (gc_value cl) st'.
Proof.
  intros Hl Hk Hg Hc Hd H.
  destruct (set_prop_wiring _ _ _ _ _ _ H) as (_ & Eg & _).
  rewrite <- Eg in Hg. clear Eg. rename Hg into Eg.
  split.
  - destruct (set_prop_fields _ _ _ _ _ _ H) as (_ & _ & _ & ds & E).
    intros c'. rewrite E, drop_app_length. intros Hin.
    apply list_elem_of_fmap in Hin as (x & Hx & _). discriminate.
  - unfold set_prop in H. rewrite Hl, Hk in H.
    destruct (strict st && negb (isCommitting st) && np); [discriminate |].
    injection H as <-.
    destruct (strict_neq newVal currentValue) eqn:Hn; cbn [andb].
    + destruct (bool_decide (c ∈ deps)) eqn:Hin.
      * pose proof (forEach_deps_dirty deps st c cl Hc) as D. rewrite Hin in D.
        rewrite (getter_recomputed np fuel _ g c _ Eg D eq_refl). reflexivity.
      * apply bool_decide_eq_false in Hin.
        apply (getter_cached np fuel _ g c cl Eg); [| exact Hd].
        cbn [closures with_heap]. rewrite forEach_deps_other by exact Hin. exact Hc.
    + apply (getter_cached np fuel _ g c cl Eg); [exact Hc | exact Hd].
Qed.

(** [state.a = 1] inside a mutation on the store of the getter tests, whose
    getter read [a] when it was registered: the next read of the getter
    calls [stateGetter]. *)
Lemma write_then_read_getter_witness :
  getters true 10
    (Scenarios.built
       (set_prop true (with_isCommitting true Scenarios.store_getter)
          (VObj 0) "a" (VNum 1))) "state" =
  call run true 10
         (Scenarios.stateGetter
            (_state (Scenarios.built
                       (set_prop true (with_isCommitting true Scenarios.store_getter)
                          (VObj 0) "a" (VNum 1)))))
         (emit (EvGetter 0)
            (Scenarios.built
               (set_prop true (with_isCommitting true Scenarios.store_getter)
                  (VObj 0) "a" (VNum 1))))
    as value on st1 in
  Ok value
    (with_closures
       (alter (fun cl => GetterClosure (gc_handler cl) false value) 0
          (closures st1)) st1).
Proof.
  refine (proj2
    (write_then_read_getter true 10 (with_isCommitting true Scenarios.store_getter)
       0 (<["a" := Cell (VNum 0) [0]]> ∅) "a" (VNum 0) [0] (VNum 1) _
       "state" 0 (GetterClosure Scenarios.stateGetter false (VStr "none"))
       _ _ _ _ _ _)).
  - vm_compute; reflexivity.
  - vm_compute; reflexivity.
  - vm_compute; reflexivity.
  - vm_compute; reflexivity.
  - vm_compute; reflexivity.
  - vm_compute; reflexivity.
Defined.

(** ** What the constructor registers *)

Lemma forEachEntry_inv {A} (handler : string -> A -> Store -> outcome unit)
  key val rest st st' :
  forEachEntry ((key, val) :: rest) handler st = Ok tt st' ->
  exists st1, handler key val st = Ok tt st1 /\ forEachEntry rest handler st1 = Ok tt st'.
Proof.
  simpl. destruct (handler key val st) as [[] st1 | | |]; simpl; try discriminate.
  intros H. exists st1. split; [reflexivity | exact H].
Qed.

Lemma union_insert_absorb {A} (m M : gmap string A) k x y :
  m !! k = Some x -> m ∪ <[k := y]> M = m ∪ M.
Proof.
  intros H. apply map_eq. intros i. rewrite !lookup_union.
  destruct (decide (i = k)) as [-> | Hne].
  - rewrite H, lookup_insert_eq. destruct (M !! k); reflexivity.
  - rewrite lookup_insert_ne by congruence. reflexivity.
Qed.

Lemma union_insert_fresh {A} (m M : gmap string A) k y :
  m !! k = None -> <[k := y]> m ∪ M = m ∪ <[k := y]> M.
Proof.
  intros H. rewrite <- insert_union_l. apply insert_union_r, H.
Qed.

Lemma own_names_cons {A} k (v : A) rest :
  own_names ((k, v) :: rest) =
    if inherited k then own_names rest else (k, v) :: own_names rest.
Proof.
  unfold own_names. destruct (inherited k) eqn:E.
  - apply filter_cons_False. simpl. rewrite E. discriminate.
  - apply filter_cons_True. simpl. exact E.
Qed.

Lemma registerAction_inv np type handler st st' :
  registerAction np type handler st = Ok tt st' ->
  (_actions st !! type = None /\ inherited type = false /\
   st' = with_actions (<[type := handler]> (_actions st)) st)
  \/ (np = false /\ st' = st /\
      (inherited type = true \/ exists x, _actions st !! type = Some x)).
Proof.
  unfold registerAction, registry_get. intros H.
  destruct (_actions st !! type) as [x |] eqn:E.
  - destruct np; [discriminate |]. injection H as <-.
    right. split; [reflexivity |]. split; [reflexivity |]. right. exists x. reflexivity.
  - destruct (inherited type) eqn:I.
    + destruct np; [discriminate |]. injection H as <-.
      right. split; [reflexivity |]. split; [reflexivity |]. left. reflexivity.
    + injection H as <-. left. split; [reflexivity |]. split; reflexivity.
Qed.

Lemma registerMutation_inv np type handler st st' :
  registerMutation np type handler st = Ok tt st' ->
  (_mutations st !! type = None /\ inherited type = false /\
   st' = with_mutations (<[type := handler]> (_mutations st)) st)
  \/ (np = false /\ st' = st /\
      (inherited type = true \/ exists x, _mutations st !! type = Some x)).
Proof.
  unfold registerMutation, registry_get. intros H.
  destruct (_mutations st !! type) as [x |] eqn:E.
  - destruct np; [discriminate |]. injection H as <-.
    right. split; [reflexivity |]. split; [reflexivity |]. right. exists x. reflexivity.
  - destruct (inherited type) eqn:I.
    + destruct np; [discriminate |]. injection H as <-.
      right. split; [reflexivity |]. split; [reflexivity |]. left. reflexivity.
    + injection H as <-. left. split; [reflexivity |]. split; reflexivity.
Qed.

Lemma with_actions_same st : with_actions (_actions st) st = st.
Proof. destruct st. reflexivity. Qed.

Lemma with_mutations_same st : with_mutations (_mutations st) st = st.
Proof. destruct st. reflexivity. Qed.

Lemma forEachEntry_registerAction np obj :
  forall st st',
    forEachEntry obj (registerAction np) st = Ok tt st' ->
    st' = with_actions (_actions st ∪ list_to_map (own_names obj)) st
    /\ (np = true ->
        NoDup (map fst obj) /\
        Forall (fun k => inherited k = false /\ _actions st !! k = None) (map fst obj)).
Proof.
  induction obj as [| [k h] rest IH]; intros st st' H.
  - simpl in H. injection H as <-. split.
    + unfold own_names. rewrite filter_nil. simpl.
      rewrite (right_id_L ∅ (∪)). symmetry. apply with_actions_same.
    + intros _. split; constructor.
  - apply forEachEntry_inv in H as (st1 & H1 & H2).
    destruct (IH _ _ H2) as [E N]. clear IH.
    rewrite own_names_cons.
    apply registerAction_inv in H1
      as [(Hk & Hi & ->) | (-> & -> & Hc)].
    + rewrite Hi. split.
      * rewrite E. cbn [_actions with_actions]. simpl.
        rewrite union_insert_fresh by exact Hk. reflexivity.
      * intros ->. destruct (N eq_refl) as [Nd F]. cbn [_actions with_actions] in F.
        simpl. split.
        -- apply NoDup_cons. split; [| exact Nd].
           intros Hin. rewrite Forall_forall in F. destruct (F k Hin) as [_ F'].
           rewrite lookup_insert_eq in F'. discriminate.
        -- constructor; [split; assumption |].
           eapply Forall_impl; [exact F |]. intros k' [F1 F2]. split; [exact F1 |].
           destruct (decide (k' = k)) as [-> | Hne]; [exact Hk |].
           rewrite lookup_insert_ne in F2 by congruence. exact F2.
    + split; [| discriminate]. rewrite E.
      destruct (inherited k) eqn:Hi; [reflexivity |].
      destruct Hc as [Hc | (x & Hx)]; [discriminate |].
      simpl. rewrite (union_insert_absorb _ _ _ _ _ Hx). reflexivity.
Qed.

Lemma forEachEntry_registerMutation np obj :
  forall st st',
    forEachEntry obj (registerMutation np) st = Ok tt st' ->
    st' = with_mutations (_mutations st ∪ list_to_map (own_names obj)) st
    /\ (np = true ->
        NoDup (map fst obj) /\
        Forall (fun k => inherited k = false /\ _mutations st !! k = None) (map fst obj)).
Proof.
  induction obj as [| [k h] rest IH]; intros st st' H.
  - simpl in H. injection H as <-. split.
    + unfold own_names. rewrite filter_nil. simpl.
      rewrite (right_id_L ∅ (∪)). symmetry. apply with_mutations_same.
    + intros _. split; constructor.
  - apply forEachEntry_inv in H as (st1 & H1 & H2).
    destruct (IH _ _ H2) as [E N]. clear IH.
    rewrite own_names_cons.
    apply registerMutation_inv in H1
      as [(Hk & Hi & ->) | (-> & -> & Hc)].
    + rewrite Hi. split.
      * rewrite E. cbn [_mutations with_mutations]. simpl.
        rewrite union_insert_fresh by exact Hk. reflexivity.
      * intros ->. destruct (N eq_refl) as [Nd F]. cbn [_mutations with_mutations] in F.
        simpl. split.
        -- apply NoDup_cons. split; [| exact Nd].
           intros Hin. rewrite Forall_forall in F. destruct (F k Hin) as [_ F'].
           rewrite lookup_insert_eq in F'. discriminate.
        -- constructor; [split; assumption |].
           eapply Forall_impl; [exact F |]. intros k' [F1 F2]. split; [exact F1 |].
           destruct (decide (k' = k)) as [-> | Hne]; [exact Hk |].
           rewrite lookup_insert_ne in F2 by congruence. exact F2.
    + split; [| discriminate]. rewrite E.
      destruct (inherited k) eqn:Hi; [reflexivity |].
      destruct Hc as [Hc | (x & Hx)]; [discriminate |].
      simpl. rewrite (union_insert_absorb _ _ _ _ _ Hx). reflexivity.
Qed.

Lemma getters_get_wiring np fuel st k :
  holds wiring_kept (fun _ => wiring_kept) st (getters_get (run np fuel) st k).
Proof.
  apply (holds_getters_get np _ _ (wiring_respected np)). apply run_wiring.
Qed.

Lemma getters_get_extends np fuel st k :
  holds extends (fun _ => extends) st (getters_get (run np fuel) st k).
Proof.
  apply (holds_getters_get np _ _ (extends_respected np)). apply run_extends.
Qed.

(** [registerGetter] on a name that is not taken. *)
Lemma registerGetter_fresh np fuel k h st st' :
  registerGetter np (run np fuel) k h st = Ok tt st' ->
  _getters st !! k = None -> inherited k = false ->
  _getters st' = <[k := length (closures st)]> (_getters st)
  /\ map gc_handler (closures st') = map gc_handler (closures st) ++ [h]
  /\ (exists l, log st' = log st ++ EvGetter (length (closures st)) :: l)
  /\ runningReaction st' = None
  /\ _state st' = _state st /\ _actions st' = _actions st
  /\ _mutations st' = _mutations st.
Proof.
  unfold registerGetter, getters_get. intros H Hk Hi. rewrite Hk, Hi in H.
  cbn [bind truthy] in H. cbv beta iota in H.
  unfold getter_call in H. cbn [closures with_closures with_runningReaction] in H.
  rewrite lookup_app_r in H by lia. rewrite Nat.sub_diag in H. simpl in H.
  match type of H with
  | context [run np fuel ?c ?s] =>
    pose proof (run_wiring np fuel c s) as W;
    pose proof (run_extends np fuel c s) as X;
    destruct (run np fuel c s) as [value st2 | | |]; simpl in H; try discriminate
  end.
  destruct W as (_ & W1 & W2 & W3 & W4 & _ & _ & W5 & _).
  destruct X as (_ & l & X & _). simpl in W1, W2, W3, W4, W5, X.
  rewrite W2, Hk in H. injection H as <-. simpl.
  rewrite ?W2, ?W1, ?W3, ?W4.
  repeat split; try reflexivity.
  - rewrite map_handler_alter by reflexivity. rewrite W5, map_app. reflexivity.
  - exists l. rewrite X, <- app_assoc. reflexivity.
Qed.


(** [registerGetter] where it returns without registering: production
    only. *)
Lemma registerGetter_inv np fuel k h st st' :
  registerGetter np (run np fuel) k h st = Ok tt st' ->
  runningReaction st = None ->
  runningReaction st' = None /\ _state st' = _state st
  /\ _actions st' = _actions st /\ _mutations st' = _mutations st.
Proof.
  unfold registerGetter. intros H Hr.
  pose proof (getters_get_wiring np fuel st k) as W.
  destruct (getters_get (run np fuel) st k) as [existing st1 | | |] eqn:G;
    simpl in H; try discriminate.
  destruct W as (_ & W1 & _ & W3 & W4 & _ & W6 & _).
  destruct (truthy existing) eqn:T.
  - destruct np; [discriminate |]. injection H as <-.
    repeat split; congruence.
  - unfold getter_call in H. cbn [closures with_closures with_runningReaction] in H.
    rewrite lookup_app_r in H by lia. rewrite Nat.sub_diag in H. simpl in H.
    match type of H with
    | context [run np fuel ?c ?s] =>
      pose proof (run_wiring np fuel c s) as W';
      destruct (run np fuel c s) as [value st2 | | |]; simpl in H; try discriminate
    end.
    destruct W' as (_ & V1 & _ & V3 & V4 & _). simpl in V1, V3, V4.
    destruct (_getters st2 !! k); [discriminate |]. injection H as <-. simpl.
    repeat split; congruence.
Qed.

Lemma forEachEntry_registerGetter_inv np fuel obj :
  forall st st',
    forEachEntry obj (registerGetter np (run np fuel)) st = Ok tt st' ->
    runningReaction st = None ->
    runningReaction st' = None /\ _state st' = _state st
    /\ _actions st' = _actions st /\ _mutations st' = _mutations st.
Proof.
  induction obj as [| [k h] rest IH]; intros st st' H Hr.
  - simpl in H. injection H as <-. repeat split; assumption || reflexivity.
  - apply forEachEntry_inv in H as (st1 & H1 & H2).
    destruct (registerGetter_inv _ _ _ _ _ _ H1 Hr) as (R1 & R2 & R3 & R4).
    destruct (IH _ _ H2 R1) as (S1 & S2 & S3 & S4).
    repeat split; congruence.
Qed.


Lemma forEachEntry_registerGetter np fuel obj :
  forall st st',
    forEachEntry obj (registerGetter np (run np fuel)) st = Ok tt st' ->
    NoDup (map fst obj) ->
    Forall (fun k => inherited k = false /\ _getters st !! k = None) (map fst obj) ->
    map gc_handler (closures st') = map gc_handler (closures st) ++ map snd obj
    /\ (forall i k h,
          obj !! i = Some (k, h) ->
          _getters st' !! k = Some (length (closures st) + i) /\
          EvGetter (length (closures st) + i) ∈ log st')
    /\ (forall k, k ∉ map fst obj -> _getters st' !! k = _getters st !! k)
    /\ (exists l, log st' = log st ++ l).
Proof.
  induction obj as [| [k h] rest IH]; intros st st' H Nd F.
  - simpl in H. injection H as <-. split; [simpl; rewrite app_nil_r; reflexivity |].
    split; [intros i k h Hi; rewrite lookup_nil in Hi; discriminate |].
    split; [reflexivity |]. exists []. rewrite app_nil_r. reflexivity.
  - apply forEachEntry_inv in H as (st1 & H1 & H2).
    simpl in Nd, F. apply NoDup_cons in Nd as [Hnk Nd].
    apply Forall_cons in F as [[Hi Hk] F].
    destruct (registerGetter_fresh _ _ _ _ _ _ H1 Hk Hi)
      as (G & C & (l1 & L1) & _).
    assert (Len : length (closures st1) = S (length (closures st))).
    { apply (f_equal (@length _)) in C. rewrite length_app in C.
      rewrite !length_map in C. simpl in C. lia. }
    destruct (IH st1 st' H2 Nd) as (C' & I' & O' & (l2 & L2)).
    { apply Forall_forall. intros k' Hin. rewrite Forall_forall in F.
      destruct (F k' Hin) as [F1 F2]. split; [exact F1 |].
      rewrite G, lookup_insert_ne; [exact F2 |]. intros ->. contradiction. }
    split; [rewrite C', C, <- app_assoc; reflexivity |].
    split; [| split].
    + intros [| i] k0 h0 Hl; simpl in Hl.
      * injection Hl as <- <-. rewrite Nat.add_0_r.
        rewrite (O' k Hnk), G, lookup_insert_eq. split; [reflexivity |].
        rewrite L2, L1. apply elem_of_app. left. apply elem_of_app. right. left.
      * destruct (I' i k0 h0 Hl) as [I1 I2]. rewrite Len in I1, I2.
        replace (length (closures st) + S i) with (S (length (closures st)) + i) by lia.
        split; assumption.
    + intros k0 Hk0. simpl in Hk0. apply not_elem_of_cons in Hk0 as [Hne Hk0].
      rewrite (O' k0 Hk0), G. apply lookup_insert_ne. congruence.
    + exists (EvGetter (length (closures st)) :: l1 ++ l2).
      rewrite L2, L1, <- app_assoc. reflexivity.
Qed.

Lemma initial_fields options :
  _getters (initial options) = ∅ /\ closures (initial options) = [] /\
  _actions (initial options) = ∅ /\ _mutations (initial options) = ∅ /\
  runningReaction (initial options) = None /\ log (initial options) = [].
Proof.
  unfold initial, _initState.
  destruct (init_value (PObj (o_state options)) _) as [state h].
  repeat split; reflexivity.
Qed.

(** The three rounds of registration of the constructor. *)
Lemma new_Store_rounds np fuel options st :
  new_Store np fuel options = Ok tt st ->
  exists st1,
    forEachEntry (o_getters options) (registerGetter np (run np fuel))
      (initial options) = Ok tt st1
    /\ _actions st1 = ∅ /\ _mutations st1 = ∅ /\ runningReaction st1 = None
    /\ st = with_mutations (list_to_map (own_names (o_mutations options)))
              (with_actions (list_to_map (own_names (o_actions options))) st1)
    /\ (np = true ->
        NoDup (map fst (o_actions options)) /\
        Forall (fun k => inherited k = false) (map fst (o_actions options)) /\
        NoDup (map fst (o_mutations options)) /\
        Forall (fun k => inherited k = false) (map fst (o_mutations options))).
Proof.
  unfold new_Store. fold (initial options). intros H.
  destruct (forEachEntry (o_getters options) _ (initial options))
    as [[] st1 | | |] eqn:E1; simpl in H; try discriminate.
  destruct (forEachEntry (o_actions options) _ st1)
    as [[] st2 | | |] eqn:E2; simpl in H; try discriminate.
  destruct (initial_fields options) as (_ & _ & I3 & I4 & I5 & _).
  destruct (forEachEntry_registerGetter_inv _ _ _ _ _ E1 I5) as (R1 & _ & R3 & R4).
  rewrite I3 in R3. rewrite I4 in R4.
  destruct (forEachEntry_registerAction _ _ _ _ E2) as [A1 A2].
  destruct (forEachEntry_registerMutation _ _ _ _ H) as [M1 M2].
  rewrite R3, (left_id_L ∅ (∪)) in A1. subst st2.
  cbn [_mutations with_actions] in M1. rewrite R4, (left_id_L ∅ (∪)) in M1.
  exists st1. split; [reflexivity |]. split; [exact R3 |]. split; [exact R4 |].
  split; [exact R1 |]. split; [exact M1 |].
  intros ->. destruct (A2 eq_refl) as [A3 A4]. destruct (M2 eq_refl) as [M3 M4].
  split; [exact A3 |]. split; [eapply Forall_impl; [exact A4 | intros k [F _]; exact F] |].
  split; [exact M3 |]. eapply Forall_impl; [exact M4 | intros k [F _]; exact F].
Qed.

(** X10.  The store the constructor returns has as its mutations the
    [mutations] of the options, and as its actions their [actions], each
    under its name, except the entries named like a member of
    [Object.prototype], which it has not registered (in a development or
    test profile the constructor does not return with such an entry, by the
    next theorem).  Nothing done with the store afterwards changes the
    registries, the getters that exist, or the state object the store
    hands out. *)
Theorem new_Store_registries np fuel options st :
  new_Store np fuel options = Ok tt st ->
  _actions st = list_to_map (own_names (o_actions options))
  /\ _mutations st = list_to_map (own_names (o_mutations options))
  /\ (forall fuel' code v st',
        run np fuel' code st = Ok v st' ->
        _actions st' = _actions st /\ _mutations st' = _mutations st /\
        _getters st' = _getters st /\ _state st' = _state st)
  /\ (forall fuel' code e st',
        run np fuel' code st = Throw e st' ->
        _actions st' = _actions st /\ _mutations st' = _mutations st /\
        _getters st' = _getters st /\ _state st' = _state st).
Proof.
  intros H. destruct (new_Store_rounds _ _ _ _ H) as (st1 & _ & _ & _ & _ & E & _).
  split; [rewrite E; reflexivity |]. split; [rewrite E; reflexivity |]. split.
  - intros fuel' code v st' Hr.
    pose proof (run_wiring np fuel' code st) as W. rewrite Hr in W.
    destruct W as (_ & W1 & W2 & W3 & W4 & _). repeat split; assumption.
  - intros fuel' code e st' Hr.
    pose proof (run_wiring np fuel' code st) as W. rewrite Hr in W.
    destruct W as (_ & W1 & W2 & W3 & W4 & _). repeat split; assumption.
Qed.

(** The store of the tests has the one mutation of its options. *)
Lemma new_Store_registries_witness :
  _mutations (Scenarios.store_a true) =
    list_to_map (own_names (o_mutations Examples.options_a)).
Proof.
  refine (proj1 (proj2
    (new_Store_registries true 5 Examples.options_a (Scenarios.store_a true) _))).
  vm_compute; reflexivity.
Defined.



(** X12.  The constructor evaluates the getters when it registers them: in
    the store it returns every getter of the options is registered under
    its name, as a closure of its own that holds the function the options
    gave, and that function has been called; there are as many closures as
    getters, and no other name is a getter.  (The names are distinct, as the
    entries of an object are, and supposed not to be those of
    [Object.prototype]: in a development or test profile the constructor
    returns in no other case.) *)
Theorem new_Store_getters np fuel options st :
  new_Store np fuel options = Ok tt st ->
  NoDup (map fst (o_getters options)) ->
  Forall (fun k => inherited k = false) (map fst (o_getters options)) ->
  length (closures st) = length (o_getters options)
  /\ (forall k handler,
        (k, handler) ∈ o_getters options ->
        exists c,
          _getters st !! k = Some c /\
          gc_handler <$> closures st !! c = Some handler /\
          EvGetter c ∈ log st)
  /\ (forall k, k ∉ map fst (o_getters options) -> _getters st !! k = None).
Proof.
  intros H Nd F.
  destruct (new_Store_rounds _ _ _ _ H) as (st1 & G & _ & _ & _ & -> & _).
  destruct (initial_fields options) as (I1 & I2 & _).
  destruct (forEachEntry_registerGetter _ _ _ _ _ G Nd) as (C & I & O & _).
  { eapply Forall_impl; [exact F |]. intros k Hk. split; [exact Hk |].
    rewrite I1. apply lookup_empty. }
  rewrite I2 in C, I. rewrite I1 in O. simpl in C, I.
  cbn [closures _getters log with_mutations with_actions].
  split; [| split].
  - apply (f_equal (@length _)) in C. rewrite !length_map in C. exact C.
  - intros k handler Hin. apply list_elem_of_lookup in Hin as (i & Hi).
    destruct (I i k handler Hi) as [I3 I4].
    exists i. split; [exact I3 |]. split; [| exact I4].
    apply (f_equal (fun l => l !! i)) in C.
    rewrite !list_lookup_fmap, Hi in C. exact C.
  - intros k Hk. rewrite (O k Hk). apply lookup_empty.
Qed.

(** The store with the getters [b] and [1]: both are registered, each with
    its function, and both functions have been called. *)
Lemma new_Store_getters_witness :
  length (closures Examples.store_two_getters) = 2
  /\ exists c,
       _getters Examples.store_two_getters !! "b" = Some c /\
       gc_handler <$> closures Examples.store_two_getters !! c =
         Some (fun state => GetProp state "a" Ret) /\
       EvGetter c ∈ log Examples.store_two_getters.
Proof.
  pose proof (new_Store_getters true 5 Examples.options_two_getters
                Examples.store_two_getters
                ltac:(vm_compute; reflexivity)
                ltac:(apply (bool_decide_unpack _); vm_compute; exact I)
                ltac:(apply (bool_decide_unpack _); vm_compute; exact I))
    as (L & G & _).
  split; [exact L |].
  apply (G "b" (fun state => GetProp state "a" Ret)).
  right. left.
Defined.

(** ** Dependencies are collected by the constructor alone *)

Lemma new_Store_runningReaction np fuel options st :
  new_Store np fuel options = Ok tt st -> runningReaction st = None.
Proof.
  intros H. destruct (new_Store_rounds _ _ _ _ H) as (st1 & _ & _ & _ & R & -> & _).
  exact R.
Qed.

(** X13.  On the store the constructor returns no getter is being
    registered ([runningReaction] is null), and nothing done with the store
    changes that.  So after construction a read of a state property adds
    no dependency: whatever is done with the store, whether it returns or
    throws, the properties [_initState] defined and the [deps] of each
    are those the constructor left, on every object. *)
Theorem deps_fixed_after_construction np fuel options st :
  new_Store np fuel options = Ok tt st ->
  runningReaction st = None
  /\ (forall fuel' code v st',
        run np fuel' code st = Ok v st' ->
        runningReaction st' = None /\
        forall l k, deps_of (heap st') l k = deps_of (heap st) l k)
  /\ (forall fuel' code e st',
        run np fuel' code st = Throw e st' ->
        runningReaction st' = None /\
        forall l k, deps_of (heap st') l k = deps_of (heap st) l k).
Proof.
  intros H. pose proof (new_Store_runningReaction _ _ _ _ H) as R.
  split; [exact R |]. split.
  - intros fuel' code v st' Hr.
    pose proof (run_wiring np fuel' code st) as W. rewrite Hr in W.
    destruct W as (_ & _ & _ & _ & _ & _ & W1 & _ & W2).
    split; [congruence | apply W2, R].
  - intros fuel' code e st' Hr.
    pose proof (run_wiring np fuel' code st) as W. rewrite Hr in W.
    destruct W as (_ & _ & _ & _ & _ & _ & W1 & _ & W2).
    split; [congruence | apply W2, R].
Qed.

(** On the store with the getter [g: state => (state.a > 0 ? state.b : 0)],
    the second call of [g]'s function reads [b]; the [deps] of [b] stay
    empty. *)
Lemma deps_fixed_after_construction_witness :
  deps_of (heap (Scenarios.built Scenarios.b_if_a_first)) 0 "b" = Some [].
Proof.
  refine (eq_trans
    (proj2 (proj1 (proj2
       (deps_fixed_after_construction true 5
          (mkOptions [("a", PLeaf (VNum 0)); ("b", PLeaf (VNum 5))] []
             [("setA", fun state n => SetProp state "a" n (Ret VUndefined));
              ("setB", fun state n => SetProp state "b" n (Ret VUndefined))]
             [("g", Scenarios.b_if_a)] true)
          Scenarios.store_b_if_a _))
       10 (Commit (VStr "setA") (VNum 1) (ReadGetter "g" Ret)) (VNum 5)
       (Scenarios.built Scenarios.b_if_a_first) _) 0 "b") _).
  - vm_compute; reflexivity.
  - vm_compute; reflexivity.
  - vm_compute; reflexivity.
Defined.

(** X14.  The write guard protects the properties the constructor defined
    and no others: on an object created after the constructor has returned
    (a payload, the record of a mutation, an object a mutation has put into
    the state), no assignment throws, in any profile and whether or not a
    mutation is running. *)
Theorem created_objects_unguarded np fuel options st fuel' code v st' l :
  new_Store np fuel options = Ok tt st ->
  run np fuel' code st = Ok v st' ->
  length (heap st) <= l ->
  forall np' k newVal e st'',
    set_prop np' st' (VObj l) k newVal <> Throw e st''.
Proof.
  intros H Hr Hl np' k newVal e st''.
  pose proof (new_Store_runningReaction _ _ _ _ H) as R.
  pose proof (run_wiring np fuel' code st) as W. rewrite Hr in W.
  destruct W as (_ & _ & _ & _ & _ & _ & _ & _ & W).
  specialize (W R l k). unfold deps_of in W.
  rewrite (lookup_ge_None_2 (heap st) l Hl) in W.
  unfold set_prop.
  destruct (heap st' !! l) as [[props | p] |]; try discriminate.
  destruct (props !! k) as [[cur deps | w] |]; try discriminate.
  destruct (String.eqb k "__proto__"); discriminate.
Qed.

(** [state.a = { x: 1 }] in a mutation, then [state.a.x = 2] outside any
    mutation: the assignment does not throw. *)
Lemma created_objects_unguarded_witness :
  match
    set_prop true
      (Scenarios.built
         (run true 10
            (NewObject [("x", VNum 1)] (fun o => Commit (VStr "TEST") o (Ret o)))
            Scenarios.store_getter))
      (VObj 1) "x" (VNum 2)
  with
  | Throw _ _ => False
  | _ => True
  end.
Proof.
  pose proof (created_objects_unguarded true 5
                (mkOptions [("a", PLeaf (VNum 0))] []
                   [(Scenarios.TEST, Scenarios.assign_a)]
                   [("state", Scenarios.stateGetter)] true)
                Scenarios.store_getter 10
                (NewObject [("x", VNum 1)] (fun o => Commit (VStr "TEST") o (Ret o)))
                (VObj 1)
                (Scenarios.built
                   (run true 10
                      (NewObject [("x", VNum 1)]
                         (fun o => Commit (VStr "TEST") o (Ret o)))
                      Scenarios.store_getter))
                1 ltac:(vm_compute; reflexivity) ltac:(vm_compute; reflexivity)
                ltac:(vm_compute; lia) true "x" (VNum 2)) as H.
  destruct (set_prop true _ (VObj 1) "x" (VNum 2)) as [[] st1 | e st1 | |];
    [exact I | exact (H e st1 eq_refl) | exact I | exact I].
Defined.

(** ** The state object [_initState] builds *)






Lemma plain_at_snoc p path k :
  plain_at p (path ++ [k]) =
    match plain_at p path with
    | Some (PObj entries) => entry_of k entries
    | _ => None
    end.
Proof.
  revert p. induction path as [| k' path IH]; intros p; simpl.
  - destruct p as [v | es]; [reflexivity |]. destruct (entry_of k es); reflexivity.
  - destruct p as [v | es]; [reflexivity |].
    destruct (entry_of k' es) as [p' |]; [apply IH | reflexivity].
Qed.



(** ** Where the guard's error can come from *)

Lemma unguarded_respected np :
  respected np
    (fun a b => strict b = strict a /\ length (heap a) <= length (heap b))
    (fun e a b =>
       strict b = strict a /\
       (np = false \/ strict a = false -> e <> JsError guard_message)).
Proof.
  split.
  - intros a. split; [reflexivity | lia].
  - intros a b c [H1 H2] [H3 H4]. split; [congruence | lia].
  - intros e a b c [H1 H2] [H3 H4]. split; [congruence |].
    intros H. apply H4. destruct H as [H | H]; [left; exact H | right; congruence].
  - intros a b [_ H]. exact H.
  - intros a o k v b H.
    destruct (get_prop_inv _ _ _ _ _ H)
      as [-> | (l & props & deps & r & _ & _ & _ & _ & ->)].
    + split; [reflexivity | lia].
    + cbn [strict heap with_heap]. rewrite length_define. split; [reflexivity | lia].
  - intros a o k v b H. apply set_prop_inv in H as (l & s & deps & _ & ->).
    cbn [strict heap with_heap]. rewrite length_define.
    destruct (forEach_deps_fields deps a) as (_ & _ & _ & _ & _ & -> & _).
    split; [reflexivity | lia].
  - intros a o k v e b H.
    apply set_prop_throw in H as (-> & [-> | (-> & Hs & _ & ->)]).
    + split; [reflexivity | discriminate].
    + split; [reflexivity |]. intros [H | H]; congruence.
  - intros a e He. split; [reflexivity |]. intros _. apply He.
  - intros a o _. simpl. rewrite length_app. split; [reflexivity | lia].
  - intros a e _. simpl. split; [reflexivity | lia].
  - intros a b f r s H _. exact H.
  - intros a c b v H. exact H.
  - intros a s. simpl. split; [reflexivity | lia].
  - intros a b H. exact H.
  - intros e a b H. exact H.
Qed.

(** X16.  The guard's error is thrown only where the guard applies.  If
    anything done with a store (commits, dispatches, reads, writes,
    subscriptions, nested in any way) throws the error "do not mutate store
    state outside mutation handlers", then the profile is a development or
    test profile, the store is [strict], and what was done was started
    outside any mutation.  In production, with [strict] false, or from
    inside a mutation, that error is never thrown. *)
Theorem guard_error_only_when_guarded np fuel code st st' :
  run np fuel code st = Throw (JsError guard_message) st' ->
  np = true /\ strict st = true /\ isCommitting st = false.
Proof.
  intros H.
  pose proof (holds_run np _ _ (unguarded_respected np) fuel code st) as U.
  pose proof (run_guard np fuel code st) as G.
  rewrite H in U, G. destruct U as [_ U]. destruct G as [_ G].
  split; [| split].
  - destruct np; [reflexivity |]. exfalso. apply U; [left |]; reflexivity.
  - destruct (strict st); [reflexivity |]. exfalso. apply U; [right |]; reflexivity.
  - destruct (isCommitting st); [| reflexivity].
    exfalso. destruct (G eq_refl) as [_ G']. apply G'. reflexivity.
Qed.

(** [store.state.a = 5] outside any mutation, on the store of the tests. *)
Lemma guard_error_only_when_guarded_witness :
  true = true /\ strict (Scenarios.store_a true) = true
  /\ isCommitting (Scenarios.store_a true) = false.
Proof.
  refine (guard_error_only_when_guarded true 5
            (SetProp (VObj 0) "a" (VNum 5) (Ret VUndefined))
            (Scenarios.store_a true) (Scenarios.store_a true) _).
  vm_compute; reflexivity.
Defined.

(** ** Dependencies are never dropped *)

Lemma deps_grow_refl a : deps_grow a a.
Proof. split; [lia |]. intros l k deps H. exists deps. split; [exact H | reflexivity]. Qed.

Lemma deps_grow_trans a b c : deps_grow a b -> deps_grow b c -> deps_grow a c.
Proof.
  intros [H1 K1] [H2 K2]. split; [lia |]. intros l k deps H.
  destruct (K1 l k deps H) as (d1 & E1 & S1).
  destruct (K2 l k d1 E1) as (d2 & E2 & S2).
  exists d2. split; [exact E2 | etrans; eassumption].
Qed.

Lemma deps_grow_same a b : heap b = heap a -> deps_grow a b.
Proof. intros E. unfold deps_grow. rewrite E. apply deps_grow_refl. Qed.

Lemma deps_of_define_eq h l k cur deps props :
  h !! l = Some (OPlain props) ->
  deps_of (define l k (Cell cur deps) h) l k = Some deps.
Proof.
  intros H. unfold deps_of. rewrite (lookup_define_plain _ _ _ _ _ H).
  rewrite lookup_insert_eq. reflexivity.
Qed.

Lemma deps_of_define_ne h l k s l' k' :
  (l, k) <> (l', k') -> deps_of (define l k s h) l' k' = deps_of h l' k'.
Proof.
  intros Hne. unfold deps_of. destruct (decide (l = l')) as [<- | Hl].
  - unfold define. rewrite list_lookup_alter_eq.
    destruct (h !! l) as [[props | p] |]; simpl; try reflexivity.
    rewrite lookup_insert_ne by congruence. reflexivity.
  - rewrite lookup_define_ne by exact Hl. reflexivity.
Qed.

Lemma get_prop_deps_grow st o k v st' :
  get_prop st o k = Ok v st' -> deps_grow st st'.
Proof.
  intros H.
  destruct (get_prop_inv _ _ _ _ _ H)
    as [-> | (l & props & deps & r & _ & Hl & Hk & _ & ->)];
    [apply deps_grow_refl |].
  split; cbn [heap with_heap]; [rewrite length_define; lia |].
  intros l' k' d Hd. destruct (decide ((l, k) = (l', k'))) as [E | Hne].
  - injection E as <- <-. rewrite (deps_of_define_eq _ _ _ _ _ _ Hl).
    unfold deps_of in Hd. rewrite Hl, Hk in Hd. injection Hd as <-.
    eexists. split; [reflexivity |]. intros x Hx. apply Set_add_elem. left. exact Hx.
  - rewrite deps_of_define_ne by exact Hne. exists d. split; [exact Hd | reflexivity].
Qed.

Lemma deps_grow_respected np : respected np deps_grow (fun _ => deps_grow).
Proof.
  split.
  - exact deps_grow_refl.
  - exact deps_grow_trans.
  - intros _. exact deps_grow_trans.
  - intros a b [H _]. exact H.
  - intros a o k v b. apply get_prop_deps_grow.
  - intros a o k v b H. split.
    + destruct (set_prop_fields _ _ _ _ _ _ H) as (E & _). lia.
    + intros l' k' d Hd. exists d. split; [| reflexivity].
      rewrite (set_prop_deps_of _ _ _ _ _ _ H). exact Hd.
  - intros a o k v e b H. apply set_prop_throw in H as (-> & _).
    apply deps_grow_refl.
  - intros a e _. apply deps_grow_refl.
  - intros a o Ho. split; simpl; [rewrite length_app; lia |].
    intros l k d Hd. exists d. split; [| reflexivity].
    rewrite deps_of_alloc by exact Ho. exact Hd.
  - intros a e _. apply deps_grow_same. reflexivity.
  - intros a b f r s H _. exact H.
  - intros a c b v H. exact H.
  - intros a s. apply deps_grow_same. reflexivity.
  - intros a b H. exact H.
  - intros _ a b H. exact H.
Qed.

Lemma run_deps_grow np fuel code st :
  holds deps_grow (fun _ => deps_grow) st (run np fuel code st).
Proof. apply holds_run, deps_grow_respected. Qed.

(** X17.  No dependency is ever dropped: whatever is done with a store,
    whether it returns or throws, every property [_initState] defined is
    still such a property afterwards, and every reaction in its [deps] is
    still there.  (A getter that has once read a property is invalidated by
    every later change of it, also when its function no longer reads the
    property.) *)
Theorem deps_only_grow np fuel code st l k deps :
  deps_of (heap st) l k = Some deps ->
  (forall v st',
     run np fuel code st = Ok v st' ->
     exists deps', deps_of (heap st') l k = Some deps' /\ deps ⊆ deps')
  /\ (forall e st',
        run np fuel code st = Throw e st' ->
        exists deps', deps_of (heap st') l k = Some deps' /\ deps ⊆ deps').
Proof.
  intros H. pose proof (run_deps_grow np fuel code st) as G. split.
  - intros v st' Hr. rewrite Hr in G. destruct G as [_ G]. apply G, H.
  - intros e st' Hr. rewrite Hr in G. destruct G as [_ G]. apply G, H.
Qed.

(** [store.commit(TEST, 1); store.getters.state] on the store of the getter
    tests: the reaction of the getter stays in the [deps] of [a]. *)
Lemma deps_only_grow_witness :
  exists deps',
    deps_of
      (heap (Scenarios.built
               (run true 10 (Commit (VStr "TEST") (VNum 1) (ReadGetter "state" Ret))
                  Scenarios.store_getter))) 0 "a" = Some deps'
    /\ [0] ⊆ deps'.
Proof.
  refine (proj1 (deps_only_grow true 10
                   (Commit (VStr "TEST") (VNum 1) (ReadGetter "state" Ret))
                   Scenarios.store_getter 0 "a" [0] _) (VStr "hasAny") _ _).
  - vm_compute; reflexivity.
  - vm_compute; reflexivity.
Defined.

(** X18.  What a getter's function reads first while the getter is
    registered is tracked: where the function begins by reading a property
    [_initState] defined, [registerGetter], if it returns, leaves the
    reaction of the new getter in the [deps] of that property. *)
Theorem first_read_is_tracked np fuel type handler st st' l k cont deps :
  registerGetter np (run np fuel) type handler st = Ok tt st' ->
  _getters st !! type = None -> inherited type = false ->
  handler (_state st) = GetProp (VObj l) k cont ->
  deps_of (heap st) l k = Some deps ->
  _getters st' !! type = Some (length (closures st))
  /\ exists deps',
       deps_of (heap st') l k = Some deps' /\
       length (closures st) ∈ deps' /\ deps ⊆ deps'.
Proof.
  intros H Hk Hi Hh Hd.
  destruct (registerGetter_fresh _ _ _ _ _ _ H Hk Hi) as (G & _).
  split; [rewrite G; apply lookup_insert_eq |].
  unfold registerGetter, getters_get in H. rewrite Hk, Hi in H.
  cbn [bind truthy] in H. cbv beta iota in H.
  unfold getter_call in H. cbn [closures with_closures with_runningReaction] in H.
  rewrite lookup_app_r in H by lia. rewrite Nat.sub_diag in H. simpl in H.
  rewrite Hh in H. destruct fuel as [| fuel]; [discriminate |].
  cbn [run] in H.
  unfold deps_of in Hd.
  destruct (heap st !! l) as [[props | p] |] eqn:Hl; try discriminate.
  destruct (props !! k) as [[cur d | w] |] eqn:Hp; try discriminate.
  injection Hd as ->.
  unfold get_prop in H. cbn [heap emit with_runningReaction with_closures runningReaction] in H.
  rewrite Hl, Hp in H. cbn [bind] in H.
  match type of H with
  | context [run np fuel ?c ?s] =>
    pose proof (run_deps_grow np fuel c s) as R;
    destruct (run np fuel c s) as [value st2 | | |]; simpl in H; try discriminate
  end.
  destruct R as [_ R]. cbn [heap with_heap] in R.
  destruct (R l k _ (deps_of_define_eq _ _ _ _ _ _ Hl)) as (deps' & E & S).
  destruct (_getters st2 !! type); [discriminate |]. injection H as <-.
  exists deps'. cbn [heap with_getters with_runningReaction with_closures].
  split; [exact E |]. split.
  - apply S, Set_add_elem. right. reflexivity.
  - intros x Hx. apply S, Set_add_elem. left. exact Hx.
Qed.

(** The getter of the getter tests, whose function begins with [state.a]:
    its registration leaves its reaction in the [deps] of [a]. *)
Lemma first_read_is_tracked_witness :
  _getters
    (Scenarios.built
       (registerGetter true (run true 5) "state" Scenarios.stateGetter
          (initial (mkOptions [("a", PLeaf (VNum 0))] [] [] [] true))))
    !! "state" = Some 0
  /\ exists deps',
       deps_of
         (heap
            (Scenarios.built
               (registerGetter true (run true 5) "state" Scenarios.stateGetter
                  (initial (mkOptions [("a", PLeaf (VNum 0))] [] [] [] true)))))
         0 "a" = Some deps'
       /\ 0 ∈ deps' /\ [] ⊆ deps'.
Proof.
  refine (first_read_is_tracked true 5 "state" Scenarios.stateGetter
            (initial (mkOptions [("a", PLeaf (VNum 0))] [] [] [] true))
            (Scenarios.built
               (registerGetter true (run true 5) "state" Scenarios.stateGetter
                  (initial (mkOptions [("a", PLeaf (VNum 0))] [] [] [] true))))
            0 "a"
            (fun a =>
               Ret (match a with
                    | VNum z => if (0 <? z)%Z then VStr "hasAny" else VStr "none"
                    | _ => VStr "none"
                    end))
            [] _ _ _ _ _).
  - vm_compute; reflexivity.
  - vm_compute; reflexivity.
  - vm_compute; reflexivity.
  - reflexivity.
  - vm_compute; reflexivity.
Defined.
